(** * AdOps: bidding-agent coordinator, status and event routes, auction page

    A shallow embedding of the parts of the AdOps repository that its
    specification talks about, followed by the properties proved of them.

    - [Agent]       : [src/agents/shared/intelligent-agent.ts]
    - [StatusRoute] : [src/app/api/status/route.ts]
    - [EventsRoute] : the events polling route
    - [AuctionPage] : [src/app/auction/[adSpotId]/page.tsx]

    JavaScript numbers are IEEE-754 binary64 values and are modelled by
    Rocq's primitive floats, so comparisons and subtraction compute exactly
    as they do in the program.  Times are integer milliseconds.  A callback
    that awaits is cut at its [await]s: every piece between two awaits is one
    atomic step of the event loop, taking what the await returned as input. *)

From Stdlib Require Import ZArith List Bool Lia Permutation Sorted.
From Stdlib Require Import Floats.PrimFloat.
From Stdlib Require Floats.FloatOps Floats.FloatAxioms Floats.SpecFloat.
From stdpp Require Import base option list gmap strings pretty.

Set Warnings "-inexact-float".

(** ** JavaScript values used by the program *)

Module JS.

Definition number : Set := float.

(** [a > b], [a < b] on numbers: false as soon as one side is NaN. *)
Definition gt (a b : number) : bool := PrimFloat.ltb b a.
Definition lt (a b : number) : bool := PrimFloat.ltb a b.
Definition minus (a b : number) : number := PrimFloat.sub a b.

(** Truthiness of a number: [0], [-0] and [NaN] are falsy. *)
Definition truthy_num (x : number) : bool :=
  negb (PrimFloat.eqb x 0%float || PrimFloat.is_nan x).

(** Truthiness of a possibly missing string: [undefined], [null] and the
    empty string are falsy. *)
Definition truthy_str (s : option string) : bool :=
  match s with
  | Some s => negb (String.eqb s "")
  | None => false
  end.

(** [x || null] on an optional number. *)
Definition num_or_null (x : option number) : option number :=
  match x with
  | Some v => if truthy_num v then Some v else None
  | None => None
  end.

(** [s || d] on an optional string. *)
Definition str_or (s : option string) (d : string) : string :=
  match s with
  | Some v => if String.eqb v "" then d else v
  | None => d
  end.

(** [`${s}`] for a possibly missing string. *)
Definition template (s : option string) : string :=
  match s with
  | Some v => v
  | None => "undefined"
  end.

(** A [Date] object: a time value in milliseconds, or Invalid Date. *)
Inductive Date :=
| DateMs (ms : Z)
| InvalidDate.

(** [a <= b] on dates compares time values; Invalid Date is NaN, so the
    comparison is false. *)
Definition date_le (a b : Date) : bool :=
  match a, b with
  | DateMs x, DateMs y => (x <=? y)%Z
  | _, _ => false
  end.

End JS.

(** ** The shape of the status response, shared by route and agents *)

Module Status.

(** [currentWinner] is read both as an object with an [agentId] and as a
    plain string; the empty state omits it. *)
Inductive Winner :=
| WinnerUndefined
| WinnerNull
| WinnerString (name : string)
| WinnerObject (agentId : option string).

Inductive AdImage :=
| ImageNull
| ImageString (path : string)
| ImageObject (url : option string).

Record Bid := {
  bidAgentId : string;
  bidAmount : JS.number;
  bidTimestamp : Z;
  bidTxHash : option string;
  bidThinking : option string;
  bidStrategy : option string;
  bidReasoning : option string;
  bidReflection : option string;
}.

Record Body := {
  adSpotId : string;
  currentBid : option JS.number;
  currentWinner : Winner;
  timeRemaining : option Z;
  auctionEnded : bool;
  winnerAdImage : AdImage;
  bidHistory : list Bid;
}.

(** [state.currentWinner?.agentId] *)
Definition winner_agentId (w : Winner) : option string :=
  match w with
  | WinnerObject a => a
  | _ => None
  end.

(** [state.winnerAdImage?.url] *)
Definition image_url (i : AdImage) : option string :=
  match i with
  | ImageObject u => u
  | _ => None
  end.

End Status.

(** ** The bidding agent ([IntelligentBiddingAgent]) *)

Module Agent.

Definition TimerId := nat.

(** The fields of the class that its scheduling and budget code reads or
    writes.  Wallets, network clients, the language model and the brand
    identity take no part in it. *)
Record IntelligentBiddingAgent := {
  agentName : string;
  maxBid : JS.number;
  isActive : bool;
  monitoringInterval : option TimerId;
  auctionEndMonitoringInterval : option TimerId;
  lastRefundAmount : option JS.number;
  currentAdSpotId : string;
  lastBidAmount : JS.number;
  isInAIReasoning : bool;
  refundPending : bool;
}.

Definition set_isActive (b : bool) (a : IntelligentBiddingAgent) :=
  {| agentName := agentName a; maxBid := maxBid a; isActive := b;
     monitoringInterval := monitoringInterval a;
     auctionEndMonitoringInterval := auctionEndMonitoringInterval a;
     lastRefundAmount := lastRefundAmount a;
     currentAdSpotId := currentAdSpotId a; lastBidAmount := lastBidAmount a;
     isInAIReasoning := isInAIReasoning a; refundPending := refundPending a |}.

Definition set_monitoringInterval (h : option TimerId) (a : IntelligentBiddingAgent) :=
  {| agentName := agentName a; maxBid := maxBid a; isActive := isActive a;
     monitoringInterval := h;
     auctionEndMonitoringInterval := auctionEndMonitoringInterval a;
     lastRefundAmount := lastRefundAmount a;
     currentAdSpotId := currentAdSpotId a; lastBidAmount := lastBidAmount a;
     isInAIReasoning := isInAIReasoning a; refundPending := refundPending a |}.

Definition set_auctionEndMonitoringInterval (h : option TimerId)
    (a : IntelligentBiddingAgent) :=
  {| agentName := agentName a; maxBid := maxBid a; isActive := isActive a;
     monitoringInterval := monitoringInterval a;
     auctionEndMonitoringInterval := h;
     lastRefundAmount := lastRefundAmount a;
     currentAdSpotId := currentAdSpotId a; lastBidAmount := lastBidAmount a;
     isInAIReasoning := isInAIReasoning a; refundPending := refundPending a |}.

Definition set_lastRefundAmount (r : option JS.number) (a : IntelligentBiddingAgent) :=
  {| agentName := agentName a; maxBid := maxBid a; isActive := isActive a;
     monitoringInterval := monitoringInterval a;
     auctionEndMonitoringInterval := auctionEndMonitoringInterval a;
     lastRefundAmount := r;
     currentAdSpotId := currentAdSpotId a; lastBidAmount := lastBidAmount a;
     isInAIReasoning := isInAIReasoning a; refundPending := refundPending a |}.

Definition set_currentAdSpotId (s : string) (a : IntelligentBiddingAgent) :=
  {| agentName := agentName a; maxBid := maxBid a; isActive := isActive a;
     monitoringInterval := monitoringInterval a;
     auctionEndMonitoringInterval := auctionEndMonitoringInterval a;
     lastRefundAmount := lastRefundAmount a;
     currentAdSpotId := s; lastBidAmount := lastBidAmount a;
     isInAIReasoning := isInAIReasoning a; refundPending := refundPending a |}.

Definition set_lastBidAmount (x : JS.number) (a : IntelligentBiddingAgent) :=
  {| agentName := agentName a; maxBid := maxBid a; isActive := isActive a;
     monitoringInterval := monitoringInterval a;
     auctionEndMonitoringInterval := auctionEndMonitoringInterval a;
     lastRefundAmount := lastRefundAmount a;
     currentAdSpotId := currentAdSpotId a; lastBidAmount := x;
     isInAIReasoning := isInAIReasoning a; refundPending := refundPending a |}.

Definition set_isInAIReasoning (b : bool) (a : IntelligentBiddingAgent) :=
  {| agentName := agentName a; maxBid := maxBid a; isActive := isActive a;
     monitoringInterval := monitoringInterval a;
     auctionEndMonitoringInterval := auctionEndMonitoringInterval a;
     lastRefundAmount := lastRefundAmount a;
     currentAdSpotId := currentAdSpotId a; lastBidAmount := lastBidAmount a;
     isInAIReasoning := b; refundPending := refundPending a |}.

Definition set_refundPending (b : bool) (a : IntelligentBiddingAgent) :=
  {| agentName := agentName a; maxBid := maxBid a; isActive := isActive a;
     monitoringInterval := monitoringInterval a;
     auctionEndMonitoringInterval := auctionEndMonitoringInterval a;
     lastRefundAmount := lastRefundAmount a;
     currentAdSpotId := currentAdSpotId a; lastBidAmount := lastBidAmount a;
     isInAIReasoning := isInAIReasoning a; refundPending := b |}.

(** The constructor's field initialisers. *)
Definition create (name : string) (max : JS.number) : IntelligentBiddingAgent :=
  {| agentName := name; maxBid := max; isActive := true;
     monitoringInterval := None; auctionEndMonitoringInterval := None;
     lastRefundAmount := None; currentAdSpotId := ""; lastBidAmount := 0%float;
     isInAIReasoning := false; refundPending := false |}.

(** *** [place_bid] tool *)

Record PlaceBidArgs := {
  argAdSpotId : option string;
  proposedAmount : JS.number;
  reasoning : string;
}.

(** One [post] of the tool to [/api/bid/:spotId]: the spot, the body
    ([thinking], [strategy]) and the headers [X-Proposed-Bid] and
    [X-Strategy-Reasoning]. *)
Record BidRequest := {
  reqSpotId : string;
  reqThinking : string;
  reqStrategy : string;
  reqProposedBid : JS.number;
  reqStrategyReasoning : string;
}.

Record Negotiation := {
  yourProposal : option JS.number;
  minimumToWin : option JS.number;
  negCurrentBid : option JS.number;
  negMessage : option string;
  suggestion : option JS.number;
}.

(** What [devnetClient.post] comes back with: a response ([status],
    [data.success] and the fields read from [data]), or an exception
    carrying [error.response?.status], [error.response?.data.negotiation]
    and the message of the error. *)
Inductive BidReply :=
| Responded (status : nat) (success : bool) (currentBid : JS.number)
    (auctionEndsIn : option JS.number) (transactionHash : option string)
| Failed (status : option nat) (negotiation : option Negotiation)
    (errorMessage : string).

(** [this.axiosWithPayment], the promise the constructor makes of the
    signer: it resolves to the axios client wrapped by the x402 payment
    interceptor, or it is rejected with an error, which the tool's [catch]
    reads like any other.  [post] is one call of [devnetClient.post], from
    the call to what it returns or throws; what the interceptor sends on
    the wire during that call, a second request carrying the payment after
    a 402 included, belongs to the library and is not told apart here. *)
Inductive PaymentClient :=
| ClientReady (post : BidRequest -> BidReply)
| ClientRejected (status : option nat) (negotiation : option Negotiation)
    (errorMessage : string).

(** The object the tool serialises as its answer.  The human-readable
    [message] built with [toFixed] is left out of [OverBudget] and
    [Accepted]; every other field is kept. *)
Inductive BidToolResult :=
| OverBudget (proposed maxAllowedBid totalBudget : JS.number)
| Accepted (currentBid : JS.number) (auctionEndsIn : option JS.number)
    (transactionHash : option string)
| BidFailed
| ProposalRejected (yourProposal minimumRequired currentBid : option JS.number)
    (message : string) (suggestion : option JS.number)
| NeedsNegotiation (minimumRequired currentBid : option JS.number)
    (message : string) (suggestion : option JS.number)
| BidError (message : string).

(** [error.response?.status === n] *)
Definition status_is (status : option nat) (n : nat) : bool :=
  match status with
  | Some m => Nat.eqb m n
  | None => false
  end.

Definition neg_field (f : Negotiation -> option JS.number)
    (n : option Negotiation) : option JS.number :=
  JS.num_or_null (n ≫= f).

Definition neg_message (n : option Negotiation) (d : string) : string :=
  JS.str_or (n ≫= negMessage) d.

(** The [catch] of the tool: a 400 is the rejected proposal, a 402 the
    demand to negotiate, anything else is passed on by its message. *)
Definition bidFailure (status : option nat) (neg : option Negotiation)
    (errorMessage : string) : BidToolResult :=
  if status_is status 400 then
    ProposalRejected (neg_field yourProposal neg) (neg_field minimumToWin neg)
      (neg_field negCurrentBid neg) (neg_message neg "Proposal too low")
      (neg_field suggestion neg)
  else if status_is status 402 then
    NeedsNegotiation (neg_field minimumToWin neg) (neg_field negCurrentBid neg)
      (neg_message neg "Negotiation required") (neg_field suggestion neg)
  else BidError errorMessage.

(** [placeBidTool.execute].  Returns the agent (its [lastBidAmount] may
    change), the tool's answer and the calls of [devnetClient.post] the
    tool made, each with the spot of its URL, its body and its two
    headers. *)
Definition placeBid (client : PaymentClient)
    (a : IntelligentBiddingAgent) (args : PlaceBidArgs)
    : IntelligentBiddingAgent * BidToolResult * list BidRequest :=
  let spotId := JS.str_or (argAdSpotId args) (currentAdSpotId a) in
  let maxAllowedBid := JS.minus (maxBid a) 0.08%float in
  if JS.gt (proposedAmount args) maxAllowedBid then
    (a, OverBudget (proposedAmount args) maxAllowedBid (maxBid a), [])
  else
    match client with
    | ClientRejected status neg msg => (a, bidFailure status neg msg, [])
    | ClientReady post =>
        let req := {| reqSpotId := spotId; reqThinking := reasoning args;
                      reqStrategy := "intelligent";
                      reqProposedBid := proposedAmount args;
                      reqStrategyReasoning := reasoning args |} in
        match post req with
        | Responded status success cur ends tx =>
            if Nat.eqb status 200 && success then
              (set_lastBidAmount cur a, Accepted cur ends tx, [req])
            else (a, BidFailed, [req])
        | Failed status neg msg => (a, bidFailure status neg msg, [req])
        end
    end.

(** *** [processEventPayment] *)

Inductive AdEventType := impression | click.

Record AdEvent := {
  eventId : string;
  eventType : AdEventType;
  campaignId : string;
  creativeId : string;
  eventTimestamp : string;
  eventBidAmount : JS.number;
}.

(** The wallet whose USDC balance [getUSDCBalance] reads. *)
Record Wallet := { usdc : JS.number }.

Definition getUSDCBalance (w : Wallet) : JS.number := usdc w.

Definition SAFETY_THRESHOLD : JS.number := 10.0%float.

(** Messages are kept as data instead of formatted text. *)
Inductive PaymentMessage :=
| BlockedOverMaxBid (amount max : JS.number)
| BlockedOverThreshold (amount threshold : JS.number)
| InsufficientFunds (balance needed : JS.number)
| PaymentSettled.

(** The [actionType] handed to [logAction]. *)
Inductive ActionType := payment_blocked | payment_failed | payment_sent.

Record PaymentResult := {
  success : bool;
  message : PaymentMessage;
  txHash : option string;
}.

(** [processEventPayment].  [mockTxHash] is the random hash the simulated
    payment draws.  The result comes with the wallet afterwards and the
    actions logged; [logAction] only prints, so the [catch] around the
    payment cannot be entered. *)
Definition processEventPayment (mockTxHash : string)
    (a : IntelligentBiddingAgent) (w : Wallet) (event : AdEvent)
    : PaymentResult * Wallet * list ActionType :=
  let fairAmount := eventBidAmount event in
  if JS.gt fairAmount (maxBid a) then
    ({| success := false; message := BlockedOverMaxBid fairAmount (maxBid a);
        txHash := None |}, w, [payment_blocked])
  else if JS.gt fairAmount SAFETY_THRESHOLD then
    ({| success := false;
        message := BlockedOverThreshold fairAmount SAFETY_THRESHOLD;
        txHash := None |}, w, [payment_blocked])
  else
    let currentBalance := getUSDCBalance w in
    if JS.lt currentBalance fairAmount then
      ({| success := false;
          message := InsufficientFunds currentBalance fairAmount;
          txHash := None |}, w, [payment_failed])
    else
      ({| success := true; message := PaymentSettled;
          txHash := Some mockTxHash |}, w, [payment_sent]).

(** *** The cases of [scripts/test-payment-safety.ts] *)

(** An agent with [maxBid = 5]. *)
Definition safetyAgent : IntelligentBiddingAgent := create "SafetyAgent" 5%float.

Definition adEvent (name : string) (kind : AdEventType) (x : JS.number) : AdEvent :=
  {| eventId := name; eventType := kind; campaignId := "camp_1";
     creativeId := "cr_1"; eventTimestamp := "2025-01-01T00:00:00.000Z";
     eventBidAmount := x |}.

(** The result of paying [x] out of a wallet holding [balance]. *)
Definition pay (balance x : JS.number) : PaymentResult :=
  (processEventPayment "0xabc" safetyAgent {| usdc := balance |}
     (adEvent "evt" click x)).1.1.

End Agent.

(** ** The agent on Node's event loop *)

Module Coordinator.
Import Agent.

Inductive IntervalKind := RefundMonitor | AuctionEndMonitor.

#[global] Instance IntervalKind_eq_dec : EqDecision IntervalKind.
Proof. solve_decision. Defined.

(** A [setInterval] registration that has not been cleared: its id, which
    callback it runs, the [adSpotId] the callback closes over and the
    period in milliseconds. *)
Record Interval := {
  ivId : TimerId;
  ivKind : IntervalKind;
  ivSpot : string;
  ivPeriod : Z;
}.

(** Where a running [decideBidStrategy] call stands: at its first
    [await getUSDCBalance()], at the balance read inside
    [startRefundMonitoring], or anywhere after, up to its [finally]. *)
Inductive DecisionPhase := AwaitingBalance | AwaitingBaseline | Reasoning.

Record DecisionTask := { dSpot : string; dPhase : DecisionPhase }.

(** A refund-monitor callback that has started and not returned: at
    [await getUSDCBalance()], or at the status request, holding the
    [currentBalance] and [refundAmount] it computed. *)
Inductive RefundPhase :=
| RefundAwaitingBalance
| RefundAwaitingStatus (currentBalance refundAmount : JS.number).

Record RefundTick := {
  rtMonitor : TimerId;
  rtSpot : string;
  rtPhase : RefundPhase;
}.

(** An auction-end callback that has started and not returned. *)
Inductive AuctionEndPhase := AwaitingStatus | GeneratingCreative.

Record AuctionEndTick := { aeSpot : string; aePhase : AuctionEndPhase }.

(** Timers and pending work.  [previousBalance] holds the closure variable
    of each refund monitor, by the id of its interval.  [timeouts] are the
    pending [setTimeout] callbacks, each with the [adSpotId] it will hand to
    [decideBidStrategy]; [immediates] counts pending [setImmediate]
    callbacks; [starts] are [start] calls at their balance read.  The last
    three fields only count what has happened. *)
Record EventLoop := {
  nextTimer : TimerId;
  intervals : list Interval;
  previousBalance : gmap nat JS.number;
  timeouts : list string;
  immediates : nat;
  starts : list string;
  decisions : list DecisionTask;
  refundTicks : list RefundTick;
  auctionEndTicks : list AuctionEndTick;
  decisionsStarted : nat;
  creativeRuns : nat;
  startCalls : nat;
}.

Definition set_nextTimer (x : TimerId) (l : EventLoop) : EventLoop :=
  {| nextTimer := x; intervals := intervals l; previousBalance :=
  previousBalance l; timeouts := timeouts l; immediates := immediates l;
  starts := starts l; decisions := decisions l; refundTicks := refundTicks
  l; auctionEndTicks := auctionEndTicks l; decisionsStarted :=
  decisionsStarted l; creativeRuns := creativeRuns l; startCalls :=
  startCalls l |}.

Definition set_intervals (x : list Interval) (l : EventLoop) : EventLoop :=
  {| nextTimer := nextTimer l; intervals := x; previousBalance :=
  previousBalance l; timeouts := timeouts l; immediates := immediates l;
  starts := starts l; decisions := decisions l; refundTicks := refundTicks
  l; auctionEndTicks := auctionEndTicks l; decisionsStarted :=
  decisionsStarted l; creativeRuns := creativeRuns l; startCalls :=
  startCalls l |}.

Definition set_previousBalance (x : gmap nat JS.number) (l : EventLoop) : EventLoop :=
  {| nextTimer := nextTimer l; intervals := intervals l; previousBalance :=
  x; timeouts := timeouts l; immediates := immediates l; starts := starts l;
  decisions := decisions l; refundTicks := refundTicks l; auctionEndTicks :=
  auctionEndTicks l; decisionsStarted := decisionsStarted l; creativeRuns :=
  creativeRuns l; startCalls := startCalls l |}.

Definition set_timeouts (x : list string) (l : EventLoop) : EventLoop :=
  {| nextTimer := nextTimer l; intervals := intervals l; previousBalance :=
  previousBalance l; timeouts := x; immediates := immediates l; starts :=
  starts l; decisions := decisions l; refundTicks := refundTicks l;
  auctionEndTicks := auctionEndTicks l; decisionsStarted := decisionsStarted
  l; creativeRuns := creativeRuns l; startCalls := startCalls l |}.

Definition set_immediates (x : nat) (l : EventLoop) : EventLoop :=
  {| nextTimer := nextTimer l; intervals := intervals l; previousBalance :=
  previousBalance l; timeouts := timeouts l; immediates := x; starts :=
  starts l; decisions := decisions l; refundTicks := refundTicks l;
  auctionEndTicks := auctionEndTicks l; decisionsStarted := decisionsStarted
  l; creativeRuns := creativeRuns l; startCalls := startCalls l |}.

Definition set_starts (x : list string) (l : EventLoop) : EventLoop :=
  {| nextTimer := nextTimer l; intervals := intervals l; previousBalance :=
  previousBalance l; timeouts := timeouts l; immediates := immediates l;
  starts := x; decisions := decisions l; refundTicks := refundTicks l;
  auctionEndTicks := auctionEndTicks l; decisionsStarted := decisionsStarted
  l; creativeRuns := creativeRuns l; startCalls := startCalls l |}.

Definition set_decisions (x : list DecisionTask) (l : EventLoop) : EventLoop :=
  {| nextTimer := nextTimer l; intervals := intervals l; previousBalance :=
  previousBalance l; timeouts := timeouts l; immediates := immediates l;
  starts := starts l; decisions := x; refundTicks := refundTicks l;
  auctionEndTicks := auctionEndTicks l; decisionsStarted := decisionsStarted
  l; creativeRuns := creativeRuns l; startCalls := startCalls l |}.

Definition set_refundTicks (x : list RefundTick) (l : EventLoop) : EventLoop :=
  {| nextTimer := nextTimer l; intervals := intervals l; previousBalance :=
  previousBalance l; timeouts := timeouts l; immediates := immediates l;
  starts := starts l; decisions := decisions l; refundTicks := x;
  auctionEndTicks := auctionEndTicks l; decisionsStarted := decisionsStarted
  l; creativeRuns := creativeRuns l; startCalls := startCalls l |}.

Definition set_auctionEndTicks (x : list AuctionEndTick) (l : EventLoop) : EventLoop :=
  {| nextTimer := nextTimer l; intervals := intervals l; previousBalance :=
  previousBalance l; timeouts := timeouts l; immediates := immediates l;
  starts := starts l; decisions := decisions l; refundTicks := refundTicks
  l; auctionEndTicks := x; decisionsStarted := decisionsStarted l;
  creativeRuns := creativeRuns l; startCalls := startCalls l |}.

Definition set_decisionsStarted (x : nat) (l : EventLoop) : EventLoop :=
  {| nextTimer := nextTimer l; intervals := intervals l; previousBalance :=
  previousBalance l; timeouts := timeouts l; immediates := immediates l;
  starts := starts l; decisions := decisions l; refundTicks := refundTicks
  l; auctionEndTicks := auctionEndTicks l; decisionsStarted := x;
  creativeRuns := creativeRuns l; startCalls := startCalls l |}.

Definition set_creativeRuns (x : nat) (l : EventLoop) : EventLoop :=
  {| nextTimer := nextTimer l; intervals := intervals l; previousBalance :=
  previousBalance l; timeouts := timeouts l; immediates := immediates l;
  starts := starts l; decisions := decisions l; refundTicks := refundTicks
  l; auctionEndTicks := auctionEndTicks l; decisionsStarted :=
  decisionsStarted l; creativeRuns := x; startCalls := startCalls l |}.

Definition set_startCalls (x : nat) (l : EventLoop) : EventLoop :=
  {| nextTimer := nextTimer l; intervals := intervals l; previousBalance :=
  previousBalance l; timeouts := timeouts l; immediates := immediates l;
  starts := starts l; decisions := decisions l; refundTicks := refundTicks
  l; auctionEndTicks := auctionEndTicks l; decisionsStarted :=
  decisionsStarted l; creativeRuns := creativeRuns l; startCalls := x |}.

Definition emptyLoop : EventLoop :=
  {| nextTimer := 0; intervals := []; previousBalance := ∅; timeouts := [];
     immediates := 0; starts := []; decisions := []; refundTicks := [];
     auctionEndTicks := []; decisionsStarted := 0; creativeRuns := 0;
     startCalls := 0 |}.

Record World := { agent : IntelligentBiddingAgent; loop : EventLoop }.

Definition on_agent (f : IntelligentBiddingAgent -> IntelligentBiddingAgent)
    (w : World) : World :=
  {| agent := f (agent w); loop := loop w |}.

Definition on_loop (f : EventLoop -> EventLoop) (w : World) : World :=
  {| agent := agent w; loop := f (loop w) |}.

(** A fresh agent, before [start]. *)
Definition boot (name : string) (max : JS.number) : World :=
  {| agent := create name max; loop := emptyLoop |}.

(** *** Timers *)

Definition clearInterval (id : TimerId) (w : World) : World :=
  on_loop (fun l => set_intervals (filter (fun iv => ivId iv <> id) (intervals l)) l) w.

Definition setInterval (kind : IntervalKind) (spot : string) (period : Z)
    (w : World) : TimerId * World :=
  let id := nextTimer (loop w) in
  (id, on_loop (fun l =>
         set_nextTimer (S id)
           (set_intervals ({| ivId := id; ivKind := kind; ivSpot := spot;
                              ivPeriod := period |} :: intervals l) l)) w).

Definition find_interval (id : TimerId) (kind : IntervalKind) (w : World)
    : option Interval :=
  head (filter (fun iv => ivId iv = id /\ ivKind iv = kind) (intervals (loop w))).

(** *** Methods of the class *)

Definition stopRefundMonitoring (w : World) : World :=
  match monitoringInterval (agent w) with
  | Some id => on_agent (set_monitoringInterval None) (clearInterval id w)
  | None => w
  end.

Definition stopAuctionEndMonitoring (w : World) : World :=
  match auctionEndMonitoringInterval (agent w) with
  | Some id => on_agent (set_auctionEndMonitoringInterval None) (clearInterval id w)
  | None => w
  end.

Definition stop (w : World) : World :=
  stopAuctionEndMonitoring (stopRefundMonitoring (on_agent (set_isActive false) w)).

(** [monitorAuctionEnd]: the guard and the registration. *)
Definition monitorAuctionEnd (spot : string) (w : World) : World :=
  match auctionEndMonitoringInterval (agent w) with
  | Some _ => w
  | None =>
      let '(id, w1) := setInterval AuctionEndMonitor spot 5000%Z w in
      on_agent (set_auctionEndMonitoringInterval (Some id)) w1
  end.

(** [startRefundMonitoring] up to its balance read: [true] when the guard
    returned at once. *)
Definition startRefundMonitoring_guard (w : World) : bool :=
  match monitoringInterval (agent w) with
  | Some _ => true
  | None => false
  end.

(** [startRefundMonitoring] after its balance read: the baseline becomes
    the closure's [previousBalance] and the interval is registered. *)
Definition startRefundMonitoring_install (spot : string) (baseline : JS.number)
    (w : World) : World :=
  let '(id, w1) := setInterval RefundMonitor spot 2000%Z w in
  on_agent (set_monitoringInterval (Some id))
    (on_loop (fun l => set_previousBalance (<[id := baseline]> (previousBalance l)) l) w1).


(** [decideBidStrategy] up to its first await. *)
Definition decideBidStrategy_begin (spot : string) (w : World) : World :=
  on_loop (fun l =>
      set_decisionsStarted (S (decisionsStarted l))
        (set_decisions (decisions l ++ [{| dSpot := spot; dPhase := AwaitingBalance |}]) l))
    (on_agent (fun a => set_isInAIReasoning true (set_refundPending false a)) w).

(** How the body of [decideBidStrategy] ends. *)
Inductive Outcome :=
| Withdrew (auctionEnded : bool)
| WithdrawFailed
| Reflected
| Threw (status : option nat).

Definition auction_over (o : Outcome) : bool :=
  match o with
  | Withdrew ended => ended
  | Threw status => status_is status 410
  | _ => false
  end.

(** The two places that set [isActive = false] and stop the refund
    monitor: a withdrawal answered with [auctionEnded], and a 410 in the
    [catch]. *)
Definition decideBidStrategy_settle (o : Outcome) (w : World) : World :=
  if auction_over o then stopRefundMonitoring (on_agent (set_isActive false) w)
  else w.

(** The [finally] block. *)
Definition decideBidStrategy_finally (w : World) : World :=
  let w1 := on_agent (set_isInAIReasoning false) w in
  if refundPending (agent w1) && isActive (agent w1) then
    on_loop (fun l => set_immediates (S (immediates l)) l)
      (on_agent (set_refundPending false) w1)
  else w1.

(** *** The refund monitor's interval callback *)

(** The winner the callback compares with its own name:
    [state.currentWinner?.agentId || state.currentWinner], when that is a
    string. *)
Definition observed_winner (w : Status.Winner) : option string :=
  match w with
  | Status.WinnerObject (Some a) => if String.eqb a "" then None else Some a
  | Status.WinnerString s => Some s
  | _ => None
  end.

Definition same_name (o : option string) (name : string) : bool :=
  match o with
  | Some s => String.eqb s name
  | None => false
  end.

Definition drop_refundTick (k : nat) (w : World) : World :=
  on_loop (fun l => set_refundTicks (delete k (refundTicks l)) l) w.

Definition store_previousBalance (id : TimerId) (x : JS.number) (w : World) : World :=
  on_loop (fun l => set_previousBalance (<[id := x]> (previousBalance l)) l) w.

(** The interval fires: the callback runs up to [await getUSDCBalance()]. *)
Definition refundTick_fire (id : TimerId) (w : World) : option World :=
  iv ← find_interval id RefundMonitor w;
  if negb (isActive (agent w)) then Some (stopRefundMonitoring w)
  else Some (on_loop (fun l =>
         set_refundTicks (refundTicks l ++
           [{| rtMonitor := id; rtSpot := ivSpot iv;
               rtPhase := RefundAwaitingBalance |}]) l) w).

(** The balance arrives: compare it with [previousBalance]. *)
Definition refundTick_onBalance (k : nat) (currentBalance : JS.number)
    (w : World) : option World :=
  t ← refundTicks (loop w) !! k;
  match rtPhase t with
  | RefundAwaitingBalance =>
      prev ← previousBalance (loop w) !! rtMonitor t;
      if JS.gt currentBalance prev then
        Some (on_loop (fun l =>
          set_refundTicks (<[k := {| rtMonitor := rtMonitor t; rtSpot := rtSpot t;
                                    rtPhase := RefundAwaitingStatus currentBalance
                                                 (JS.minus currentBalance prev) |}]>
                             (refundTicks l)) l) w)
      else
        Some (store_previousBalance (rtMonitor t) currentBalance (drop_refundTick k w))
  | RefundAwaitingStatus _ _ => None
  end.

(** What the callback does once it knows it was outbid. *)
Definition react_to_outbid (spot : string) (refundAmount : JS.number)
    (w : World) : World :=
  let w1 := on_agent (set_lastRefundAmount (Some refundAmount)) w in
  let w2 := stopRefundMonitoring w1 in
  if isInAIReasoning (agent w2) then on_agent (set_refundPending true) w2
  else on_loop (fun l => set_timeouts (timeouts l ++ [spot]) l) w2.

(** The status request returns ([None]: it threw). *)
Definition refundTick_onStatus (k : nat) (response : option Status.Body)
    (w : World) : option World :=
  t ← refundTicks (loop w) !! k;
  match rtPhase t with
  | RefundAwaitingStatus currentBalance refundAmount =>
      let w0 := drop_refundTick k w in
      match response with
      | Some state =>
          if same_name (observed_winner (Status.currentWinner state))
               (agentName (agent w))
          then Some (store_previousBalance (rtMonitor t) currentBalance w0)
          else Some (store_previousBalance (rtMonitor t) currentBalance
                       (react_to_outbid (rtSpot t) refundAmount w0))
      | None => Some (store_previousBalance (rtMonitor t) currentBalance w0)
      end
  | RefundAwaitingBalance => None
  end.

(** *** The auction-end monitor's interval callback *)

Definition drop_auctionEndTick (k : nat) (w : World) : World :=
  on_loop (fun l => set_auctionEndTicks (delete k (auctionEndTicks l)) l) w.

Definition auctionEndTick_fire (id : TimerId) (w : World) : option World :=
  iv ← find_interval id AuctionEndMonitor w;
  Some (on_loop (fun l =>
    set_auctionEndTicks (auctionEndTicks l ++
      [{| aeSpot := ivSpot iv; aePhase := AwaitingStatus |}]) l) w).

(** [state.auctionEnded && state.currentWinner?.agentId === this.agentName] *)
Definition ended_and_won (name : string) (state : Status.Body) : bool :=
  Status.auctionEnded state
  && same_name (Status.winner_agentId (Status.currentWinner state)) name.

(** [state.winnerAdImage?.url] is truthy. *)
Definition has_image (state : Status.Body) : bool :=
  JS.truthy_str (Status.image_url (Status.winnerAdImage state)).

(** The test that opens creative generation. *)
Definition should_generate (name : string) (state : Status.Body) : bool :=
  ended_and_won name state && negb (has_image state).

Definition auctionEndTick_onStatus (k : nat) (response : option Status.Body)
    (w : World) : option World :=
  t ← auctionEndTicks (loop w) !! k;
  match aePhase t with
  | AwaitingStatus =>
      match response with
      | Some state =>
          if should_generate (agentName (agent w)) state then
            Some (on_loop (fun l =>
                set_creativeRuns (S (creativeRuns l))
                  (set_auctionEndTicks
                     (<[k := {| aeSpot := aeSpot t; aePhase := GeneratingCreative |}]>
                        (auctionEndTicks l)) l))
              (stopAuctionEndMonitoring (stopRefundMonitoring w)))
          else Some (drop_auctionEndTick k w)
      | None => Some (drop_auctionEndTick k w)
      end
  | GeneratingCreative => None
  end.

(** [generateText] for the creative returns ([ok]) or throws. *)
Definition auctionEndTick_onCreative (k : nat) (ok : bool) (w : World)
    : option World :=
  t ← auctionEndTicks (loop w) !! k;
  match aePhase t with
  | GeneratingCreative =>
      let w0 := drop_auctionEndTick k w in
      Some (if ok then on_agent (set_isActive false) w0 else w0)
  | AwaitingStatus => None
  end.

(** *** Timer callbacks that start a decision *)

Definition timeout_fire (k : nat) (w : World) : option World :=
  spot ← timeouts (loop w) !! k;
  let w0 := on_loop (fun l => set_timeouts (delete k (timeouts l)) l) w in
  Some (if isActive (agent w0) then decideBidStrategy_begin spot w0 else w0).

Definition immediate_fire (w : World) : option World :=
  match immediates (loop w) with
  | O => None
  | S n =>
      let w0 := on_loop (set_immediates n) w in
      Some (if isActive (agent w0)
            then decideBidStrategy_begin (currentAdSpotId (agent w0)) w0
            else w0)
  end.

(** *** [start] *)

Definition start_call (spot : string) (w : World) : World :=
  on_loop (fun l => set_startCalls (S (startCalls l)) (set_starts (starts l ++ [spot]) l))
    (on_agent (set_currentAdSpotId spot) w).

Definition start_resume (k : nat) (w : World) : option World :=
  spot ← starts (loop w) !! k;
  let w0 := on_loop (fun l => set_starts (delete k (starts l)) l) w in
  Some (decideBidStrategy_begin spot (monitorAuctionEnd spot w0)).

(** *** A running [decideBidStrategy] *)

Definition set_phase (i : nat) (d : DecisionTask) (ph : DecisionPhase) (w : World) : World :=
  on_loop (fun l =>
    set_decisions (<[i := {| dSpot := dSpot d; dPhase := ph |}]> (decisions l)) l) w.

Definition decide_onBalance (i : nat) (w : World) : option World :=
  d ← decisions (loop w) !! i;
  match dPhase d with
  | AwaitingBalance =>
      Some (set_phase i d (if startRefundMonitoring_guard w then Reasoning
                           else AwaitingBaseline) w)
  | _ => None
  end.

Definition decide_onBaseline (i : nat) (baseline : JS.number) (w : World)
    : option World :=
  d ← decisions (loop w) !! i;
  match dPhase d with
  | AwaitingBaseline =>
      Some (set_phase i d Reasoning
              (startRefundMonitoring_install (dSpot d) baseline w))
  | _ => None
  end.

Definition decide_placeBid (i : nat) (args : PlaceBidArgs)
    (client : PaymentClient) (w : World) : option World :=
  d ← decisions (loop w) !! i;
  match dPhase d with
  | Reasoning => Some (on_agent (fun a => (placeBid client a args).1.1) w)
  | _ => None
  end.

Definition decide_end (i : nat) (o : Outcome) (w : World) : option World :=
  d ← decisions (loop w) !! i;
  match dPhase d with
  | Reasoning =>
      let w0 := on_loop (fun l => set_decisions (delete i (decisions l)) l) w in
      Some (decideBidStrategy_finally (decideBidStrategy_settle o w0))
  | _ => None
  end.

(** *** Steps of the event loop *)

Inductive Event :=
| EvStart (spot : string)
| EvStartResume (k : nat)
| EvStop
| EvDecideBalance (i : nat)
| EvDecideBaseline (i : nat) (baseline : JS.number)
| EvPlaceBid (i : nat) (args : PlaceBidArgs) (client : PaymentClient)
| EvDecideEnd (i : nat) (o : Outcome)
| EvRefundFire (id : TimerId)
| EvRefundBalance (k : nat) (currentBalance : JS.number)
| EvRefundStatus (k : nat) (response : option Status.Body)
| EvAuctionEndFire (id : TimerId)
| EvAuctionEndStatus (k : nat) (response : option Status.Body)
| EvCreativeDone (k : nat) (ok : bool)
| EvTimeout (k : nat)
| EvImmediate.

(** One step; [None] when the step cannot happen in this world. *)
Definition exec (ev : Event) (w : World) : option World :=
  match ev with
  | EvStart spot => Some (start_call spot w)
  | EvStartResume k => start_resume k w
  | EvStop => Some (stop w)
  | EvDecideBalance i => decide_onBalance i w
  | EvDecideBaseline i b => decide_onBaseline i b w
  | EvPlaceBid i args client => decide_placeBid i args client w
  | EvDecideEnd i o => decide_end i o w
  | EvRefundFire id => refundTick_fire id w
  | EvRefundBalance k b => refundTick_onBalance k b w
  | EvRefundStatus k r => refundTick_onStatus k r w
  | EvAuctionEndFire id => auctionEndTick_fire id w
  | EvAuctionEndStatus k r => auctionEndTick_onStatus k r w
  | EvCreativeDone k ok => auctionEndTick_onCreative k ok w
  | EvTimeout k => timeout_fire k w
  | EvImmediate => immediate_fire w
  end.

(** Any schedule. *)
Fixpoint run (evs : list Event) (w : World) : option World :=
  match evs with
  | [] => Some w
  | ev :: rest => w' ← exec ev w; run rest w'
  end.

(** A schedule is orderly when [start] is called once and no monitor's
    interval fires while an earlier callback of that monitor has yet to
    return. *)
Definition orderly (ev : Event) (w : World) : bool :=
  match ev with
  | EvStart _ => Nat.eqb (startCalls (loop w)) 0
  | EvRefundFire _ => Nat.eqb (length (refundTicks (loop w))) 0
  | EvAuctionEndFire _ => Nat.eqb (length (auctionEndTicks (loop w))) 0
  | _ => true
  end.

Fixpoint run_orderly (evs : list Event) (w : World) : option World :=
  match evs with
  | [] => Some w
  | ev :: rest =>
      if orderly ev w then w' ← exec ev w; run_orderly rest w' else None
  end.

(** A schedule whose every step meets a condition. *)
Fixpoint run_while (ok : Event -> World -> bool) (evs : list Event) (w : World)
    : option World :=
  match evs with
  | [] => Some w
  | ev :: rest =>
      if ok ev w then w' ← exec ev w; run_while ok rest w' else None
  end.

(** [start] is called once. *)
Definition starts_once (ev : Event) (w : World) : bool :=
  match ev with
  | EvStart _ => Nat.eqb (startCalls (loop w)) 0
  | _ => true
  end.

(** No interval of the refund monitor fires while an earlier callback of
    it has yet to return. *)
Definition refund_in_turn (ev : Event) (w : World) : bool :=
  match ev with
  | EvRefundFire _ => Nat.eqb (length (refundTicks (loop w))) 0
  | _ => true
  end.


(** [start] is called once and the callbacks of the refund monitor run
    in turn. *)
Definition refund_serial (ev : Event) (w : World) : bool :=
  starts_once ev w && refund_in_turn ev w.



(** *** What the properties below speak of *)

(** The interval a handle of the agent stands for. *)
Definition handle_list (k : IntervalKind) (h : option TimerId)
    : list (TimerId * IntervalKind) :=
  match h with
  | Some id => [(id, k)]
  | None => []
  end.

(** The registered intervals, by id and kind. *)
Definition live (w : World) : list (TimerId * IntervalKind) :=
  map (fun iv => (ivId iv, ivKind iv)) (intervals (loop w)).

Definition count_kind (k : IntervalKind) (w : World) : nat :=
  length (filter (fun iv => ivKind iv = k) (intervals (loop w))).

Definition reasoning (d : DecisionTask) : bool :=
  match dPhase d with
  | Reasoning => true
  | _ => false
  end.


(** Callbacks waiting to start a decision. *)
Definition pending (w : World) : nat :=
  length (timeouts (loop w)) + immediates (loop w) + length (starts (loop w)).






(** What holds of every world reached while [start] is called once and the
    callbacks of the refund monitor run in turn, however the callbacks of
    the auction-end monitor fall. *)
Record DecisionInv (w : World) : Prop := {
  dinv_starts : startCalls (loop w) <= 1;
  dinv_pristine :
    startCalls (loop w) = 0 ->
    pending w = 0 /\ decisions (loop w) = [] /\ intervals (loop w) = [] /\
    monitoringInterval (agent w) = None /\
    auctionEndMonitoringInterval (agent w) = None /\
    refundTicks (loop w) = [] /\ isInAIReasoning (agent w) = false /\
    refundPending (agent w) = false;
  dinv_single : length (decisions (loop w)) + pending w <= 1;
  dinv_reasoning_flag :
    isInAIReasoning (agent w)
    = negb (Nat.eqb (length (decisions (loop w))) 0);
  dinv_live :
    live w = (handle_list RefundMonitor (monitoringInterval (agent w))
              ++ handle_list AuctionEndMonitor
                   (auctionEndMonitoringInterval (agent w)))%list;
  dinv_fresh_r :
    forall id, monitoringInterval (agent w) = Some id -> id < nextTimer (loop w);
  dinv_fresh_a :
    forall id, auctionEndMonitoringInterval (agent w) = Some id ->
               id < nextTimer (loop w);
  dinv_distinct :
    forall a b, monitoringInterval (agent w) = Some a ->
                auctionEndMonitoringInterval (agent w) = Some b -> a <> b;
  dinv_pending_quiet :
    pending w <> 0 ->
    monitoringInterval (agent w) = None /\ refundTicks (loop w) = [];
  dinv_refundPending :
    refundPending (agent w) = true ->
    monitoringInterval (agent w) = None /\ refundTicks (loop w) = [] /\
    forallb reasoning (decisions (loop w)) = true /\
    (decisions (loop w) = [] -> isActive (agent w) = false);
  dinv_monitored :
    monitoringInterval (agent w) <> None \/ refundTicks (loop w) <> [] ->
    forallb reasoning (decisions (loop w)) = true;
  dinv_ticks_r : length (refundTicks (loop w)) <= 1;
  dinv_starting :
    starts (loop w) <> [] -> auctionEndMonitoringInterval (agent w) = None;
}.


(** *** Sample schedules *)

(** Another agent leads the auction. *)
Definition rival : Status.Body :=
  {| Status.adSpotId := "banner"; Status.currentBid := Some 1.0%float;
     Status.currentWinner := Status.WinnerObject (Some "FizzUp");
     Status.timeRemaining := Some 120%Z; Status.auctionEnded := false;
     Status.winnerAdImage := Status.ImageNull; Status.bidHistory := [] |}.


(** The first decision is running and the refund callback, having seen the
    balance rise from 1.0 to 1.5, asks for the status. *)
Definition waiting_for_status : list Event :=
  [ EvStart "banner"; EvStartResume 0; EvDecideBalance 0;
    EvDecideBaseline 0 1.0%float; EvRefundFire 1;
    EvRefundBalance 0 1.5%float ].

(** The status names another winner: the agent is outbid while its first
    decision is still running. *)
Definition outbid_mid_decision : list Event :=
  waiting_for_status ++ [EvRefundStatus 0 (Some rival)].

(** The first decision has finished with its refund monitor running, and
    the auction-end callback is waiting for the status. *)
Definition polling_at_the_end : list Event :=
  [ EvStart "banner"; EvStartResume 0; EvDecideBalance 0;
    EvDecideBaseline 0 1.0%float; EvDecideEnd 0 Reflected;
    EvAuctionEndFire 0 ].









(** The world an orderly schedule leads IceCo to. *)
Definition sample (evs : list Event) : World :=
  default (boot "IceCo" 5%float) (run_orderly evs (boot "IceCo" 5%float)).

End Coordinator.

(** ** The status route ([GET /api/status]) *)

Module StatusRoute.

(** The stored record of an ad spot, as the route reads it.  Its type
    belongs to [lib/db]; the fields are the ones the handler uses. *)
Record AdSpotRecord := {
  auctionStartTime : Z;
  recCurrentBid : option JS.number;
  recCurrentWinner : Status.Winner;
  recAuctionEnded : option bool;
  recWinnerAdImage : Status.AdImage;
  recBidHistory : list Status.Bid;
}.

(** What [getAdSpotRecord] comes back with. *)
Inductive DbResult :=
| DbThrows (message : string)
| DbReturns (record : option AdSpotRecord).

Inductive Response :=
| BadRequest (error : string)
| Ok (body : Status.Body)
| ServerError (error : string).

Definition httpStatus (r : Response) : nat :=
  match r with
  | BadRequest _ => 400
  | Ok _ => 200
  | ServerError _ => 500
  end.

Fixpoint str_repeat (s : string) (n : nat) : string :=
  match n with
  | O => ""
  | S k => s +:+ str_repeat s k
  end.

Definition demoBid (agent : string) (amount : JS.number) (timestamp : Z)
    (hashChar reflection : string) : Status.Bid :=
  {| Status.bidAgentId := agent; Status.bidAmount := amount;
     Status.bidTimestamp := timestamp;
     Status.bidTxHash := Some ("0x" +:+ str_repeat hashChar 40);
     Status.bidThinking := None; Status.bidStrategy := None;
     Status.bidReasoning := None; Status.bidReflection := Some reflection |}.

Definition demoBody (adSpotId : string) (now : Z) : Status.Body :=
  {| Status.adSpotId := adSpotId;
     Status.currentBid := Some 1.25%float;
     Status.currentWinner := Status.WinnerString "IceCo";
     Status.timeRemaining := Some 300%Z;
     Status.auctionEnded := false;
     Status.winnerAdImage := Status.ImageString "/water-ad-demo.png";
     Status.bidHistory :=
       [ demoBid "IceCo" 0.50%float (now - 40000) "a"
           "Bid successfully placed at $0.50. Monitoring for competitor response.";
         demoBid "FizzUp" 0.75%float (now - 30000) "b"
           "Successfully outbid competitor. Current leading bid is $0.75.";
         demoBid "IceCo" 1.25%float (now - 20000) "d"
           "FizzUp has outbid us at $0.75. Increasing our bid to $1.25." ] |}.

Definition emptyBody (adSpotId : string) : Status.Body :=
  {| Status.adSpotId := adSpotId;
     Status.currentBid := None;
     Status.currentWinner := Status.WinnerUndefined;
     Status.timeRemaining := None;
     Status.auctionEnded := false;
     Status.winnerAdImage := Status.ImageNull;
     Status.bidHistory := [] |}.

(** [Math.max(0, Math.floor((auctionEndTime - Date.now()) / 1000))] *)
Definition timeRemainingOf (duration : Z) (now : Z) (r : AdSpotRecord) : Z :=
  Z.max 0 ((auctionStartTime r + duration - now) / 1000).

(** [bidRecord.winnerAdImage || null] *)
Definition image_or_null (i : Status.AdImage) : Status.AdImage :=
  match i with
  | Status.ImageString s => if String.eqb s "" then Status.ImageNull else i
  | _ => i
  end.

(** The [map] over [bidHistory] copies the eight fields of each bid. *)
Definition copyBid (b : Status.Bid) : Status.Bid :=
  {| Status.bidAgentId := Status.bidAgentId b;
     Status.bidAmount := Status.bidAmount b;
     Status.bidTimestamp := Status.bidTimestamp b;
     Status.bidTxHash := Status.bidTxHash b;
     Status.bidThinking := Status.bidThinking b;
     Status.bidStrategy := Status.bidStrategy b;
     Status.bidReasoning := Status.bidReasoning b;
     Status.bidReflection := Status.bidReflection b |}.

Definition recordBody (duration now : Z) (adSpotId : string) (r : AdSpotRecord)
    : Status.Body :=
  {| Status.adSpotId := adSpotId;
     Status.currentBid := recCurrentBid r;
     Status.currentWinner := recCurrentWinner r;
     Status.timeRemaining := Some (timeRemainingOf duration now r);
     Status.auctionEnded := default false (recAuctionEnded r);
     Status.winnerAdImage := image_or_null (recWinnerAdImage r);
     Status.bidHistory := map copyBid (recBidHistory r) |}.

(** The handler.  [AUCTION_DURATION_MS] comes from [lib/x402-config] and
    [getAdSpotRecord] from [lib/db]; [now] is [Date.now()];
    [adSpotId] is [searchParams.get('adSpotId')]. *)
Definition GET (AUCTION_DURATION_MS : Z) (getAdSpotRecord : string -> DbResult)
    (now : Z) (adSpotId : option string) : Response :=
  match adSpotId with
  | None => BadRequest "adSpotId is required"
  | Some id =>
      if String.eqb id "" then BadRequest "adSpotId is required"
      else if String.eqb id "demo-spot-1" then Ok (demoBody id now)
      else
        match getAdSpotRecord id with
        | DbThrows _ => ServerError "Failed to fetch auction status"
        | DbReturns None => Ok (emptyBody id)
        | DbReturns (Some bidRecord) =>
            Ok (recordBody AUCTION_DURATION_MS now id bidRecord)
        end
  end.

End StatusRoute.

(** ** The events polling route ([GET /api/events/:adSpotId]) *)

Module EventsRoute.

(** An event of the log.  Of the payload only who it concerns is kept; the
    route passes the rest through untouched. *)
Record Event := {
  type : string;
  agentId : option string;
  winner : option string;
  timestamp : Z;
}.

Definition demo (ty agent : string) (ts : Z) : Event :=
  {| type := ty; agentId := Some agent; winner := None; timestamp := ts |}.

Definition demoShared (ty winnerId : string) (ts : Z) : Event :=
  {| type := ty; agentId := None; winner := Some winnerId; timestamp := ts |}.

(** [allDemoEvents]: the demo auction, replayed from one minute before
    [now]. *)
Definition allDemoEvents (now : Z) : list Event :=
  let startTime := (now - 60000)%Z in
  [ demo "agent_started" "IceCo" (startTime + 1000);
    demo "agent_started" "FizzUp" (startTime + 2000);
    demo "scraping_started" "IceCo" (startTime + 5000);
    demo "scraping_completed" "IceCo" (startTime + 8000);
    demo "analytics_payment" "IceCo" (startTime + 10000);
    demo "analytics_received" "IceCo" (startTime + 12000);
    demo "analysis_started" "IceCo" (startTime + 14000);
    demo "analysis_completed" "IceCo" (startTime + 18000);
    demo "thinking" "IceCo" (startTime + 20000);
    demo "bid_placed" "IceCo" (startTime + 22000);
    demo "reflection" "IceCo" (startTime + 24000);
    demo "thinking" "FizzUp" (startTime + 27000);
    demo "bid_placed" "FizzUp" (startTime + 30000);
    demo "refund" "IceCo" (startTime + 31000);
    demo "reflection" "FizzUp" (startTime + 33000);
    demo "thinking" "IceCo" (startTime + 36000);
    demo "bid_placed" "IceCo" (startTime + 39000);
    demo "refund" "FizzUp" (startTime + 40000);
    demo "withdrawal" "FizzUp" (startTime + 43000);
    demoShared "auction_ended" "IceCo" (startTime + 45000);
    demo "image_generation_update" "IceCo" (startTime + 50000);
    demoShared "ad_image_ready" "IceCo" (startTime + 52000) ].

(** The filter's callback. *)
Definition keepDemoEvent (now : Z) (since : option JS.Date) (event : Event) : bool :=
  let eventTime := JS.DateMs (timestamp event) in
  match since with
  | Some s => if JS.date_le eventTime s then false
              else JS.date_le eventTime (JS.DateMs now)
  | None => JS.date_le eventTime (JS.DateMs now)
  end.

Definition getDemoEvents (now : Z) (since : option JS.Date) : list Event :=
  List.filter (keepDemoEvent now since) (allDemoEvents now).

(** A stored document wraps its event. *)
Record StoredEvent := { storedSpot : string; event : Event }.

(** [timestamp > since], with no bound when [since] is missing. *)
Definition after (since : option JS.Date) (e : Event) : bool :=
  match since with
  | Some s => negb (JS.date_le (JS.DateMs (timestamp e)) s)
  | None => true
  end.

Fixpoint insertByTime (x : StoredEvent) (l : list StoredEvent) : list StoredEvent :=
  match l with
  | [] => [x]
  | y :: rest =>
      if (timestamp (event x) <? timestamp (event y))%Z then x :: l
      else y :: insertByTime x rest
  end.

Definition sortByTime (l : list StoredEvent) : list StoredEvent :=
  fold_right insertByTime [] l.

(** Modelled from the spec: [getStoredEvents] of [lib/db] is not among the
    sources.  By the spec's query contract it returns all events of the
    auction with [timestamp > sinceTimestamp], or the full history when the
    watermark is omitted, ascending by timestamp. *)
Definition getStoredEvents (store : list StoredEvent) (adSpotId : string)
    (since : option JS.Date) : list StoredEvent :=
  sortByTime
    (List.filter (fun d => String.eqb (storedSpot d) adSpotId && after since (event d))
       store).

(** What the call of [getStoredEvents] comes back with: the stored
    documents, or an exception, of which the route keeps
    [error instanceof Error ? error.message : 'Unknown error']
    ([message] is [None] when the thrown value is no [Error]). *)
Inductive Stored :=
| StoreThrows (message : option string)
| StoreReturns (docs : list StoredEvent).

(** [getStoredEvents] of [lib/db] as the route calls it, with the spot and
    the watermark. *)
Definition Store : Type := string -> option JS.Date -> Stored.

(** Modelled from the spec: the store that answers every query by the
    spec's query contract over a collection of documents, and never
    fails. *)
Definition contract (collection : list StoredEvent) : Store :=
  fun adSpotId since => StoreReturns (getStoredEvents collection adSpotId since).

Record Response := {
  respStatus : nat;
  success : bool;
  respError : option string;
  respSpot : string;
  events : list Event;
  count : nat;
  respTimestamp : Z;
}.

(** [sinceParam ? new Date(sinceParam) : undefined] *)
Definition parseSince (parseDate : string -> JS.Date)
    (sinceParam : option string) : option JS.Date :=
  match sinceParam with
  | Some s => if String.eqb s "" then None else Some (parseDate s)
  | None => None
  end.

(** The handler.  [parseDate] is [new Date(_)] on the query parameter,
    [store] is [getStoredEvents], [now] the clock.  The [catch] answers an
    exception of the store with status 500. *)
Definition GET (parseDate : string -> JS.Date) (store : Store)
    (now : Z) (adSpotId : string) (sinceParam : option string) : Response :=
  let since := parseSince parseDate sinceParam in
  if String.eqb adSpotId "demo-spot-1" then
    let demoEvents := getDemoEvents now since in
    {| respStatus := 200; success := true; respError := None;
       respSpot := adSpotId; events := demoEvents;
       count := length demoEvents; respTimestamp := now |}
  else
    match store adSpotId since with
    | StoreReturns storedEvents =>
        let events := map event storedEvents in
        {| respStatus := 200; success := true; respError := None;
           respSpot := adSpotId; events := events;
           count := length events; respTimestamp := now |}
    | StoreThrows message =>
        {| respStatus := 500; success := false;
           respError := Some (default "Unknown error" message);
           respSpot := adSpotId; events := []; count := 0;
           respTimestamp := now |}
    end.

(** *** What the properties below speak of *)

Definition byTime (a b : StoredEvent) : Prop :=
  (timestamp (event a) <= timestamp (event b))%Z.

(** The events after watermark [w]. *)
Definition newer (w : Z) (e : Event) : bool := (w <? timestamp e)%Z.

(** An event stamped [d] milliseconds later. *)
Definition shift (d : Z) (e : Event) : Event :=
  {| type := type e; agentId := agentId e; winner := winner e;
     timestamp := timestamp e + d |}.

(** A store whose every query throws. *)
Definition unreachable : Store :=
  fun _ _ => StoreThrows (Some "connect ECONNREFUSED").

(** A parser that reads every watermark as the instant 92000. *)
Definition at92 : string -> JS.Date := fun _ => JS.DateMs 92000.

(** Strictly earlier. *)
Definition earlier (a b : Event) : Prop := (timestamp a < timestamp b)%Z.

(** A parser that knows no date. *)
Definition noDate : string -> JS.Date := fun _ => JS.InvalidDate.

(** A parser that reads every watermark as the instant [w]. *)
Definition readAs (w : Z) : string -> JS.Date := fun _ => JS.DateMs w.

End EventsRoute.

(** ** The auction page ([AuctionPageStreaming]) *)

Module AuctionPage.

Record Winner := { winnerAgentId : string; address : option string }.

Inductive MessageType :=
| thinking | bid | reflection | refund | withdrawal
| auction_ended | ad_image_ready | image_generation_update.

#[global] Instance MessageType_eq_dec : EqDecision MessageType.
Proof. solve_decision. Defined.

Record StreamingMessage := {
  id : string;
  type : MessageType;
  agentId : option string;
  timestamp : option string;
  msgThinking : option string;
  strategy : option string;
  proposedAmount : option JS.number;
  amount : option JS.number;
  transactionHash : option string;
  msgReflection : option string;
  refundAmount : option JS.number;
  reasoning : option string;
  winner : option Winner;
  finalBid : option JS.number;
  endReason : option string;
  isLoading : option bool;
  imageUrl : option string;
  status : option string;
  message : option string;
  taskId : option string;
}.

(** A polled event, with the fields [processEvent] reads from it. *)
Record EventData := {
  evType : string;
  evAgentId : option string;
  evTimestamp : option string;
  evThinking : option string;
  evStrategy : option string;
  evProposedAmount : option JS.number;
  evAmount : option JS.number;
  evTransactionHash : option string;
  evReflection : option string;
  evReasoning : option string;
  evWinner : option Winner;
  evFinalBid : option JS.number;
  evReason : option string;
  evImageUrl : option string;
  evStatus : option string;
  evMessage : option string;
  evTaskId : option string;
}.

(** A message with only its [id], [type] and [timestamp] set. *)
Definition bare (i : string) (t : MessageType) (ts : option string) : StreamingMessage :=
  {| id := i; type := t; agentId := None; timestamp := ts; msgThinking := None;
     strategy := None; proposedAmount := None; amount := None;
     transactionHash := None; msgReflection := None; refundAmount := None;
     reasoning := None; winner := None; finalBid := None; endReason := None;
     isLoading := None; imageUrl := None; status := None; message := None;
     taskId := None |}.

(** What the effect keeps between polls: the set of seen ids and the two
    pieces of React state. *)
Record PageState := {
  seenEventIds : gset string;
  messages : list StreamingMessage;
  currentBid : option JS.number;
}.

(** The id built for deduplication.  [now] is [Date.now()]. *)
Definition eventIdOf (now : Z) (data : EventData) : string :=
  evType data +:+ "-" +:+ JS.str_or (evAgentId data) "system" +:+ "-"
  +:+ JS.template (evTimestamp data) +:+ "-"
  +:+ (if JS.truthy_str (evTransactionHash data)
       then JS.template (evTransactionHash data) else pretty now).

Definition thinkingMessage (now : Z) (data : EventData) : StreamingMessage :=
  {| id := JS.template (evAgentId data) +:+ "-thinking-" +:+ pretty now;
     type := thinking; agentId := evAgentId data; timestamp := evTimestamp data;
     msgThinking := evThinking data; strategy := evStrategy data;
     proposedAmount := evProposedAmount data; amount := None;
     transactionHash := None; msgReflection := None; refundAmount := None;
     reasoning := None; winner := None; finalBid := None; endReason := None;
     isLoading := None; imageUrl := None; status := None; message := None;
     taskId := None |}.

Definition bidMessage (now : Z) (data : EventData) : StreamingMessage :=
  {| id := JS.template (evAgentId data) +:+ "-bid-" +:+ pretty now;
     type := bid; agentId := evAgentId data; timestamp := evTimestamp data;
     msgThinking := None; strategy := None; proposedAmount := None;
     amount := evAmount data; transactionHash := evTransactionHash data;
     msgReflection := None; refundAmount := None; reasoning := None;
     winner := None; finalBid := None; endReason := None;
     isLoading := Some true; imageUrl := None; status := None; message := None;
     taskId := None |}.

Definition refundMessage (now : Z) (data : EventData) : StreamingMessage :=
  {| id := JS.template (evAgentId data) +:+ "-refund-" +:+ pretty now;
     type := refund; agentId := evAgentId data; timestamp := evTimestamp data;
     msgThinking := None; strategy := None; proposedAmount := None;
     amount := None; transactionHash := evTransactionHash data;
     msgReflection := None; refundAmount := evAmount data; reasoning := None;
     winner := None; finalBid := None; endReason := None; isLoading := None;
     imageUrl := None; status := None; message := None; taskId := None |}.

Definition withdrawalMessage (now : Z) (data : EventData) : StreamingMessage :=
  {| id := JS.template (evAgentId data) +:+ "-withdrawal-" +:+ pretty now;
     type := withdrawal; agentId := evAgentId data;
     timestamp := evTimestamp data; msgThinking := None; strategy := None;
     proposedAmount := None; amount := None;
     transactionHash := evTransactionHash data; msgReflection := None;
     refundAmount := evAmount data; reasoning := evReasoning data;
     winner := None; finalBid := None; endReason := None; isLoading := None;
     imageUrl := None; status := None; message := None; taskId := None |}.

Definition auctionEndedMessage (now : Z) (data : EventData) : StreamingMessage :=
  {| id := "auction-ended-" +:+ pretty now;
     type := auction_ended; agentId := None; timestamp := evTimestamp data;
     msgThinking := None; strategy := None; proposedAmount := None;
     amount := None; transactionHash := None; msgReflection := None;
     refundAmount := None; reasoning := None; winner := evWinner data;
     finalBid := evFinalBid data; endReason := evReason data;
     isLoading := None; imageUrl := None; status := None; message := None;
     taskId := None |}.

Definition adImageReadyMessage (now : Z) (nowIso : string) (data : EventData)
    : StreamingMessage :=
  {| id := "ad-image-ready-" +:+ pretty now;
     type := ad_image_ready; agentId := winnerAgentId <$> evWinner data;
     timestamp := Some (JS.str_or (evTimestamp data) nowIso);
     msgThinking := None; strategy := None; proposedAmount := None;
     amount := None; transactionHash := None; msgReflection := None;
     refundAmount := None; reasoning := None; winner := None; finalBid := None;
     endReason := None; isLoading := None; imageUrl := evImageUrl data;
     status := None; message := None; taskId := None |}.

Definition imageUpdateMessage (now : Z) (nowIso : string) (data : EventData)
    : StreamingMessage :=
  {| id := "image-gen-" +:+ pretty now;
     type := image_generation_update; agentId := evAgentId data;
     timestamp := Some (JS.str_or (evTimestamp data) nowIso);
     msgThinking := None; strategy := None; proposedAmount := None;
     amount := None; transactionHash := None; msgReflection := None;
     refundAmount := None; reasoning := None; winner := None; finalBid := None;
     endReason := None; isLoading := None; imageUrl := evImageUrl data;
     status := evStatus data; message := evMessage data;
     taskId := evTaskId data |}.

(** [msg.type === 'bid' && msg.agentId === data.agentId &&
     msg.transactionHash === data.transactionHash] *)
Definition sameBid (data : EventData) (msg : StreamingMessage) : bool :=
  bool_decide (type msg = bid)
  && bool_decide (agentId msg = evAgentId data)
  && bool_decide (transactionHash msg = evTransactionHash data).

(** The reflection lands on the agent's bids that are still loading. *)
Definition attachReflection (data : EventData) (msg : StreamingMessage)
    : StreamingMessage :=
  if bool_decide (type msg = bid) && bool_decide (agentId msg = evAgentId data)
     && default false (isLoading msg)
  then
    {| id := id msg; type := type msg; agentId := agentId msg;
       timestamp := timestamp msg; msgThinking := msgThinking msg;
       strategy := strategy msg; proposedAmount := proposedAmount msg;
       amount := amount msg; transactionHash := transactionHash msg;
       msgReflection := evReflection data; refundAmount := refundAmount msg;
       reasoning := reasoning msg; winner := winner msg;
       finalBid := finalBid msg; endReason := endReason msg;
       isLoading := Some false; imageUrl := imageUrl msg; status := status msg;
       message := message msg; taskId := taskId msg |}
  else msg.

Definition setMessages (f : list StreamingMessage -> list StreamingMessage)
    (st : PageState) : PageState :=
  {| seenEventIds := seenEventIds st; messages := f (messages st);
     currentBid := currentBid st |}.

Definition setCurrentBid (b : option JS.number) (st : PageState) : PageState :=
  {| seenEventIds := seenEventIds st; messages := messages st; currentBid := b |}.

Definition markSeen (eventId : string) (st : PageState) : PageState :=
  {| seenEventIds := {[eventId]} ∪ seenEventIds st; messages := messages st;
     currentBid := currentBid st |}.

(** The [switch] on [data.type]. *)
Definition dispatch (now : Z) (nowIso : string) (data : EventData)
    (st : PageState) : PageState :=
  if String.eqb (evType data) "thinking" then
    setMessages (fun prev => prev ++ [thinkingMessage now data]) st
  else if String.eqb (evType data) "bid_placed" then
    setCurrentBid (evAmount data)
      (setMessages (fun prev =>
         if existsb (sameBid data) prev then prev
         else prev ++ [bidMessage now data]) st)
  else if String.eqb (evType data) "reflection" then
    setMessages (map (attachReflection data)) st
  else if String.eqb (evType data) "refund" then
    setMessages (fun prev => prev ++ [refundMessage now data]) st
  else if String.eqb (evType data) "withdrawal" then
    setMessages (fun prev => prev ++ [withdrawalMessage now data]) st
  else if String.eqb (evType data) "auction_ended" then
    setMessages (fun prev => prev ++ [auctionEndedMessage now data]) st
  else if String.eqb (evType data) "ad_image_ready" then
    setMessages (fun prev => prev ++ [adImageReadyMessage now nowIso data]) st
  else if String.eqb (evType data) "image_generation_update" then
    setMessages (fun prev => prev ++ [imageUpdateMessage now nowIso data]) st
  else st.

(** [processEvent].  [now] and [nowIso] are the clock when it runs. *)
Definition processEvent (now : Z) (nowIso : string) (data : EventData)
    (st : PageState) : PageState :=
  let eventId := eventIdOf now data in
  if bool_decide (eventId ∈ seenEventIds st) then st
  else dispatch now nowIso data (markSeen eventId st).

(** *** Terminal logs *)

Inductive LogType := info | success | payment | error | tool | thinkingLog.

(** The icon of a line, by what it shows. *)
Inductive Icon :=
| IconBrain | IconClipboard | IconThought | IconCard | IconCheck | IconChart
| IconMoney | IconFlag | IconPalette | IconHourglass | IconDone | IconCross
| IconTrophy | IconFinish.

(** Text of a line.  Amounts printed with [toFixed(2)] are kept as numbers
    next to the words around them. *)
Inductive Text :=
| Plain (s : option string)
| Money (before : string) (x : option JS.number) (after : string)
| EndDetails (reason : option string) (finalBid : option JS.number).

Record Link := { href : string; label : string }.

Record TerminalLog := {
  logTimestamp : option string;
  logType : LogType;
  icon : Icon;
  logMessage : Text;
  details : option Text;
  link : option Link;
}.

Definition line (ts : option string) (t : LogType) (i : Icon) (m : Text)
    (d : option Text) (l : option Link) : TerminalLog :=
  {| logTimestamp := ts; logType := t; icon := i; logMessage := m;
     details := d; link := l |}.

Definition txLink (msg : StreamingMessage) (lbl : string) : option Link :=
  if JS.truthy_str (transactionHash msg) then
    Some {| href := "https://sepolia.basescan.org/tx/"
                    +:+ JS.template (transactionHash msg);
            label := lbl |}
  else None.

Definition truthy_amount (x : option JS.number) : bool :=
  match x with
  | Some v => JS.truthy_num v
  | None => false
  end.

Definition statusIs (msg : StreamingMessage) (s : string) : bool :=
  bool_decide (status msg = Some s).

(** [msg.winner?.agentId === msg.agentId] *)
Definition wonByOwner (msg : StreamingMessage) : bool :=
  bool_decide ((winnerAgentId <$> winner msg) = agentId msg).

Definition messageToTerminalLog (msg : StreamingMessage) : list TerminalLog :=
  let ts := timestamp msg in
  match type msg with
  | thinking =>
      [line ts thinkingLog IconBrain (Plain (Some "THINKING"))
         (Some (Plain (msgThinking msg))) None]
      ++ (if JS.truthy_str (strategy msg)
          then [line ts info IconClipboard (Plain (Some "STRATEGY"))
                  (Some (Plain (strategy msg))) None]
          else [])
      ++ (if truthy_amount (proposedAmount msg)
          then [line ts info IconThought
                  (Money "PROPOSED BID: $" (proposedAmount msg) " USDC")
                  None None]
          else [])
  | bid =>
      [line ts payment IconCard (Plain (Some "INITIATING x402 PAYMENT"))
         (Some (Money "Amount: $" (amount msg) " USDC")) None;
       line ts success IconCheck (Money "BID PLACED: $" (amount msg) " USDC")
         None (txLink msg "View transaction on Basescan")]
      ++ (if JS.truthy_str (msgReflection msg)
          then [line ts info IconChart (Plain (Some "POST-BID ANALYSIS"))
                  (Some (Plain (msgReflection msg))) None]
          else [])
  | reflection => []
  | refund =>
      [line ts payment IconMoney
         (Money "REFUND RECEIVED: $" (refundAmount msg) " USDC")
         (Some (Plain (Some "Outbid by competitor. Re-evaluating strategy...")))
         (txLink msg "View refund transaction")]
  | withdrawal =>
      [line ts info IconFlag (Plain (Some "WITHDRAWING FROM AUCTION"))
         (Some (Plain (reasoning msg))) (txLink msg "View refund transaction")]
  | image_generation_update =>
      [line ts
         (if statusIs msg "started" then info
          else if statusIs msg "progress" then tool
          else if statusIs msg "completed" then success
          else if statusIs msg "failed" then error
          else info)
         (if statusIs msg "started" then IconPalette
          else if statusIs msg "progress" then IconHourglass
          else if statusIs msg "completed" then IconDone
          else if statusIs msg "failed" then IconCross
          else IconPalette)
         (Plain (Some
           (if statusIs msg "started" then "GENERATING AD IMAGE"
            else if statusIs msg "progress" then "IMAGE GENERATION IN PROGRESS"
            else if statusIs msg "completed" then "AD IMAGE GENERATED"
            else "IMAGE GENERATION FAILED")))
         (Some (Plain (message msg))) None]
  | ad_image_ready =>
      [line ts success IconPalette (Plain (Some "AD IMAGE READY"))
         (Some (Plain (Some "Creative assets ready. Ad is now live!"))) None]
  | auction_ended =>
      [line ts (if wonByOwner msg then success else info)
         (if wonByOwner msg then IconTrophy else IconFinish)
         (Plain (Some (if wonByOwner msg then "AUCTION WON!" else "AUCTION ENDED")))
         (Some (EndDetails (endReason msg) (finalBid msg))) None]
  end.

Definition getBrandName (agentId : string) : string :=
  if String.eqb agentId "IceCo" || String.eqb agentId "AgentA" then "IceCo"
  else if String.eqb agentId "FizzUp" || String.eqb agentId "AgentB" then "FizzUp"
  else agentId.

Record Terminals := {
  iceCoLogs : list TerminalLog;
  fizzUpLogs : list TerminalLog;
}.

(** One turn of the [forEach] that splits the messages by agent. *)
Definition splitStep (acc : Terminals) (msg : StreamingMessage) : Terminals :=
  let brandName := getBrandName (JS.str_or (agentId msg) "") in
  let ended := bool_decide (type msg = auction_ended) in
  {| iceCoLogs :=
       if String.eqb brandName "IceCo" || ended
       then iceCoLogs acc ++ messageToTerminalLog msg else iceCoLogs acc;
     fizzUpLogs :=
       if String.eqb brandName "FizzUp" || ended
       then fizzUpLogs acc ++ messageToTerminalLog msg else fizzUpLogs acc |}.

Definition splitLogs (messages : list StreamingMessage) : Terminals :=
  fold_left splitStep messages {| iceCoLogs := []; fizzUpLogs := [] |}.

(** *** What the properties below speak of *)

(** The party a message is filed under. *)
Definition brandOf (msg : StreamingMessage) : string :=
  getBrandName (JS.str_or (agentId msg) "").

(** Whether a message goes to the terminal of [brand]. *)
Definition shownTo (brand : string) (msg : StreamingMessage) : bool :=
  String.eqb (brandOf msg) brand || bool_decide (type msg = auction_ended).

(** An event of type [ty] with no other field. *)
Definition noData (ty : string) : EventData :=
  {| evType := ty; evAgentId := None; evTimestamp := None; evThinking := None;
     evStrategy := None; evProposedAmount := None; evAmount := None;
     evTransactionHash := None; evReflection := None; evReasoning := None;
     evWinner := None; evFinalBid := None; evReason := None;
     evImageUrl := None; evStatus := None; evMessage := None; evTaskId := None |}.

(** A [thinking] event as the server emits it: it has no transaction
    hash. *)
Definition thinkingEvent : EventData :=
  {| evType := "thinking"; evAgentId := Some "IceCo";
     evTimestamp := Some "2025-01-01T00:00:20.000Z";
     evThinking := Some "Minimum bid is $0.10. I will start with $0.50.";
     evStrategy := Some "Lead-in bid strategy";
     evProposedAmount := Some 0.5%float; evAmount := None;
     evTransactionHash := None; evReflection := None; evReasoning := None;
     evWinner := None; evFinalBid := None; evReason := None;
     evImageUrl := None; evStatus := None; evMessage := None; evTaskId := None |}.

Definition freshPage : PageState :=
  {| seenEventIds := ∅; messages := []; currentBid := None |}.

(** The [ad_image_ready] event of an auction IceCo won. *)
Definition imageReadyEvent : EventData :=
  {| evType := "ad_image_ready"; evAgentId := None;
     evTimestamp := Some "2025-01-01T00:00:52.000Z"; evThinking := None;
     evStrategy := None; evProposedAmount := None; evAmount := None;
     evTransactionHash := None; evReflection := None; evReasoning := None;
     evWinner := Some {| winnerAgentId := "IceCo"; address := None |};
     evFinalBid := None; evReason := None;
     evImageUrl := Some "/water-ad-demo.png"; evStatus := None;
     evMessage := None; evTaskId := None |}.

(** Its message. *)
Definition imageReady : StreamingMessage :=
  adImageReadyMessage 1735689652000 "2025-01-01T00:00:52.000Z" imageReadyEvent.

(** The [auction_ended] event of that auction. *)
Definition endedEvent : EventData :=
  {| evType := "auction_ended"; evAgentId := None;
     evTimestamp := Some "2025-01-01T00:00:45.000Z"; evThinking := None;
     evStrategy := None; evProposedAmount := None; evAmount := None;
     evTransactionHash := None; evReflection := None; evReasoning := None;
     evWinner := Some {| winnerAgentId := "IceCo"; address := None |};
     evFinalBid := Some 1.25%float; evReason := Some "FizzUp withdrew";
     evImageUrl := None; evStatus := None; evMessage := None;
     evTaskId := None |}.

End AuctionPage.

(** ** The [get_auction_state] tool of the agent *)

Module AuctionStateTool.
Import Agent.

(** What the request for the status comes back with: the body of a 2xx
    answer, or the exception the client raises otherwise. *)
Inductive StatusReply :=
| StatusBody (data : Status.Body)
| StatusFailed (errorMessage : string).

(** [s.padStart(2, "0")] *)
Definition padStart2 (s : string) : string :=
  match String.length s with
  | 0 => "00"
  | 1 => "0" +:+ s
  | _ => s
  end.

(** The minutes-and-seconds text:
    [`${Math.floor(t / 60)}:${(t % 60).toString().padStart(2, "0")}`],
    for a whole number of seconds [t] of magnitude below 10^14, where the
    division is exact and the numbers print in plain decimal.  [%] keeps
    the sign of [t]. *)
Definition formatTimeRemaining (t : Z) : string :=
  pretty (t / 60)%Z +:+ ":" +:+ padStart2 (pretty (Z.rem t 60)).

(** The [data] of the tool's answer. *)
Record AuctionState := {
  winningBid : JS.number;
  winningBidder : option string;
  stateTimeRemaining : option string;
  stateBidHistory : list Status.Bid;
}.

Inductive AuctionStateResult :=
| AuctionStateOk (data : AuctionState)
| AuctionStateError (error : string).

(** [data.currentBid || 0] *)
Definition bid_or_zero (x : option JS.number) : JS.number :=
  match x with
  | Some v => if JS.truthy_num v then v else 0%float
  | None => 0%float
  end.

(** [data.currentWinner?.agentId || null] *)
Definition winner_or_null (w : Status.Winner) : option string :=
  match Status.winner_agentId w with
  | Some a => if String.eqb a "" then None else Some a
  | None => None
  end.

(** [data.timeRemaining ? ... : null] *)
Definition time_or_null (t : option Z) : option string :=
  match t with
  | Some v => if (v =? 0)%Z then None else Some (formatTimeRemaining v)
  | None => None
  end.

(** [getAuctionStateTool.execute]: the spot asked for and the answer. *)
Definition getAuctionState (fetchStatus : string -> StatusReply)
    (a : IntelligentBiddingAgent) (adSpotId : option string)
    : string * AuctionStateResult :=
  let spotId := JS.str_or adSpotId (currentAdSpotId a) in
  (spotId,
   match fetchStatus spotId with
   | StatusBody data =>
       AuctionStateOk
         {| winningBid := bid_or_zero (Status.currentBid data);
            winningBidder := winner_or_null (Status.currentWinner data);
            stateTimeRemaining := time_or_null (Status.timeRemaining data);
            stateBidHistory := Status.bidHistory data |}
   | StatusFailed errorMessage => AuctionStateError errorMessage
   end).

(** The status route behind the client: an answer outside 2xx is raised
    as an exception that names its status. *)
Definition statusOverHttp (AUCTION_DURATION_MS : Z)
    (getAdSpotRecord : string -> StatusRoute.DbResult) (now : Z)
    (spotId : string) : StatusReply :=
  match StatusRoute.GET AUCTION_DURATION_MS getAdSpotRecord now (Some spotId) with
  | StatusRoute.Ok body => StatusBody body
  | r => StatusFailed ("Request failed with status code "
                       +:+ pretty (StatusRoute.httpStatus r))
  end.

(** A record whose auction started at [start], led by an agent at 0.5. *)
Definition openRecord (start : Z) : StatusRoute.AdSpotRecord :=
  {| StatusRoute.auctionStartTime := start;
     StatusRoute.recCurrentBid := Some 0.5%float;
     StatusRoute.recCurrentWinner := Status.WinnerObject (Some "IceCo");
     StatusRoute.recAuctionEnded := None;
     StatusRoute.recWinnerAdImage := Status.ImageNull;
     StatusRoute.recBidHistory := [] |}.

(** A store with one record, for [spot-1]. *)
Definition oneSpot (start : Z) (id : string) : StatusRoute.DbResult :=
  StatusRoute.DbReturns (if String.eqb id "spot-1" then Some (openRecord start) else None).

End AuctionStateTool.

(** ** The [generate_ad_image] tool of the agent *)

Module ImageTool.

(** What the tool posts to [/api/bid/:spot/image-status]. *)
Inductive ImageStatus := started | progress | completed | failed.

(** The [message] of a post, with what it is built from. *)
Inductive ImageMessage :=
| Generating (prompt : string)
| InProgress (taskId : option string)
| StillGenerating (elapsedSeconds : nat) (status : option string)
| Generated
| GenerationFailed (status : option string)
| TimedOut
| GenerationError (errorMessage : string).

Record ImageUpdate := {
  updStatus : ImageStatus;
  updMessage : ImageMessage;
  updImageUrl : option string;
  updTaskId : option string;
}.

(** The answer to the POST that creates the task: [response.data.taskId],
    or an exception. *)
Inductive CreateReply :=
| TaskCreated (taskId : option string)
| CreateFailed (errorMessage : string).

(** [taskData] as the loop reads it. *)
Record TaskData := {
  taskStatus : option string;
  generated : option (list string);
}.

(** The answer to one status request: the body, with the [data] it may
    nest, or an exception. *)
Inductive PollReply :=
| PollBody (body : TaskData) (nested : option TaskData)
| PollFailed.

(** What the tool returns to the model. *)
Inductive ImageResult :=
| ImageSuccess (imageUrl : string)
| ImageFailed (status : option string)
| ImageTimeout
| ImageError (errorMessage : string).

(** [statusResponse.data.data || statusResponse.data] *)
Definition taskData_of (body : TaskData) (nested : option TaskData) : TaskData :=
  default body nested.

(** [generated && generated.length > 0], with [generated[0]]. *)
Definition first_image (d : TaskData) : option string :=
  match generated d with
  | Some (url :: _) => Some url
  | _ => None
  end.

Definition status_failed (d : TaskData) : bool :=
  match taskStatus d with
  | Some s => String.eqb s "FAILED" || String.eqb s "failed"
              || String.eqb s "ERROR" || String.eqb s "error"
  | None => false
  end.

(** The run of the tool: the posts it makes, in order, the number of
    status requests, and what it returns.  Every status request follows a
    wait of 3000 ms. *)
Record ImageRun := {
  updates : list ImageUpdate;
  statusRequests : nat;
  result : ImageResult;
}.

Definition say (u : ImageUpdate) (r : ImageRun) : ImageRun :=
  {| updates := u :: updates r; statusRequests := statusRequests r;
     result := result r |}.

Definition asked (r : ImageRun) : ImageRun :=
  {| updates := updates r; statusRequests := S (statusRequests r);
     result := result r |}.

Definition update (s : ImageStatus) (m : ImageMessage) (url taskId : option string)
    : ImageUpdate :=
  {| updStatus := s; updMessage := m; updImageUrl := url; updTaskId := taskId |}.

(** The polling loop from turn [i], with [left] turns to go. *)
Fixpoint pollTask (taskId : option string) (poll : nat -> PollReply)
    (left i : nat) : ImageRun :=
  match left with
  | O =>
      {| updates := [update failed TimedOut None None]; statusRequests := 0;
         result := ImageTimeout |}
  | S left' =>
      asked
        match poll i with
        | PollBody body nested =>
            let taskData := taskData_of body nested in
            match first_image taskData with
            | Some imageUrl =>
                {| updates := [update completed Generated (Some imageUrl) taskId];
                   statusRequests := 0; result := ImageSuccess imageUrl |}
            | None =>
                if status_failed taskData then
                  {| updates := [update failed (GenerationFailed (taskStatus taskData))
                                   None None];
                     statusRequests := 0;
                     result := ImageFailed (taskStatus taskData) |}
                else if Nat.eqb (i mod 5) 0 then
                  say (update progress
                         (StillGenerating (i * 3) (taskStatus taskData)) None None)
                    (pollTask taskId poll left' (S i))
                else pollTask taskId poll left' (S i)
            end
        | PollFailed => pollTask taskId poll left' (S i)
        end
  end.

(** [generate_ad_image]'s [execute]. *)
Definition generateAdImage (create : CreateReply) (poll : nat -> PollReply)
    (prompt : string) : ImageRun :=
  say (update started (Generating prompt) None None)
    match create with
    | TaskCreated taskId =>
        say (update progress (InProgress taskId) None taskId)
          (pollTask taskId poll 40 0)
    | CreateFailed errorMessage =>
        {| updates := [update failed (GenerationError errorMessage) None None];
           statusRequests := 0; result := ImageError errorMessage |}
    end.

(** How one status answer settles the task, if it does. *)
Definition settles (r : PollReply) : option ImageResult :=
  match r with
  | PollBody body nested =>
      let taskData := taskData_of body nested in
      match first_image taskData with
      | Some imageUrl => Some (ImageSuccess imageUrl)
      | None => if status_failed taskData then Some (ImageFailed (taskStatus taskData))
                else None
      end
  | PollFailed => None
  end.

Definition is_progress (u : ImageUpdate) : bool :=
  match updStatus u with
  | progress => true
  | _ => false
  end.

(** What the last post of a run says, given what the run returns. *)
Definition closes (r : ImageResult) (final : ImageUpdate) : Prop :=
  match r with
  | ImageSuccess url => updStatus final = completed /\ updImageUrl final = Some url
  | _ => updStatus final = failed /\ updImageUrl final = None
  end.

(** A task that is still running when asked, except at turn [n], where its
    image is there. *)
Definition readyAt (n : nat) (i : nat) : PollReply :=
  if Nat.eqb i n
  then PollBody {| taskStatus := Some "COMPLETED";
                   generated := Some ["https://img.example/ad.png"] |} None
  else PollBody {| taskStatus := Some "IN_PROGRESS"; generated := Some [] |} None.

End ImageTool.

(** ** The auction page: loading and polling *)

Module PagePolling.
Import AuctionPage.

(** An entry of [data.bidHistory], as the page types it. *)
Record HistoryBid := {
  hbAgentId : string;
  hbTimestamp : string;
  hbAmount : JS.number;
  hbTxHash : option string;
  hbReflection : option string;
}.

(** What the status request of [loadInitialState] comes back with: the
    parsed body, of which [currentBid] and [bidHistory] are read, or an
    exception. *)
Inductive InitialReply :=
| InitialData (currentBid : option JS.number) (bidHistory : option (list HistoryBid))
| InitialFailed.

(** The message pushed for one entry of the history. *)
Definition historicalMessage (b : HistoryBid) : StreamingMessage :=
  {| id := hbAgentId b +:+ "-bid-" +:+ hbTimestamp b;
     type := bid; agentId := Some (hbAgentId b);
     timestamp := Some (hbTimestamp b); msgThinking := None; strategy := None;
     proposedAmount := None; amount := Some (hbAmount b);
     transactionHash := hbTxHash b; msgReflection := hbReflection b;
     refundAmount := None; reasoning := None; winner := None; finalBid := None;
     endReason := None;
     isLoading := Some (negb (JS.truthy_str (hbReflection b)));
     imageUrl := None; status := None; message := None; taskId := None |}.

(** [loadInitialState], from the answer on. *)
Definition loadInitialState (reply : InitialReply) (st : PageState) : PageState :=
  match reply with
  | InitialData current history =>
      let st1 := setCurrentBid current st in
      match history with
      | Some bids => setMessages (fun _ => map historicalMessage bids) st1
      | None => st1
      end
  | InitialFailed => st
  end.

(** The clock when an event is processed: [Date.now()] and
    [new Date().toISOString()]. *)
Definition Clock := nat -> Z * string.

(** [result.events.forEach(processEvent)], the [k]-th call reading the
    clock at [k]. *)
Fixpoint processAll (clock : Clock) (k : nat) (events : list EventData)
    (st : PageState) : PageState :=
  match events with
  | [] => st
  | data :: rest =>
      processAll clock (S k) rest
        (processEvent (clock k).1 (clock k).2 data st)
  end.

(** The body of a poll's answer. *)
Record PollResult := {
  success : bool;
  events : option (list EventData);
  resultTimestamp : option string;
}.

(** The state of the polling effect: the page, the watermark and the flag
    its cleanup clears. *)
Record Poller := {
  page : PageState;
  lastFetched : option string;
  isPolling : bool;
}.

(** The query a poll sends: [None] when it sends nothing, [Some since]
    otherwise. *)
Definition pollQuery (p : Poller) : option (option string) :=
  if isPolling p
  then Some (if JS.truthy_str (lastFetched p) then lastFetched p else None)
  else None.

(** [pollEvents], from the answer on ([None]: the request or the parsing
    threw). *)
Definition pollEvents (clock : Clock) (reply : option PollResult) (p : Poller)
    : Poller :=
  if isPolling p then
    match reply with
    | Some result =>
        match events result with
        | Some evs =>
            if success result then
              {| page := processAll clock 0 evs (page p);
                 lastFetched := resultTimestamp result;
                 isPolling := isPolling p |}
            else p
        | None => p
        end
    | None => p
    end
  else p.

(** *** What the properties below speak of *)

(** A message that no later event changes: anything but a bid that waits
    for its reflection. *)
Definition settled (msg : StreamingMessage) : bool :=
  negb (bool_decide (type msg = bid) && default false (isLoading msg)).

(** Two messages that differ at most in the reflection and the loading
    flag: [b] is [a] with these two fields replaced. *)
Definition same_but_reflection (a b : StreamingMessage) : Prop :=
  b = {| id := id a; type := type a; agentId := agentId a;
         timestamp := timestamp a; msgThinking := msgThinking a;
         strategy := strategy a; proposedAmount := proposedAmount a;
         amount := amount a; transactionHash := transactionHash a;
         msgReflection := msgReflection b; refundAmount := refundAmount a;
         reasoning := reasoning a; winner := winner a;
         finalBid := finalBid a; endReason := endReason a;
         isLoading := isLoading b; imageUrl := imageUrl a;
         status := status a; message := message a; taskId := taskId a |}.

(** How an old message relates to what a later state holds in its
    place: unchanged if it was settled. *)
Definition kept (old new : StreamingMessage) : Prop :=
  same_but_reflection old new /\ (settled old = true -> new = old).

(** A clock that starts at [t0] and advances a millisecond per reading. *)
Definition ticking (t0 : Z) : Clock := fun k => ((t0 + Z.of_nat k)%Z, "").

(** A bid of FizzUp with its transaction hash. *)
Definition fizzBid : EventData :=
  {| evType := "bid_placed"; evAgentId := Some "FizzUp";
     evTimestamp := Some "2025-01-01T00:00:30.000Z"; evThinking := None;
     evStrategy := None; evProposedAmount := None; evAmount := Some 0.75%float;
     evTransactionHash := Some "0xbbbb"; evReflection := None;
     evReasoning := None; evWinner := None; evFinalBid := None;
     evReason := None; evImageUrl := None; evStatus := None; evMessage := None;
     evTaskId := None |}.

(** The same bid as the status route lists it. *)
Definition fizzHistory : HistoryBid :=
  {| hbAgentId := "FizzUp"; hbTimestamp := "2025-01-01T00:00:30.000Z";
     hbAmount := 0.75%float; hbTxHash := Some "0xbbbb"; hbReflection := None |}.

(** FizzUp's reflection on its bids. *)
Definition fizzReflection : EventData :=
  {| evType := "reflection"; evAgentId := Some "FizzUp";
     evTimestamp := Some "2025-01-01T00:00:33.000Z"; evThinking := None;
     evStrategy := None; evProposedAmount := None; evAmount := None;
     evTransactionHash := None;
     evReflection := Some "Successfully outbid competitor.";
     evReasoning := None; evWinner := None; evFinalBid := None;
     evReason := None; evImageUrl := None; evStatus := None; evMessage := None;
     evTaskId := None |}.

End PagePolling.

(** * Properties *)

(** ** The bidding tool and the payment guard *)

Module AgentFacts.
Import Agent.

(** Above the cap, the tool answers at once and sends nothing. *)
Lemma placeBid_above_cap client a args :
  JS.gt (proposedAmount args) (JS.minus (maxBid a) 0.08%float) = true ->
  placeBid client a args =
  (a, OverBudget (proposedAmount args) (JS.minus (maxBid a) 0.08%float)
        (maxBid a), []).
Proof. intros Hgt. unfold placeBid. by rewrite Hgt. Qed.

(** C2. A proposed amount strictly above [maxBid - 0.08] makes [placeBid]
    return [OverBudget] with [maxAllowedBid = maxBid - 0.08] and
    [totalBudget = maxBid], whatever the payment client is and whatever the
    server would have answered; the agent is unchanged and no bid request
    is sent. The result is never the too-low rejection ([ProposalRejected],
    the answer to a 400 of the server). With [maxBid = 5], a bid of 6 gives
    [OverBudget] with [maxAllowedBid = 4.92]. *)
Theorem place_bid_over_budget :
  (forall client a args,
      JS.gt (proposedAmount args) (JS.minus (maxBid a) 0.08%float) = true ->
      placeBid client a args =
      (a, OverBudget (proposedAmount args) (JS.minus (maxBid a) 0.08%float)
            (maxBid a), [])) /\
  (forall client a args,
      JS.gt (proposedAmount args) (JS.minus (maxBid a) 0.08%float) = true ->
      forall yours minimum current text suggested,
        (placeBid client a args).1.2
        <> ProposalRejected yours minimum current text suggested) /\
  (forall client a spot why,
      maxBid a = 5%float ->
      placeBid client a
        {| argAdSpotId := spot; proposedAmount := 6%float; reasoning := why |}
      = (a, OverBudget 6%float 4.92%float 5%float, [])).
Proof.
  repeat apply conj.
  - apply placeBid_above_cap.
  - intros client a args Hgt ? ? ? ? ?.
    by rewrite (placeBid_above_cap client a args Hgt).
  - intros client a spot why Hmax.
    rewrite placeBid_above_cap; cbn; rewrite Hmax; reflexivity.
Qed.

Lemma place_bid_over_budget_witness :
  let args := {| argAdSpotId := None; proposedAmount := 6%float;
                 reasoning := "outbid the competitor" |} in
  let client :=
    ClientReady (fun _ : BidRequest => Responded 200 true 6%float None None) in
  placeBid client safetyAgent args
  = (safetyAgent, OverBudget 6%float 4.92%float 5%float, []).
Proof.
  intros args client.
  exact (proj1 place_bid_over_budget client safetyAgent args eq_refl).
Defined.

(** C8. [processEventPayment] leaves the wallet as it was. Whenever the
    amount of the event exceeds [maxBid], exceeds the safety threshold of
    10.0, or exceeds the balance of the wallet, the result has
    [success = false], carries no transaction hash, and no payment is
    logged as sent. A successful result is only reached when all three
    checks pass. *)
Theorem payment_is_guarded :
  forall mockTxHash a w event,
    let amount := eventBidAmount event in
    let r := (processEventPayment mockTxHash a w event).1.1 in
    let w' := (processEventPayment mockTxHash a w event).1.2 in
    let logged := (processEventPayment mockTxHash a w event).2 in
    w' = w /\
    (JS.gt amount (maxBid a) = true \/
     JS.gt amount SAFETY_THRESHOLD = true \/
     JS.lt (getUSDCBalance w) amount = true ->
     success r = false /\ txHash r = None /\ ~ In payment_sent logged) /\
    (success r = true ->
     JS.gt amount (maxBid a) = false /\
     JS.gt amount SAFETY_THRESHOLD = false /\
     JS.lt (getUSDCBalance w) amount = false /\
     txHash r = Some mockTxHash /\ logged = [payment_sent]).
Proof.
  intros tx a w event. cbn zeta. unfold processEventPayment.
  destruct (JS.gt (eventBidAmount event) (maxBid a)) eqn:H1;
    [|destruct (JS.gt (eventBidAmount event) SAFETY_THRESHOLD) eqn:H2;
      [|destruct (JS.lt (getUSDCBalance w) (eventBidAmount event)) eqn:H3]].
  all: cbn; repeat split; try done.
  all: try (intros [?|[]]; done).
  all: try (intros [?|[?|?]]; congruence).
  all: match goal with Hor : _ \/ _ |- _ => destruct Hor as [?|[?|?]]; done end.
Qed.

(** The four cases of [scripts/test-payment-safety.ts]: a wallet of 100
    pays 2.5 and refuses 15.0 and 6.0; a wallet of 1.0 refuses 2.0. *)
Lemma payment_is_guarded_witness :
  success (pay 100%float 2.5%float) = true /\
  success (pay 100%float 15.0%float) = false /\
  success (pay 100%float 6.0%float) = false /\
  success (pay 1.0%float 2.0%float) = false.
Proof.
  split; [reflexivity|].
  split; [|split].
  - destruct (payment_is_guarded "0xabc" safetyAgent {| usdc := 100%float |}
                (adEvent "evt" click 15.0%float)) as (_ & Hblocked & _).
    apply Hblocked. right; left; reflexivity.
  - destruct (payment_is_guarded "0xabc" safetyAgent {| usdc := 100%float |}
                (adEvent "evt" click 6.0%float)) as (_ & Hblocked & _).
    apply Hblocked. left; reflexivity.
  - destruct (payment_is_guarded "0xabc" safetyAgent {| usdc := 1.0%float |}
                (adEvent "evt" click 2.0%float)) as (_ & Hblocked & _).
    apply Hblocked. right; right; reflexivity.
Defined.

End AgentFacts.

(** ** The coordinator: decisions and monitors *)

Module CoordinatorFacts.
Import Agent Coordinator.

(** *** Tactics for the steps *)

(** Unfolds the steps down to the records, outer definitions first. *)
Ltac unfold_all :=
  unfold pending, live, orderly,
    start_call, start_resume, decide_onBalance, decide_onBaseline, decide_placeBid,
    decide_end, refundTick_fire, refundTick_onBalance, refundTick_onStatus,
    auctionEndTick_fire, auctionEndTick_onStatus, auctionEndTick_onCreative,
    timeout_fire, immediate_fire in *;
  unfold decideBidStrategy_begin, decideBidStrategy_finally,
    decideBidStrategy_settle, react_to_outbid, monitorAuctionEnd,
    startRefundMonitoring_install, startRefundMonitoring_guard, stop in *;
  unfold stopAuctionEndMonitoring, stopRefundMonitoring in *;
  unfold setInterval, clearInterval, find_interval, drop_refundTick,
    drop_auctionEndTick, set_phase, on_agent, on_loop in *.

(** With the handles known, the list of intervals is known. *)
Ltac open_handles :=
  match goal with
  | H : map _ ?iv = (handle_list _ ?r ++ handle_list _ ?a)%list |- _ =>
      destruct r, a; cbn in H;
      destruct iv as [|[] [|[] [|? ?]]]; cbn in H; simplify_eq
  end.

(** Feeds the freshness facts with the handles at hand. *)
Ltac use_handles :=
  repeat match goal with
  | H : forall a b, Some ?x = Some a -> Some ?y = Some b -> _ |- _ =>
      specialize (H x y eq_refl eq_refl)
  | H : forall id, Some ?x = Some id -> _ |- _ => specialize (H x eq_refl)
  end.

Ltac finish :=
  cbn in *; use_handles; repeat (case_decide; cbn in *); intros; simplify_eq;
  rewrite ?length_app; cbn;
  first [ done | lia | by eauto | tauto
        | by intuition (simplify_eq; eauto; try congruence; try lia)
        | idtac ].

Ltac solve_inv := split; cbn; unfold pending, live; finish.

(** A list of length at most one is empty or a singleton. *)
Ltac shorten l :=
  destruct l as [|? [|? ?]]; cbn in *; try (exfalso; lia).

Ltac pick k := destruct k as [|k]; cbn in *; simplify_option_eq.

(** A bid changes at most [lastBidAmount]. *)
Lemma placeBid_agent client a args :
  exists x, (placeBid client a args).1.1 = set_lastBidAmount x a.
Proof.
  unfold placeBid. destruct (JS.gt _ _).
  { exists (lastBidAmount a). by destruct a. }
  destruct client as [post|st neg msg]; cbn.
  2:{ exists (lastBidAmount a). by destruct a. }
  destruct (post _) as [st ok cur ends tx|st neg msg]; cbn.
  - destruct (_ && _); cbn; [by eexists|]. exists (lastBidAmount a). by destruct a.
  - exists (lastBidAmount a). by destruct a.
Qed.


(** *** Schedules under a condition *)

(** What every permitted step preserves, every permitted schedule
    preserves. *)
Lemma run_while_preserves (ok : Event -> World -> bool) (P : World -> Prop) :
  (forall ev w w', P w -> ok ev w = true -> exec ev w = Some w' -> P w') ->
  forall evs w w', P w -> run_while ok evs w = Some w' -> P w'.
Proof.
  intros Hstep. induction evs as [|ev evs IH]; intros w w' Hw Hrun; cbn in Hrun.
  - by simplify_eq.
  - destruct (ok ev w) eqn:Hok; [|done].
    destruct (exec ev w) as [w1|] eqn:Hex; [|done]. cbn in Hrun.
    eapply IH; [|done]. by eapply Hstep.
Qed.


(** *** Decisions and refund monitors, whatever the auction-end callbacks do *)

Lemma DecisionInv_boot name max : DecisionInv (boot name max).
Proof. split; cbn; try lia; try done; intuition congruence. Qed.

Lemma DecisionInv_store_previousBalance id x w :
  DecisionInv w -> DecisionInv (store_previousBalance id x w).
Proof. intros []. split; assumption. Qed.

Lemma DecisionInv_step ev w w' :
  DecisionInv w -> refund_serial ev w = true -> exec ev w = Some w' ->
  DecisionInv w'.
Proof.
  intros [] Hord Hex. unfold refund_serial, starts_once, refund_in_turn in Hord.
  destruct w as [[n mb act mi aei lra spot lba air rp]
                 [nt ivs pb tos imm sts ds rts ats dstarted cruns scalls]].
  destruct ev; cbn in Hex; unfold_all; cbn in *.
  - (* EvStart *)
    rewrite andb_true_r in Hord. apply Nat.eqb_eq in Hord. subst.
    destruct dinv_pristine0 as (?&?&?&?&?&?&?&?); [done|].
    simplify_eq. destruct tos, sts; cbn in *; try lia. subst. solve_inv.
  - (* EvStartResume *)
    shorten sts; pick k.
    rewrite dinv_starting0 in * by done. destruct dinv_pending_quiet0; [lia|].
    subst. shorten ds. destruct ivs; cbn in *; simplify_eq.
    solve_inv.
  - (* EvStop *)
    simplify_eq. open_handles; solve_inv.
  - (* EvDecideBalance *)
    shorten ds; pick i. destruct d as [sp []]; cbn in *; simplify_eq.
    destruct mi; cbn in *.
    + exfalso. assert (false = true) by (apply dinv_monitored0; left; done). done.
    + solve_inv.
  - (* EvDecideBaseline *)
    shorten ds; pick i. destruct d as [sp []]; cbn in *; simplify_eq.
    destruct mi; cbn in *.
    + exfalso. assert (false = true) by (apply dinv_monitored0; left; done). done.
    + destruct aei; cbn in *; destruct ivs as [|[] [|? ?]]; cbn in *; simplify_eq;
      solve_inv.
  - (* EvPlaceBid *)
    shorten ds; pick i. destruct d as [sp []]; cbn in *; simplify_eq.
    match goal with
    | |- context [placeBid ?c ?a ?args] =>
        destruct (placeBid_agent c a args) as [x ->]
    end.
    solve_inv.
  - (* EvDecideEnd *)
    shorten ds; pick i. destruct d as [sp []]; cbn in *; simplify_eq.
    destruct (auction_over o); cbn in *; simplify_eq.
    + open_handles; destruct rp; cbn; solve_inv.
    + destruct rp, act; cbn; solve_inv.
  - (* EvRefundFire *)
    apply Nat.eqb_eq in Hord. destruct rts; [|done]. clear Hord.
    open_handles; cbn in *; repeat (case_decide; cbn in *); simplify_option_eq;
      try (destruct_and?; congruence).
    all: destruct act; cbn in *; simplify_eq; solve_inv.
  - (* EvRefundBalance *)
    shorten rts; (destruct k as [|k]; cbn in Hex; [|try done]); try done.
    destruct r as [mon sp []]; cbn in Hex; [|done].
    destruct (pb !! mon) as [prev|]; cbn in Hex; [|done].
    destruct (prev <? currentBalance)%float; simplify_eq.
    + solve_inv.
    + apply DecisionInv_store_previousBalance. solve_inv.
  - (* EvRefundStatus *)
    shorten rts; (destruct k as [|k]; cbn in Hex; [|try done]); try done.
    destruct r as [mon sp []]; cbn in Hex; [done|].
    assert (Hr : forallb reasoning ds = true) by (apply dinv_monitored0; right; done).
    assert (Hp : length tos + imm + length sts = 0) by
      (destruct (decide (length tos + imm + length sts = 0)); [done|];
       destruct dinv_pending_quiet0; done).
    destruct response as [st|]; simplify_eq;
      [|apply DecisionInv_store_previousBalance; solve_inv].
    destruct (same_name _ _); simplify_eq;
      apply DecisionInv_store_previousBalance; [solve_inv|].
    shorten ds; cbn in *; simplify_eq;
    open_handles; cbn in *; solve_inv.
  - (* EvAuctionEndFire *)
    clear Hord.
    open_handles; cbn in *; repeat (case_decide; cbn in *); simplify_eq;
      try (destruct_and?; congruence).
    all: solve_inv.
  - (* EvAuctionEndStatus *)
    destruct (ats !! k) as [[sp []]|]; cbn in Hex; try done.
    destruct response as [st|]; simplify_eq; [|solve_inv].
    destruct (should_generate _ _); simplify_eq; [|solve_inv].
    open_handles; cbn in *; solve_inv.
  - (* EvCreativeDone *)
    destruct (ats !! k) as [[sp []]|]; cbn in Hex; try done.
    destruct ok; simplify_eq; solve_inv.
  - (* EvTimeout *)
    shorten tos; (destruct k as [|k]; cbn in Hex; [|try done]); try done.
    destruct dinv_pending_quiet0 as [-> ->]; [lia|].
    destruct act; simplify_eq; shorten ds; solve_inv.
  - (* EvImmediate *)
    destruct imm; [done|]. destruct dinv_pending_quiet0 as [-> ->]; [lia|].
    destruct act; simplify_eq; shorten ds; solve_inv.
Qed.

Lemma DecisionInv_run name max evs w :
  run_while refund_serial evs (boot name max) = Some w -> DecisionInv w.
Proof.
  apply (run_while_preserves refund_serial DecisionInv DecisionInv_step).
  apply DecisionInv_boot.
Qed.

(** An orderly schedule is one of them. *)
Lemma run_orderly_serial evs : forall w w',
  run_orderly evs w = Some w' -> run_while refund_serial evs w = Some w'.
Proof.
  induction evs as [|ev evs IH]; intros w w' Hrun; cbn in *; [done|].
  assert (Hok : orderly ev w = true -> refund_serial ev w = true).
  { unfold refund_serial, starts_once, refund_in_turn, orderly.
    destruct ev; try done. intros ->. done. }
  destruct (orderly ev w); [|done]. rewrite Hok by done.
  destruct (exec ev w) as [w1|]; [|done]. cbn in *. by apply IH.
Qed.

(** *** The auction-end monitor on any schedule *)






(** *** Creative runs, whatever the refund callbacks do *)














(** *** After [stop] *)










(** *** Outside these schedules *)





(** *** Outbid while deciding *)


(** *** The auction-end monitor *)


(** *** Stopping *)


(** *** One monitor of each kind *)


(** *** The properties at the sample schedules *)





End CoordinatorFacts.

(** ** The status route *)

Module StatusRouteFacts.
Import StatusRoute.

(** The clamp: never negative, zero from the deadline on. *)
Lemma timeRemaining_nonneg duration now r : (0 <= timeRemainingOf duration now r)%Z.
Proof. unfold timeRemainingOf. lia. Qed.

Lemma timeRemaining_after_deadline duration now r :
  (auctionStartTime r + duration <= now)%Z -> timeRemainingOf duration now r = 0%Z.
Proof.
  intros H. unfold timeRemainingOf.
  assert ((auctionStartTime r + duration - now) / 1000 <= 0)%Z.
  { apply Z.div_le_upper_bound; lia. }
  lia.
Qed.

(** C10 (amended). A request with no [adSpotId], or an empty one, is
    answered with status 400. For an [adSpotId] other than [demo-spot-1]
    with no record, the answer is the empty state: [currentBid] null,
    [bidHistory] empty, [auctionEnded] false, [winnerAdImage] null. For
    one with a record, [timeRemaining] is never negative and is zero from
    the deadline on. [demo-spot-1] is answered without a look at the
    records, with a fixed state. *)
Theorem status_query_contract :
  forall duration db now,
    (GET duration db now None = BadRequest "adSpotId is required" /\
     GET duration db now (Some "") = BadRequest "adSpotId is required" /\
     httpStatus (GET duration db now None) = 400) /\
    (forall id,
        id <> "" -> id <> "demo-spot-1" -> db id = DbReturns None ->
        GET duration db now (Some id) = Ok (emptyBody id) /\
        Status.currentBid (emptyBody id) = None /\
        Status.bidHistory (emptyBody id) = [] /\
        Status.auctionEnded (emptyBody id) = false /\
        Status.winnerAdImage (emptyBody id) = Status.ImageNull) /\
    (forall id r,
        id <> "" -> id <> "demo-spot-1" -> db id = DbReturns (Some r) ->
        exists body t,
          GET duration db now (Some id) = Ok body /\
          Status.timeRemaining body = Some t /\ (0 <= t)%Z /\
          ((auctionStartTime r + duration <= now)%Z -> t = 0%Z)) /\
    (exists body,
        GET duration db now (Some "demo-spot-1") = Ok body /\
        Status.timeRemaining body = Some 300%Z /\
        Status.currentBid body = Some 1.25%float /\
        length (Status.bidHistory body) = 3).
Proof.
  intros duration db now. repeat apply conj; try reflexivity.
  - intros id Hne Hdemo Hdb. unfold GET.
    apply String.eqb_neq in Hne, Hdemo. rewrite Hne, Hdemo, Hdb. done.
  - intros id r Hne Hdemo Hdb. unfold GET.
    apply String.eqb_neq in Hne, Hdemo. rewrite Hne, Hdemo, Hdb.
    eexists _, _. split; [reflexivity|]. split; [reflexivity|].
    split; [apply timeRemaining_nonneg|apply timeRemaining_after_deadline].
  - eexists. split; [reflexivity|]. done.
Qed.

(** [demo-spot-1] has no record, and yet its state is not empty. *)
Lemma demo_spot_answers_without_a_record :
  exists body,
    GET 300000 (fun _ => DbReturns None) 1700000000000 (Some "demo-spot-1")
    = Ok body /\
    Status.currentBid body = Some 1.25%float /\
    Status.currentWinner body = Status.WinnerString "IceCo" /\
    Status.winnerAdImage body = Status.ImageString "/water-ad-demo.png" /\
    length (Status.bidHistory body) = 3.
Proof. eexists. split; [reflexivity|]. done. Qed.

Lemma status_query_contract_witness :
  let db := fun id : string =>
    if String.eqb id "spot-1"
    then DbReturns (Some {| auctionStartTime := 1000; recCurrentBid := Some 0.5%float;
                            recCurrentWinner := Status.WinnerObject (Some "IceCo");
                            recAuctionEnded := None;
                            recWinnerAdImage := Status.ImageNull;
                            recBidHistory := [] |})
    else DbReturns None in
  GET 300000 db 500000 (Some "spot-2") = Ok (emptyBody "spot-2") /\
  exists body,
    GET 300000 db 500000 (Some "spot-1") = Ok body /\
    Status.timeRemaining body = Some 0%Z.
Proof.
  intros db.
  destruct (status_query_contract 300000 db 500000) as (_ & Hempty & Hrec & _).
  split.
  - apply (Hempty "spot-2"); done.
  - destruct (Hrec "spot-1" _ ltac:(done) ltac:(done) eq_refl)
      as (body & t & Hget & Ht & _ & Hzero).
    exists body. split; [exact Hget|]. rewrite Ht. f_equal. apply Hzero. cbn. lia.
Defined.

End StatusRouteFacts.

(** ** The events route *)

Module EventsRouteFacts.
Import EventsRoute.

(** *** Sorting by time *)

(** The modelled query returns its events in ascending order, and
    filtering commutes with the sort. *)
Lemma insertByTime_perm x l : Permutation (insertByTime x l) (x :: l).
Proof.
  induction l as [|y l IH]; cbn; [done|].
  destruct (_ <? _)%Z; [done|].
  rewrite IH. apply perm_swap.
Qed.

Lemma sortByTime_perm l : Permutation (sortByTime l) l.
Proof.
  induction l as [|x l IH]; cbn; [done|].
  rewrite insertByTime_perm. by constructor.
Qed.

Lemma insertByTime_sorted x l :
  StronglySorted byTime l -> StronglySorted byTime (insertByTime x l).
Proof.
  induction 1 as [|y l Hs IH Hall]; cbn.
  - repeat constructor.
  - destruct (timestamp (event x) <? timestamp (event y))%Z eqn:Hlt.
    + apply Z.ltb_lt in Hlt. constructor; [by constructor|].
      constructor; [unfold byTime; lia|].
      eapply Forall_impl; [exact Hall|]. unfold byTime. cbn. intros; lia.
    + apply Z.ltb_ge in Hlt. constructor; [done|].
      rewrite insertByTime_perm. by constructor.
Qed.

Lemma sortByTime_sorted l : StronglySorted byTime (sortByTime l).
Proof.
  induction l as [|x l IH]; cbn; [constructor|]. by apply insertByTime_sorted.
Qed.

Lemma filter_insertByTime P x l :
  StronglySorted byTime l ->
  List.filter P (insertByTime x l) =
  if P x then insertByTime x (List.filter P l) else List.filter P l.
Proof.
  induction 1 as [|y l Hs IH Hall]; cbn.
  - by destruct (P x).
  - destruct (timestamp (event x) <? timestamp (event y))%Z eqn:Hlt; cbn.
    + destruct (P x), (P y); cbn; rewrite ?Hlt; try done.
      destruct (List.filter P l) as [|z l'] eqn:Hf; cbn; [done|].
      assert (Hz : In z (List.filter P l)) by (rewrite Hf; by left).
      apply filter_In in Hz as [Hz _].
      apply (proj1 (List.Forall_forall _ _) Hall) in Hz.
      apply Z.ltb_lt in Hlt. unfold byTime in Hz.
      by rewrite (proj2 (Z.ltb_lt _ _)) by lia.
    + rewrite IH. destruct (P x), (P y); cbn; rewrite ?Hlt; done.
Qed.

Lemma filter_sortByTime P l :
  List.filter P (sortByTime l) = sortByTime (List.filter P l).
Proof.
  induction l as [|x l IH]; [done|].
  change (sortByTime (x :: l)) with (insertByTime x (sortByTime l)).
  rewrite filter_insertByTime by apply sortByTime_sorted.
  rewrite IH. cbn. by destruct (P x).
Qed.

(** *** Filters *)
Lemma filter_filter {A} (P Q : A -> bool) l :
  List.filter Q (List.filter P l) = List.filter (fun x => P x && Q x) l.
Proof.
  induction l as [|x l IH]; cbn; [done|].
  destruct (P x); cbn; [destruct (Q x)|]; by rewrite IH.
Qed.

Lemma filter_map_comm {A B} (f : A -> B) (Q : B -> bool) l :
  List.filter Q (map f l) = map f (List.filter (fun x => Q (f x)) l).
Proof.
  induction l as [|x l IH]; cbn; [done|].
  destruct (Q (f x)); cbn; by rewrite IH.
Qed.

Lemma filter_partition {A} (Q : A -> bool) l :
  Permutation l (List.filter (fun x => negb (Q x)) l ++ List.filter Q l).
Proof.
  induction l as [|x l IH]; cbn; [done|].
  destruct (Q x); cbn.
  - rewrite <- Permutation_middle. by constructor.
  - by constructor.
Qed.

Lemma filter_all {A} (f : A -> bool) l :
  (forall x, In x l -> f x = true) -> List.filter f l = l.
Proof.
  induction l as [|x l IH]; intros H; [done|].
  change (List.filter f (x :: l)) with
    (if f x then x :: List.filter f l else List.filter f l).
  rewrite (H x) by (by left). f_equal. apply IH. intros y Hy. apply H. by right.
Qed.

(** *** The routes *)

(** Every demo event is at least eight seconds old. *)
Lemma demo_events_are_past now e :
  In e (allDemoEvents now) -> (timestamp e <= now - 8000)%Z.
Proof.
  unfold allDemoEvents. cbv zeta. intros Hin.
  repeat (destruct Hin as [<-|Hin];
          [cbv [timestamp demo demoShared]; lia|]).
  destruct Hin.
Qed.

(** So a poll with no watermark returns all of them. *)
Lemma demo_history now : getDemoEvents now None = allDemoEvents now.
Proof.
  unfold getDemoEvents. apply filter_all. intros e Hin.
  apply demo_events_are_past in Hin.
  cbv [keepDemoEvent JS.date_le]. apply Z.leb_le. lia.
Qed.

(** The answer for the demo auction does not consult the store. *)
Lemma demo_poll_any_store parseDate store store' now since :
  GET parseDate store now "demo-spot-1" since
  = GET parseDate store' now "demo-spot-1" since.
Proof.
  assert (H : forall id, String.eqb id "demo-spot-1" = true ->
    GET parseDate store now id since = GET parseDate store' now id since).
  { intros id Hid. unfold GET. by rewrite Hid. }
  by apply H.
Qed.

(** A poll with a watermark is the history of the same instant, filtered. *)
Lemma poll_is_filter_of_history parseDate collection now id s w :
  s <> "" -> parseDate s = JS.DateMs w ->
  events (GET parseDate (contract collection) now id (Some s)) =
  List.filter (newer w) (events (GET parseDate (contract collection) now id None)).
Proof.
  intros Hs Hw. unfold GET, parseSince, contract.
  apply String.eqb_neq in Hs. rewrite Hs, Hw.
  destruct (String.eqb id "demo-spot-1"); cbn [events].
  - unfold getDemoEvents. rewrite filter_filter.
    apply filter_ext. intros e. cbv [keepDemoEvent newer JS.date_le].
    rewrite Z.ltb_antisym.
    by destruct (timestamp e <=? now)%Z, (timestamp e <=? w)%Z.
  - unfold getStoredEvents.
    rewrite filter_map_comm, filter_sortByTime, filter_filter.
    f_equal. f_equal. apply filter_ext. intros d.
    cbv [after newer JS.date_le]. rewrite Z.ltb_antisym.
    by rewrite andb_true_r.
Qed.

(** The demo history is stamped relative to the clock. *)
Lemma demo_log_moves_with_the_clock now d :
  allDemoEvents (now + d) = map (shift d) (allDemoEvents now).
Proof.
  unfold allDemoEvents. cbv zeta. cbn [map].
  unfold shift, demo, demoShared. cbn [timestamp type agentId winner].
  repeat (apply f_equal2; [f_equal; lia|]). reflexivity.
Qed.

Lemma newer_mono w1 w2 e : (w1 <= w2)%Z -> newer w2 e = true -> newer w1 e = true.
Proof. unfold newer. rewrite Z.ltb_lt, Z.ltb_lt. lia. Qed.

(** C4 (amended). The route answers the demo auction from its own
    history, whatever the store; for any other spot it hands the spot and
    the parsed watermark to [getStoredEvents] and passes on the events it
    returns, with their number as [count], and answers an exception of it
    with status 500, [success = false] and no events. With a store that
    answers as the spec's query contract says: within one request instant,
    a poll with no watermark, or an empty one, returns the full history;
    a poll with watermark [w] returns exactly the events of the history
    stamped strictly after [w], and [count] is their number. For two
    watermarks [w1 <= w2] the second poll returns the events of the first
    that are after [w2], so the first poll is the events up to [w2]
    together with the second poll: none skipped, none twice. For any spot
    other than [demo-spot-1] the answer does not depend on the instant of
    the request, so polling again with the same watermark gives the same
    events. The history of [demo-spot-1] is stamped relative to the
    instant of the request: a request made [d] milliseconds later sees
    every event [d] later. *)
Theorem events_poll_contract :
  forall parseDate collection now id,
    let poll := fun since =>
      events (GET parseDate (contract collection) now id since) in
    (forall store since,
        GET parseDate store now "demo-spot-1" since
        = GET parseDate (contract collection) now "demo-spot-1" since) /\
    (forall store since,
        id <> "demo-spot-1" ->
        GET parseDate store now id since =
        match store id (parseSince parseDate since) with
        | StoreReturns docs =>
            {| respStatus := 200; success := true; respError := None;
               respSpot := id; events := map event docs;
               count := length docs; respTimestamp := now |}
        | StoreThrows message =>
            {| respStatus := 500; success := false;
               respError := Some (default "Unknown error" message);
               respSpot := id; events := []; count := 0;
               respTimestamp := now |}
        end) /\
    (poll None =
       if String.eqb id "demo-spot-1" then allDemoEvents now
       else map event (sortByTime
              (List.filter (fun d => String.eqb (storedSpot d) id) collection))) /\
    (poll (Some "") = poll None) /\
    (forall s w,
        s <> "" -> parseDate s = JS.DateMs w ->
        poll (Some s) = List.filter (newer w) (poll None) /\
        (forall e, In e (poll (Some s)) <->
                   In e (poll None) /\ (w < timestamp e)%Z) /\
        count (GET parseDate (contract collection) now id (Some s))
        = length (poll (Some s))) /\
    (forall s1 w1 s2 w2,
        s1 <> "" -> s2 <> "" ->
        parseDate s1 = JS.DateMs w1 -> parseDate s2 = JS.DateMs w2 ->
        (w1 <= w2)%Z ->
        poll (Some s2) = List.filter (newer w2) (poll (Some s1)) /\
        Permutation (poll (Some s1))
          (List.filter (fun e => negb (newer w2 e)) (poll (Some s1))
           ++ poll (Some s2))) /\
    (forall now' since,
        id <> "demo-spot-1" ->
        events (GET parseDate (contract collection) now' id since) = poll since) /\
    (forall d, allDemoEvents (now + d) = map (shift d) (allDemoEvents now)).
Proof.
  intros parseDate collection now id poll. subst poll. cbv beta.
  assert (Hfull : events (GET parseDate (contract collection) now id None) =
       if String.eqb id "demo-spot-1" then allDemoEvents now
       else map event (sortByTime
              (List.filter (fun d => String.eqb (storedSpot d) id) collection))).
  { unfold GET, contract. destruct (String.eqb id "demo-spot-1"); cbn [events].
    - apply demo_history.
    - unfold getStoredEvents. do 2 f_equal. apply filter_ext. intros d.
      cbv [after parseSince]. by rewrite andb_true_r. }
  repeat apply conj.
  - intros store since. apply demo_poll_any_store.
  - intros store since Hdemo. unfold GET. apply String.eqb_neq in Hdemo.
    rewrite Hdemo. cbv zeta. destruct (store id _); [done|].
    by rewrite length_map.
  - exact Hfull.
  - reflexivity.
  - intros s w Hs Hw.
    pose proof (poll_is_filter_of_history parseDate collection now id s w Hs Hw) as Hp.
    split; [exact Hp|]. split.
    + intros e. rewrite Hp, filter_In. unfold newer. rewrite Z.ltb_lt. done.
    + unfold GET, contract. cbv zeta.
      destruct (String.eqb id "demo-spot-1"); cbn [count events]; reflexivity.
  - intros s1 w1 s2 w2 Hs1 Hs2 Hw1 Hw2 Hle.
    pose proof (poll_is_filter_of_history parseDate collection now id s1 w1 Hs1 Hw1) as H1.
    pose proof (poll_is_filter_of_history parseDate collection now id s2 w2 Hs2 Hw2) as H2.
    assert (Heq : events (GET parseDate (contract collection) now id (Some s2)) =
                  List.filter (newer w2)
                    (events (GET parseDate (contract collection) now id (Some s1)))).
    { rewrite H1, H2, filter_filter. apply filter_ext_in. intros e _.
      destruct (newer w2 e) eqn:Hn; [|by rewrite andb_false_r].
      by rewrite (newer_mono w1 w2 e Hle Hn). }
    split; [exact Heq|]. rewrite Heq. apply filter_partition.
  - intros now' since Hdemo. unfold GET, contract. apply String.eqb_neq in Hdemo.
    rewrite Hdemo. cbv zeta. cbn [events]. reflexivity.
  - apply demo_log_moves_with_the_clock.
Qed.

(** Polling [demo-spot-1] twice with the watermark 92000, two seconds
    apart: the first poll is empty, the second returns the last event of
    the history, which the first history had at the watermark itself. And
    a poll of a spot whose store cannot be reached returns no event. *)
Lemma demo_repoll_differs :
  events (GET at92 (contract []) 100000 "demo-spot-1" (Some "w")) = [] /\
  events (GET at92 (contract []) 102000 "demo-spot-1" (Some "w"))
  = [demoShared "ad_image_ready" "IceCo" 94000] /\
  In (demoShared "ad_image_ready" "IceCo" 92000)
     (events (GET at92 (contract []) 100000 "demo-spot-1" None)) /\
  GET at92 unreachable 100000 "spot-1" None
  = {| respStatus := 500; success := false;
       respError := Some "connect ECONNREFUSED"; respSpot := "spot-1";
       events := []; count := 0; respTimestamp := 100000 |}.
Proof.
  split; [vm_compute; reflexivity|]. split; [vm_compute; reflexivity|].
  split; [|vm_compute; reflexivity]. vm_compute. do 21 right. by left.
Qed.

Lemma events_poll_contract_witness :
  let collection :=
    [ {| storedSpot := "spot-1"; event := demo "bid_placed" "IceCo" 300 |};
      {| storedSpot := "spot-1"; event := demo "thinking" "IceCo" 100 |};
      {| storedSpot := "spot-2"; event := demo "thinking" "FizzUp" 150 |};
      {| storedSpot := "spot-1"; event := demo "refund" "FizzUp" 200 |} ] in
  let parseDate := fun s : string =>
    if String.eqb s "t100" then JS.DateMs 100 else JS.DateMs 200 in
  let poll := fun since =>
    events (GET parseDate (contract collection) 1000 "spot-1" since) in
  poll (Some "t100") = List.filter (newer 100) (poll None) /\
  poll (Some "t200") = List.filter (newer 200) (poll (Some "t100")) /\
  poll None = [demo "thinking" "IceCo" 100; demo "refund" "FizzUp" 200;
               demo "bid_placed" "IceCo" 300] /\
  poll (Some "t200") = [demo "bid_placed" "IceCo" 300] /\
  respStatus (GET parseDate unreachable 1000 "spot-1" None) = 500.
Proof.
  intros collection parseDate poll.
  destruct (events_poll_contract parseDate collection 1000 "spot-1")
    as (_ & Hpass & _ & _ & Hwater & Hnext & _).
  split; [apply (Hwater "t100" 100%Z); done|].
  split; [apply (Hnext "t100" 100%Z "t200" 200%Z); done|].
  split; [reflexivity|]. split; [reflexivity|].
  rewrite (Hpass unreachable None) by done. reflexivity.
Defined.

End EventsRouteFacts.

(** ** The auction page *)

Module AuctionPageFacts.
Import AuctionPage.

(** *** Deduplication *)

(** Processing an event records its key. *)
Lemma dispatch_keeps_seen now iso data st :
  seenEventIds (dispatch now iso data st) = seenEventIds st.
Proof.
  unfold dispatch.
  repeat match goal with |- context [if ?b then _ else _] => destruct b end;
    reflexivity.
Qed.

Lemma processEvent_marks_seen now iso data st :
  eventIdOf now data ∈ seenEventIds (processEvent now iso data st).
Proof.
  unfold processEvent. case_bool_decide as Hin; [done|].
  rewrite dispatch_keeps_seen. cbn. set_solver.
Qed.

Lemma eventIdOf_with_hash now now' data :
  JS.truthy_str (evTransactionHash data) = true ->
  eventIdOf now data = eventIdOf now' data.
Proof. intros H. unfold eventIdOf. by rewrite H. Qed.

(** Delivered again in the same millisecond, any event is skipped. *)
Lemma processEvent_same_instant now iso iso' data st :
  processEvent now iso' data (processEvent now iso data st)
  = processEvent now iso data st.
Proof.
  pose proof (processEvent_marks_seen now iso data st) as Hin.
  unfold processEvent at 1. by rewrite bool_decide_eq_true_2.
Qed.

(** An event that carries a transaction hash is skipped whenever it comes
    again. *)
Lemma processEvent_with_hash now iso now' iso' data st :
  JS.truthy_str (evTransactionHash data) = true ->
  processEvent now' iso' data (processEvent now iso data st)
  = processEvent now iso data st.
Proof.
  intros Hh. pose proof (processEvent_marks_seen now iso data st) as Hin.
  unfold processEvent at 1. rewrite (eventIdOf_with_hash now' now data Hh).
  by rewrite bool_decide_eq_true_2.
Qed.

(** C6. A [thinking] event has no transaction hash, so its key ends in the
    clock of the page. Processed at two instants, the same event (same
    type, agent, timestamp and transaction id) is shown twice. *)
Lemma thinking_event_shown_twice :
  let st1 := processEvent 1735689621000 "2025-01-01T00:00:21.000Z" thinkingEvent
               freshPage in
  let st2 := processEvent 1735689623000 "2025-01-01T00:00:23.000Z" thinkingEvent
               st1 in
  messages st1 = [thinkingMessage 1735689621000 thinkingEvent] /\
  messages st2 = [thinkingMessage 1735689621000 thinkingEvent;
                  thinkingMessage 1735689623000 thinkingEvent] /\
  length (messages st2) = 2.
Proof. vm_compute. repeat split. Qed.

(** The [forEach], from any accumulator. *)
Lemma splitLogs_from acc msgs :
  iceCoLogs (fold_left splitStep msgs acc) =
    iceCoLogs acc ++ flat_map messageToTerminalLog (List.filter (shownTo "IceCo") msgs) /\
  fizzUpLogs (fold_left splitStep msgs acc) =
    fizzUpLogs acc ++ flat_map messageToTerminalLog (List.filter (shownTo "FizzUp") msgs).
Proof.
  revert acc. induction msgs as [|m msgs IH]; intros acc.
  - cbn [fold_left List.filter flat_map]. by rewrite !app_nil_r.
  - cbn [fold_left List.filter]. destruct (IH (splitStep acc m)) as [-> ->].
    unfold splitStep, shownTo, brandOf. cbn [iceCoLogs fizzUpLogs].
    split.
    + destruct (_ || _); cbn [flat_map]; by rewrite ?app_assoc.
    + destruct (String.eqb _ "FizzUp" || _); cbn [flat_map]; by rewrite ?app_assoc.
Qed.

(** *** From the events to the messages *)

Lemma dispatch_auction_ended now iso data st :
  evType data = "auction_ended" ->
  dispatch now iso data st
  = setMessages (fun prev => prev ++ [auctionEndedMessage now data]) st.
Proof. intros Hty. unfold dispatch. by rewrite Hty. Qed.

Lemma dispatch_ad_image_ready now iso data st :
  evType data = "ad_image_ready" ->
  dispatch now iso data st
  = setMessages (fun prev => prev ++ [adImageReadyMessage now iso data]) st.
Proof. intros Hty. unfold dispatch. by rewrite Hty. Qed.

(** A reflection leaves everything but bids alone. *)
Lemma attachReflection_other data msg :
  type msg <> bid -> attachReflection data msg = msg.
Proof.
  intros Hty. unfold attachReflection.
  by rewrite (bool_decide_eq_false_2 (type msg = bid)).
Qed.

(** A message that is no bid stays in the list, whatever is processed. *)
Lemma processEvent_keeps now iso data st msg :
  In msg (messages st) -> type msg <> bid ->
  In msg (messages (processEvent now iso data st)).
Proof.
  intros Hin Hty. unfold processEvent. case_bool_decide; [done|].
  unfold dispatch.
  repeat match goal with
  | |- context [if String.eqb ?a ?b then _ else _] => destruct (String.eqb a b)
  end; cbn; try (apply in_or_app; by left); try done.
  - destruct (existsb _ _); [done|]. apply in_or_app; by left.
  - apply in_map_iff. exists msg. split; [by apply attachReflection_other|done].
Qed.

Lemma processAll_keeps clock events : forall k st msg,
  In msg (messages st) -> type msg <> bid ->
  In msg (messages (PagePolling.processAll clock k events st)).
Proof.
  induction events as [|data events IH]; intros k st msg Hin Hty; [done|].
  cbn [PagePolling.processAll]. apply IH; [|done]. by apply processEvent_keeps.
Qed.

Lemma processAll_app clock l1 : forall l2 k st,
  PagePolling.processAll clock k (l1 ++ l2) st
  = PagePolling.processAll clock (k + length l1) l2
      (PagePolling.processAll clock k l1 st).
Proof.
  induction l1 as [|data l1 IH]; intros l2 k st.
  - cbn. by rewrite Nat.add_0_r.
  - cbn [app PagePolling.processAll length]. rewrite IH. f_equal. lia.
Qed.

(** The views after one more message. *)
Lemma splitLogs_snoc msgs msg :
  iceCoLogs (splitLogs (msgs ++ [msg]))
  = iceCoLogs (splitLogs msgs)
    ++ (if shownTo "IceCo" msg then messageToTerminalLog msg else []) /\
  fizzUpLogs (splitLogs (msgs ++ [msg]))
  = fizzUpLogs (splitLogs msgs)
    ++ (if shownTo "FizzUp" msg then messageToTerminalLog msg else []).
Proof.
  unfold splitLogs.
  destruct (splitLogs_from {| iceCoLogs := []; fizzUpLogs := [] |} (msgs ++ [msg]))
    as [-> ->].
  destruct (splitLogs_from {| iceCoLogs := []; fizzUpLogs := [] |} msgs)
    as [-> ->].
  cbn [iceCoLogs fizzUpLogs app]. rewrite !List.filter_app, !flat_map_app.
  cbn [List.filter].
  split; [destruct (shownTo "IceCo" msg)|destruct (shownTo "FizzUp" msg)];
    cbn [flat_map]; by rewrite ?app_nil_r.
Qed.

(** *** The two terminals *)

(** C7 (amended). Each terminal shows, in order, the log lines of the
    messages filed under its brand and of the auction-ended messages. An
    [auction_ended] event that is processed adds one message, whose line
    is appended to both terminals, and that line stays in both terminals
    whatever events are processed before and after it. An [ad_image_ready]
    event that is processed adds one message filed under the [agentId] of
    its winner, whose line is appended to the terminal of the winner's
    brand and to no other; when the winner is IceCo, FizzUp's terminal is
    left as it was. *)
Theorem party_views :
  (forall msgs,
      iceCoLogs (splitLogs msgs)
      = flat_map messageToTerminalLog (List.filter (shownTo "IceCo") msgs) /\
      fizzUpLogs (splitLogs msgs)
      = flat_map messageToTerminalLog (List.filter (shownTo "FizzUp") msgs)) /\
  (forall brand msg,
      shownTo brand msg = true <->
      getBrandName (JS.str_or (agentId msg) "") = brand \/ type msg = auction_ended) /\
  (forall now iso data st,
      evType data = "auction_ended" ->
      eventIdOf now data ∉ seenEventIds st ->
      let st' := processEvent now iso data st in
      let msg := auctionEndedMessage now data in
      messages st' = (messages st ++ [msg])%list /\
      type msg = auction_ended /\
      length (messageToTerminalLog msg) = 1 /\
      iceCoLogs (splitLogs (messages st'))
      = (iceCoLogs (splitLogs (messages st)) ++ messageToTerminalLog msg)%list /\
      fizzUpLogs (splitLogs (messages st'))
      = (fizzUpLogs (splitLogs (messages st)) ++ messageToTerminalLog msg)%list) /\
  (forall clock k before data after st,
      evType data = "auction_ended" ->
      let now := (clock (k + length before)).1 in
      eventIdOf now data
        ∉ seenEventIds (PagePolling.processAll clock k before st) ->
      let final := PagePolling.processAll clock k (before ++ data :: after) st in
      In (auctionEndedMessage now data) (messages final) /\
      forall entry,
        In entry (messageToTerminalLog (auctionEndedMessage now data)) ->
        In entry (iceCoLogs (splitLogs (messages final))) /\
        In entry (fizzUpLogs (splitLogs (messages final)))) /\
  (forall now iso data st,
      evType data = "ad_image_ready" ->
      eventIdOf now data ∉ seenEventIds st ->
      let st' := processEvent now iso data st in
      let msg := adImageReadyMessage now iso data in
      let brand := getBrandName (JS.str_or (winnerAgentId <$> evWinner data) "") in
      messages st' = (messages st ++ [msg])%list /\
      type msg = ad_image_ready /\
      agentId msg = winnerAgentId <$> evWinner data /\
      length (messageToTerminalLog msg) = 1 /\
      iceCoLogs (splitLogs (messages st'))
      = (iceCoLogs (splitLogs (messages st))
         ++ if String.eqb brand "IceCo" then messageToTerminalLog msg else [])%list /\
      fizzUpLogs (splitLogs (messages st'))
      = (fizzUpLogs (splitLogs (messages st))
         ++ if String.eqb brand "FizzUp" then messageToTerminalLog msg else [])%list) /\
  (forall now iso data st who,
      evType data = "ad_image_ready" ->
      eventIdOf now data ∉ seenEventIds st ->
      winnerAgentId <$> evWinner data = Some who ->
      who = "IceCo" \/ who = "AgentA" ->
      fizzUpLogs (splitLogs (messages (processEvent now iso data st)))
      = fizzUpLogs (splitLogs (messages st))).
Proof.
  assert (Hsplit : forall msgs,
      iceCoLogs (splitLogs msgs)
      = flat_map messageToTerminalLog (List.filter (shownTo "IceCo") msgs) /\
      fizzUpLogs (splitLogs msgs)
      = flat_map messageToTerminalLog (List.filter (shownTo "FizzUp") msgs)).
  { intros msgs. unfold splitLogs. by destruct (splitLogs_from
      {| iceCoLogs := []; fizzUpLogs := [] |} msgs) as [-> ->]. }
  assert (Hshown : forall brand msg,
      shownTo brand msg = true <->
      getBrandName (JS.str_or (agentId msg) "") = brand \/ type msg = auction_ended).
  { intros brand msg. unfold shownTo, brandOf.
    by rewrite orb_true_iff, String.eqb_eq, bool_decide_eq_true. }
  assert (Hin : forall brand msgs msg entry,
      In msg msgs -> shownTo brand msg = true ->
      In entry (messageToTerminalLog msg) ->
      In entry (flat_map messageToTerminalLog (List.filter (shownTo brand) msgs))).
  { intros brand msgs msg entry Hm Hs He. apply in_flat_map.
    exists msg. split; [|done]. by apply filter_In. }
  assert (Hended : forall now iso data st,
      evType data = "auction_ended" ->
      eventIdOf now data ∉ seenEventIds st ->
      messages (processEvent now iso data st)
      = (messages st ++ [auctionEndedMessage now data])%list).
  { intros now iso data st Hty Hnew. unfold processEvent.
    rewrite bool_decide_eq_false_2 by done.
    by rewrite dispatch_auction_ended. }
  assert (Himage : forall now iso data st,
      evType data = "ad_image_ready" ->
      eventIdOf now data ∉ seenEventIds st ->
      messages (processEvent now iso data st)
      = (messages st ++ [adImageReadyMessage now iso data])%list).
  { intros now iso data st Hty Hnew. unfold processEvent.
    rewrite bool_decide_eq_false_2 by done.
    by rewrite dispatch_ad_image_ready. }
  assert (Hready : forall now iso data st,
      evType data = "ad_image_ready" ->
      eventIdOf now data ∉ seenEventIds st ->
      iceCoLogs (splitLogs (messages (processEvent now iso data st)))
      = (iceCoLogs (splitLogs (messages st))
         ++ if String.eqb
                 (getBrandName (JS.str_or (winnerAgentId <$> evWinner data) ""))
                 "IceCo"
            then messageToTerminalLog (adImageReadyMessage now iso data)
            else [])%list /\
      fizzUpLogs (splitLogs (messages (processEvent now iso data st)))
      = (fizzUpLogs (splitLogs (messages st))
         ++ if String.eqb
                 (getBrandName (JS.str_or (winnerAgentId <$> evWinner data) ""))
                 "FizzUp"
            then messageToTerminalLog (adImageReadyMessage now iso data)
            else [])%list).
  { intros now iso data st Hty Hnew. rewrite (Himage now iso data st Hty Hnew).
    destruct (splitLogs_snoc (messages st) (adImageReadyMessage now iso data))
      as [-> ->].
    unfold shownTo, brandOf. cbn [type agentId adImageReadyMessage].
    rewrite (bool_decide_eq_false_2 (ad_image_ready = auction_ended)) by done.
    by rewrite !orb_false_r. }
  repeat apply conj.
  - exact Hsplit.
  - exact Hshown.
  - intros now iso data st Hty Hnew. cbv zeta.
    rewrite (Hended now iso data st Hty Hnew).
    destruct (splitLogs_snoc (messages st) (auctionEndedMessage now data))
      as [-> ->].
    unfold shownTo. cbn [type auctionEndedMessage].
    rewrite (bool_decide_eq_true_2 (auction_ended = auction_ended)) by done.
    by rewrite !orb_true_r.
  - intros clock k before data after st Hty. cbv zeta. intros Hnew.
    assert (Hthere : In (auctionEndedMessage (clock (k + length before)).1 data)
              (messages (PagePolling.processAll clock k (before ++ data :: after) st))).
    { rewrite processAll_app. cbn [PagePolling.processAll].
      apply processAll_keeps; [|done]. rewrite Hended by done.
      apply in_or_app. right. by left. }
    split; [exact Hthere|]. intros entry He.
    destruct (Hsplit (messages (PagePolling.processAll clock k
                                  (before ++ data :: after) st))) as [-> ->].
    split; eapply Hin; try done; apply Hshown; by right.
  - intros now iso data st Hty Hnew. cbv zeta.
    destruct (Hready now iso data st Hty Hnew) as [Hice Hfizz].
    split; [by apply Himage|]. split; [done|]. split; [done|].
    split; [done|]. by split.
  - intros now iso data st who Hty Hnew Hwho Hbrand.
    destruct (Hready now iso data st Hty Hnew) as [_ ->].
    rewrite Hwho. cbn [JS.str_or].
    destruct Hbrand as [-> | ->]; cbn; by rewrite app_nil_r.
Qed.

(** The [ad_image_ready] event of an auction won by IceCo, processed by a
    fresh page: its message is shown to IceCo and not to FizzUp. *)
Lemma image_ready_reaches_winner_only :
  messages (processEvent 1735689652000 "2025-01-01T00:00:52.000Z"
              imageReadyEvent freshPage) = [imageReady] /\
  type imageReady = ad_image_ready /\
  iceCoLogs (splitLogs [imageReady]) = messageToTerminalLog imageReady /\
  length (iceCoLogs (splitLogs [imageReady])) = 1 /\
  fizzUpLogs (splitLogs [imageReady]) = [].
Proof. vm_compute. repeat split. Qed.

Lemma party_views_witness :
  let clock := PagePolling.ticking 1735689645000 in
  let final := PagePolling.processAll clock 0
                 [thinkingEvent; endedEvent; imageReadyEvent] freshPage in
  let ended := auctionEndedMessage 1735689645001 endedEvent in
  In ended (messages final) /\
  length (iceCoLogs (splitLogs (messages final))) = 5 /\
  length (fizzUpLogs (splitLogs (messages final))) = 1 /\
  fizzUpLogs (splitLogs (messages final)) = messageToTerminalLog ended.
Proof.
  intros clock final ended.
  destruct party_views as (_ & _ & _ & Hlist & _).
  destruct (Hlist clock 0 [thinkingEvent] endedEvent [imageReadyEvent] freshPage)
    as [Hin _].
  - reflexivity.
  - vm_compute. intros H. by repeat (apply elem_of_union in H as [H|H];
      [apply elem_of_singleton in H; discriminate H|]); set_solver.
  - split; [exact Hin|]. vm_compute. repeat split.
Defined.

End AuctionPageFacts.

(** ** The bidding tool and the payment guard, further *)

Module AgentMoreFacts.
Import Agent.

(** A number that is not equal to itself is NaN. *)
Lemma nan_spec x :
  PrimFloat.is_nan x = true -> FloatOps.Prim2SF x = SpecFloat.S754_nan.
Proof.
  unfold PrimFloat.is_nan. rewrite negb_true_iff, FloatAxioms.eqb_spec.
  unfold SpecFloat.SFeqb.
  destruct (FloatOps.Prim2SF x) as [s|s| |s m e]; cbn; try done.
  - by destruct s.
  - destruct s; rewrite Z.compare_refl, Pos.compare_cont_refl; done.
Qed.

(** NaN compares below nothing and above nothing. *)
Lemma nan_not_below x y : PrimFloat.is_nan x = true -> JS.lt y x = false.
Proof.
  intros Hnan. unfold JS.lt. rewrite FloatAxioms.ltb_spec, (nan_spec x Hnan).
  unfold SpecFloat.SFltb. by destruct (FloatOps.Prim2SF y).
Qed.

Lemma nan_not_above x y : PrimFloat.is_nan x = true -> JS.gt x y = false.
Proof.
  intros Hnan. unfold JS.gt. rewrite FloatAxioms.ltb_spec, (nan_spec x Hnan).
  unfold SpecFloat.SFltb. by destruct (FloatOps.Prim2SF y).
Qed.

(** X1. [placeBid] calls [post] of the payment client at most once:
    once when the amount is within the cap and the client is there, never
    when the amount is above the cap or the promise of the client was
    rejected. The call names the spot given, or the current spot when none
    or an empty one is given, and carries the amount and the reasoning.
    The answer is [Accepted] exactly when the amount is within the cap,
    the client is there and its call returns 200 with [success]; only then
    does the agent change, its [lastBidAmount] becoming the server's
    [currentBid]. A rejected client is answered as a failed call is, by
    the status and the message of its error, and leaves the agent as it
    was. *)
Theorem place_bid_request_and_state :
  forall client a args,
    let cap := JS.minus (maxBid a) 0.08%float in
    let req := {| reqSpotId := JS.str_or (argAdSpotId args) (currentAdSpotId a);
                  reqThinking := reasoning args; reqStrategy := "intelligent";
                  reqProposedBid := proposedAmount args;
                  reqStrategyReasoning := reasoning args |} in
    let a' := (placeBid client a args).1.1 in
    let answer := (placeBid client a args).1.2 in
    let sent := (placeBid client a args).2 in
    (sent = match client with
            | ClientReady _ =>
                if JS.gt (proposedAmount args) cap then [] else [req]
            | ClientRejected _ _ _ => []
            end) /\
    (forall cur ends tx,
        answer = Accepted cur ends tx <->
        JS.gt (proposedAmount args) cap = false /\
        exists post, client = ClientReady post /\
                     post req = Responded 200 true cur ends tx) /\
    (forall cur ends tx,
        answer = Accepted cur ends tx -> a' = set_lastBidAmount cur a) /\
    ((forall cur ends tx, answer <> Accepted cur ends tx) -> a' = a) /\
    (forall status neg msg,
        client = ClientRejected status neg msg ->
        JS.gt (proposedAmount args) cap = false ->
        answer = bidFailure status neg msg /\ a' = a).
Proof.
  intros client a args. cbv zeta. unfold placeBid.
  assert (Hfail : forall st neg msg cur ends tx,
            bidFailure st neg msg <> Accepted cur ends tx).
  { intros st neg msg cur ends tx. unfold bidFailure.
    by destruct (status_is st 400), (status_is st 402). }
  destruct (JS.gt _ _) eqn:Hgt; cbn.
  { split; [by destruct client|]. split; [|done].
    intros cur ends tx. split; [done|]. intros [? _]; done. }
  destruct client as [post|st neg msg]; cbn.
  2:{ split; [done|]. split; [|split; [|split]].
      - intros c e t. split; [intros H; by apply Hfail in H|].
        intros [_ (post & [=] & _)].
      - intros c e t H. by apply Hfail in H.
      - done.
      - by intros ? ? ? [= -> -> ->] _. }
  destruct (post _) as [st ok cur ends tx|st neg msg] eqn:Hs; cbn.
  - destruct (Nat.eqb st 200) eqn:Hst; [destruct ok|]; cbn.
    + apply Nat.eqb_eq in Hst. subst st.
      split; [done|]. split; [|split; [|split]].
      * intros c e t. split.
        -- intros [= -> -> ->]. split; [done|]. by exists post.
        -- intros [_ (post' & [= <-] & Hp)]. rewrite Hs in Hp. by simplify_eq.
      * intros c e t [= -> -> ->]. done.
      * intros H. by destruct (H cur ends tx).
      * intros ? ? ? [=].
    + split; [done|]. split; [|split; [done|split; [done|]]].
      * intros c e t. split; [done|].
        intros [_ (post' & [= <-] & Hp)]. rewrite Hs in Hp. done.
      * intros ? ? ? [=].
    + apply Nat.eqb_neq in Hst.
      split; [done|]. split; [|split; [done|split; [done|]]].
      * intros c e t. split; [done|].
        intros [_ (post' & [= <-] & Hp)]. rewrite Hs in Hp. by simplify_eq.
      * intros ? ? ? [=].
  - split; [done|]. split; [|split; [|split; [done|]]].
    + intros c e t. split; [intros H; by apply Hfail in H|].
      intros [_ (post' & [= <-] & Hp)]. rewrite Hs in Hp. done.
    + intros c e t H. by apply Hfail in H.
    + intros ? ? ? [=].
Qed.

Lemma place_bid_request_and_state_witness :
  let client :=
    ClientReady (fun _ : BidRequest =>
                   Responded 200 true 1.5%float None (Some "0xfeed")) in
  let args := {| argAdSpotId := Some ""; proposedAmount := 1.5%float;
                 reasoning := "lead" |} in
  let a := set_currentAdSpotId "banner" safetyAgent in
  (placeBid client a args).1.1 = set_lastBidAmount 1.5%float a /\
  map reqSpotId (placeBid client a args).2 = ["banner"] /\
  placeBid (ClientRejected None None "no signer") a args
  = (a, BidError "no signer", []).
Proof.
  intros client args a.
  destruct (place_bid_request_and_state client a args) as (Hsent & _ & Hacc & _).
  split; [|split].
  - apply (Hacc 1.5%float None (Some "0xfeed")). reflexivity.
  - rewrite Hsent. reflexivity.
  - destruct (place_bid_request_and_state (ClientRejected None None "no signer") a args)
      as (Hnone & _ & _ & _ & Hrej).
    destruct (Hrej None None "no signer" eq_refl eq_refl) as [Hans Hag].
    destruct (placeBid _ a args) as [[a1 r1] s1]. cbn in *. by subst.
Defined.

(** X2. [processEventPayment] settles a payment exactly when the amount
    is not above [maxBid], not above the safety threshold and the balance
    is not below it. An amount above [maxBid] is reported as such even
    when it is also above the threshold; the threshold is reported only
    for an amount within [maxBid]. An amount that is NaN compares with
    nothing, passes the three tests and is settled. *)
Theorem payment_settles_what_no_guard_refuses :
  forall mockTxHash a w event,
    let amount := eventBidAmount event in
    let r := (processEventPayment mockTxHash a w event).1.1 in
    (success r = true <->
     JS.gt amount (maxBid a) = false /\
     JS.gt amount SAFETY_THRESHOLD = false /\
     JS.lt (getUSDCBalance w) amount = false) /\
    (JS.gt amount (maxBid a) = true ->
     message r = BlockedOverMaxBid amount (maxBid a)) /\
    (JS.gt amount (maxBid a) = false -> JS.gt amount SAFETY_THRESHOLD = true ->
     message r = BlockedOverThreshold amount SAFETY_THRESHOLD) /\
    (PrimFloat.is_nan amount = true ->
     r = {| success := true; message := PaymentSettled;
            txHash := Some mockTxHash |}).
Proof.
  intros tx a w event. cbv zeta. unfold processEventPayment. cbv zeta.
  split; [|split; [|split]].
  - destruct (JS.gt _ (maxBid a)); [cbn; intuition congruence|].
    destruct (JS.gt _ SAFETY_THRESHOLD); [cbn; intuition congruence|].
    destruct (JS.lt _ _); cbn; intuition congruence.
  - by intros ->.
  - by intros -> ->.
  - intros Hnan.
    rewrite !(nan_not_above _ _ Hnan).
    rewrite (nan_not_below _ (getUSDCBalance w) Hnan). done.
Qed.

Lemma payment_settles_witness :
  success (pay 100%float PrimFloat.nan) = true /\
  message (pay 100%float 15.0%float) = BlockedOverMaxBid 15.0%float 5%float.
Proof.
  split.
  - destruct (payment_settles_what_no_guard_refuses "0xabc" safetyAgent
                {| usdc := 100%float |} (adEvent "evt" click PrimFloat.nan))
      as (_ & _ & _ & Hnan).
    unfold pay. rewrite Hnan; reflexivity.
  - destruct (payment_settles_what_no_guard_refuses "0xabc" safetyAgent
                {| usdc := 100%float |} (adEvent "evt" click 15.0%float))
      as (_ & Hmax & _).
    apply Hmax. reflexivity.
Defined.

End AgentMoreFacts.

(** ** The [get_auction_state] tool *)

Module AuctionStateToolFacts.
Import Agent AuctionStateTool.

(** Seconds are printed with two digits. *)
Lemma padStart2_seconds s :
  (0 <= s < 60)%Z ->
  padStart2 (pretty s) = if (s <? 10)%Z then "0" +:+ pretty s else pretty s.
Proof.
  intros Hs. replace s with (Z.of_nat (Z.to_nat s)) by lia.
  assert (Hn : Z.to_nat s < 60) by lia. revert Hn.
  generalize (Z.to_nat s). intros n Hn.
  do 60 (destruct n as [|n]; [vm_compute; reflexivity|]). lia.
Qed.

(** X3. [get_auction_state] answers a status body with the spot it asked
    for (the argument, or the current spot when the argument is missing or
    empty). A missing, zero or NaN [currentBid] is shown as 0; a winner
    that is a plain string, or has no [agentId], is shown as none; a
    missing or zero [timeRemaining] is shown as none; a positive one is
    shown as minutes, a colon, and the seconds in two digits. A failed
    request is answered with its error message. *)
Theorem auction_state_tool_view :
  forall fetchStatus a adSpotId,
    let spotId := JS.str_or adSpotId (currentAdSpotId a) in
    (getAuctionState fetchStatus a adSpotId).1 = spotId /\
    (forall why, fetchStatus spotId = StatusFailed why ->
       (getAuctionState fetchStatus a adSpotId).2 = AuctionStateError why) /\
    (forall data, fetchStatus spotId = StatusBody data ->
       exists view,
         (getAuctionState fetchStatus a adSpotId).2 = AuctionStateOk view /\
         stateBidHistory view = Status.bidHistory data /\
         (Status.currentBid data = None \/ Status.currentBid data = Some 0%float \/
          Status.currentBid data = Some PrimFloat.nan -> winningBid view = 0%float) /\
         (forall name, Status.currentWinner data = Status.WinnerString name ->
            winningBidder view = None) /\
         (forall name, name <> "" ->
            Status.currentWinner data = Status.WinnerObject (Some name) ->
            winningBidder view = Some name) /\
         (Status.timeRemaining data = None \/ Status.timeRemaining data = Some 0%Z ->
          stateTimeRemaining view = None) /\
         (forall t, Status.timeRemaining data = Some t ->
            (0 < t < 100000000000000)%Z ->
            let minutes := (t / 60)%Z in
            let seconds := (t mod 60)%Z in
            (t = 60 * minutes + seconds)%Z /\ (0 <= seconds < 60)%Z /\
            stateTimeRemaining view =
            Some (pretty minutes +:+ ":" +:+
                  (if (seconds <? 10)%Z then "0" +:+ pretty seconds
                   else pretty seconds)))).
Proof.
  intros fetchStatus a adSpotId. cbv zeta. unfold getAuctionState. cbn [fst snd].
  split; [done|]. split; [by intros why ->|].
  intros data ->. eexists. split; [reflexivity|].
  cbn [winningBid winningBidder stateTimeRemaining stateBidHistory].
  split; [done|]. split.
  { intros [Hb|[Hb|Hb]]; by rewrite Hb. }
  split.
  { intros name Hw. by rewrite Hw. }
  split.
  { intros name Hne Hw. rewrite Hw. cbn.
    by rewrite (proj2 (String.eqb_neq _ _) Hne). }
  split.
  { intros [Ht|Ht]; by rewrite Ht. }
  intros t Hsome Ht. rewrite Hsome. cbv zeta.
  pose proof (Z.mod_pos_bound t 60 ltac:(lia)) as Hs.
  split; [apply Z.div_mod; lia|]. split; [done|].
  unfold time_or_null, formatTimeRemaining.
  rewrite (proj2 (Z.eqb_neq t 0)) by lia.
  rewrite Z.rem_mod_nonneg by lia.
  by rewrite padStart2_seconds.
Qed.

Lemma auction_state_tool_view_witness :
  let fetch := fun _ : string =>
    StatusBody {| Status.adSpotId := "banner"; Status.currentBid := Some 1.0%float;
                  Status.currentWinner := Status.WinnerString "FizzUp";
                  Status.timeRemaining := Some 65%Z; Status.auctionEnded := false;
                  Status.winnerAdImage := Status.ImageNull;
                  Status.bidHistory := [] |} in
  exists view,
    (getAuctionState fetch safetyAgent (Some "banner")).2 = AuctionStateOk view /\
    winningBidder view = None /\ stateTimeRemaining view = Some "1:05".
Proof.
  intros fetch.
  destruct (auction_state_tool_view fetch safetyAgent (Some "banner")) as (_ & _ & Hok).
  destruct (Hok _ eq_refl) as (view & Hv & _ & _ & Hstr & _ & _ & Htime).
  exists view. split; [exact Hv|]. split; [by apply (Hstr "FizzUp")|].
  destruct (Htime 65%Z eq_refl) as (_ & _ & ->); [lia|]. reflexivity.
Defined.

(** X4. [get_auction_state] over the status route. With no spot to ask
    for, the route answers 400 and the tool reports the failure; so it
    does when the store throws (500). A spot with no record shows a
    winning bid of 0, no bidder, no time and no history. A spot with a
    record shows no time from one second before the deadline on, as if
    there were no auction, and the minutes and seconds of the whole
    seconds left before that. The demo spot
    shows a winning bid of 1.25 and five minutes, but no bidder: the route
    names its winner by a plain string. *)
Theorem auction_state_over_the_route :
  forall duration db now a adSpotId,
    let id := JS.str_or adSpotId (currentAdSpotId a) in
    let answer := (getAuctionState (statusOverHttp duration db now) a adSpotId).2 in
    (id = "" -> answer = AuctionStateError "Request failed with status code 400") /\
    (forall why, id <> "" -> id <> "demo-spot-1" ->
       db id = StatusRoute.DbThrows why ->
       answer = AuctionStateError "Request failed with status code 500") /\
    (id <> "" -> id <> "demo-spot-1" -> db id = StatusRoute.DbReturns None ->
       answer = AuctionStateOk
                  {| winningBid := 0%float; winningBidder := None;
                     stateTimeRemaining := None; stateBidHistory := [] |}) /\
    (forall r, id <> "" -> id <> "demo-spot-1" ->
       db id = StatusRoute.DbReturns (Some r) ->
       exists data,
         answer = AuctionStateOk data /\
         winningBid data = bid_or_zero (StatusRoute.recCurrentBid r) /\
         winningBidder data = winner_or_null (StatusRoute.recCurrentWinner r) /\
         length (stateBidHistory data) = length (StatusRoute.recBidHistory r) /\
         ((StatusRoute.auctionStartTime r + duration - now < 1000)%Z ->
          stateTimeRemaining data = None) /\
         ((1000 <= StatusRoute.auctionStartTime r + duration - now
           < 100000000000000000)%Z ->
          stateTimeRemaining data =
          Some (formatTimeRemaining
                  ((StatusRoute.auctionStartTime r + duration - now) / 1000)))) /\
    (id = "demo-spot-1" ->
       exists data,
         answer = AuctionStateOk data /\
         winningBid data = 1.25%float /\ winningBidder data = None /\
         stateTimeRemaining data = Some "5:00" /\
         length (stateBidHistory data) = 3).
Proof.
  intros duration db now a adSpotId. cbv zeta.
  unfold getAuctionState, statusOverHttp, StatusRoute.GET. cbn [snd].
  set (id := JS.str_or adSpotId (currentAdSpotId a)).
  split; [|split; [|split; [|split]]].
  - intros ->. reflexivity.
  - intros why Hne Hdemo Hdb. apply String.eqb_neq in Hne, Hdemo.
    rewrite Hne, Hdemo, Hdb. reflexivity.
  - intros Hne Hdemo Hdb. apply String.eqb_neq in Hne, Hdemo.
    rewrite Hne, Hdemo, Hdb. reflexivity.
  - intros r Hne Hdemo Hdb. apply String.eqb_neq in Hne, Hdemo.
    rewrite Hne, Hdemo, Hdb. eexists. split; [reflexivity|].
    cbn [winningBid winningBidder stateTimeRemaining stateBidHistory
         StatusRoute.recordBody Status.currentBid Status.currentWinner
         Status.timeRemaining Status.bidHistory].
    split; [done|]. split; [done|]. split; [by rewrite length_map|].
    unfold time_or_null, StatusRoute.timeRemainingOf.
    set (left := (StatusRoute.auctionStartTime r + duration - now)%Z).
    split; intros Hleft.
    + assert (left / 1000 <= 0)%Z by (apply Z.lt_succ_r, Z.div_lt_upper_bound; lia).
      by rewrite Z.max_l by lia.
    + assert (1 <= left / 1000)%Z by (apply Z.div_le_lower_bound; lia).
      rewrite Z.max_r by lia. by rewrite (proj2 (Z.eqb_neq _ 0)) by lia.
  - intros ->. eexists. split; [reflexivity|]. repeat split.
Qed.

Lemma auction_state_over_the_route_witness :
  let a := set_currentAdSpotId "spot-1" safetyAgent in
  (getAuctionState (statusOverHttp 300000 (oneSpot 1000) 300500) a None).2
  = AuctionStateOk {| winningBid := 0.5%float; winningBidder := Some "IceCo";
                      stateTimeRemaining := None; stateBidHistory := [] |} /\
  (getAuctionState (statusOverHttp 300000 (oneSpot 1000) 300500) a (Some "spot-2")).2
  = AuctionStateOk {| winningBid := 0%float; winningBidder := None;
                      stateTimeRemaining := None; stateBidHistory := [] |}.
Proof.
  intros a. split.
  - destruct (auction_state_over_the_route 300000 (oneSpot 1000) 300500 a None)
      as (_ & _ & _ & Hrec & _).
    destruct (Hrec (openRecord 1000)) as (data & -> & Hb & Hw & Hh & Hover & _);
      [done|done|reflexivity|].
    destruct data as [b w t h]. cbn in *. subst.
    rewrite Hover by lia. by destruct h.
  - destruct (auction_state_over_the_route 300000 (oneSpot 1000) 300500 a
                (Some "spot-2")) as (_ & _ & Hnone & _).
    apply Hnone; done.
Defined.

End AuctionStateToolFacts.

(** ** The [generate_ad_image] tool *)

Module ImageToolFacts.
Import ImageTool.

Lemma result_say u r : result (say u r) = result r.
Proof. done. Qed.

Lemma statusRequests_say u r : statusRequests (say u r) = statusRequests r.
Proof. done. Qed.

(** The loop asks at most once per turn left, and stops at the first
    answer that settles the task. *)
Lemma pollTask_requests taskId poll left : forall i,
  statusRequests (pollTask taskId poll left i) <= left.
Proof.
  induction left as [|left IH]; intros i; cbn; [done|].
  destruct (poll i) as [body nested|]; cbn.
  - destruct (first_image _); cbn; [lia|].
    destruct (status_failed _); cbn; [lia|].
    destruct (Nat.eqb _ 0); cbn; specialize (IH (S i)); lia.
  - specialize (IH (S i)). lia.
Qed.

Lemma pollTask_result taskId poll left : forall i,
  (result (pollTask taskId poll left i) = ImageTimeout /\
   statusRequests (pollTask taskId poll left i) = left /\
   forall j, j < left -> settles (poll (i + j)) = None) \/
  (exists n r,
     n < left /\ settles (poll (i + n)) = Some r /\
     (forall j, j < n -> settles (poll (i + j)) = None) /\
     result (pollTask taskId poll left i) = r /\
     statusRequests (pollTask taskId poll left i) = S n).
Proof.
  induction left as [|left IH]; intros i.
  { left. cbn. repeat split. intros j Hj. lia. }
  assert (Hnow : forall r, settles (poll i) = Some r ->
     exists n r, n < S left /\ settles (poll (i + n)) = Some r /\
       (forall j, j < n -> settles (poll (i + j)) = None) /\
       r = r /\ True).
  { intros r Hr. exists 0, r. rewrite Nat.add_0_r. repeat split; [lia|done|lia]. }
  clear Hnow.
  assert (Hlater : settles (poll i) = None ->
    forall run, result run = result (pollTask taskId poll left (S i)) ->
      statusRequests run = S (statusRequests (pollTask taskId poll left (S i))) ->
      (result run = ImageTimeout /\ statusRequests run = S left /\
       forall j, j < S left -> settles (poll (i + j)) = None) \/
      (exists n r, n < S left /\ settles (poll (i + n)) = Some r /\
         (forall j, j < n -> settles (poll (i + j)) = None) /\
         result run = r /\ statusRequests run = S n)).
  { intros Hnone run Hres Hreq.
    destruct (IH (S i)) as [(Ht & Hn & Hall)|(n & r & Hn & Hr & Hall & Hres' & Hreq')].
    - left. split; [congruence|]. split; [lia|].
      intros [|j] Hj; [by rewrite Nat.add_0_r|].
      replace (i + S j) with (S i + j) by lia. apply Hall. lia.
    - right. exists (S n), r. split; [lia|].
      replace (i + S n) with (S i + n) by lia. split; [done|].
      split; [|split; [congruence|lia]].
      intros [|j] Hj; [by rewrite Nat.add_0_r|].
      replace (i + S j) with (S i + j) by lia. apply Hall. lia. }
  cbn [pollTask]. unfold settles in *.
  destruct (poll i) as [body nested|] eqn:Hp.
  - cbn zeta in *. destruct (first_image _) as [url|] eqn:Hurl.
    { right. exists 0, (ImageSuccess url). rewrite Nat.add_0_r, Hp. cbn zeta.
      rewrite Hurl. repeat split; [lia|]. intros j Hj. lia. }
    destruct (status_failed _) eqn:Hf.
    { right. exists 0, (ImageFailed (taskStatus (taskData_of body nested))).
      rewrite Nat.add_0_r, Hp. cbn zeta. rewrite Hurl, Hf.
      repeat split; [lia|]. intros j Hj. lia. }
    destruct (Nat.eqb _ 0); by apply Hlater.
  - by apply Hlater.
Qed.

(** The loop returns what the first settling answer says, and has asked
    once per turn up to it. *)
Lemma pollTask_first_settled taskId poll left :
  let run := pollTask taskId poll left 0 in
  statusRequests run <= left /\
  (forall r, r <> ImageTimeout ->
     (result run = r <->
      exists n, n < left /\ settles (poll n) = Some r /\
                forall j, j < n -> settles (poll j) = None)) /\
  (result run = ImageTimeout <-> forall j, j < left -> settles (poll j) = None) /\
  (forall n r, n < left -> settles (poll n) = Some r ->
     (forall j, j < n -> settles (poll j) = None) ->
     statusRequests run = S n) /\
  (result run = ImageTimeout -> statusRequests run = left).
Proof.
  cbv zeta.
  pose proof (pollTask_requests taskId poll left 0) as Hle.
  assert (Hfirst : forall n m r r',
    settles (poll n) = Some r -> (forall j, j < n -> settles (poll j) = None) ->
    settles (poll m) = Some r' -> (forall j, j < m -> settles (poll j) = None) ->
    n = m /\ r = r').
  { intros n m r r' Hn Hbn Hm Hbm.
    destruct (Nat.lt_trichotomy n m) as [Hlt|[->|Hlt]].
    - rewrite (Hbm n Hlt) in Hn. done.
    - split; congruence.
    - rewrite (Hbn m Hlt) in Hm. done. }
  pose proof (pollTask_result taskId poll left 0) as Hcases. cbn [Nat.add] in Hcases.
  generalize dependent (pollTask taskId poll left 0). intros run Hle Hcases.
  destruct Hcases
    as [(Ht & Hn & Hall)|(n & r & Hn & Hr & Hall & Hres & Hreq)].
  - split; [done|]. split; [|split; [|split]].
    + intros r Hr. split; [congruence|].
      intros (n & Hn' & Hs & _). rewrite (Hall n Hn') in Hs. done.
    + done.
    + intros n r Hn' Hs _. rewrite (Hall n Hn') in Hs. done.
    + done.
  - assert (Hr' : r <> ImageTimeout).
    { intros ->. destruct (poll n) as [b nd|]; [|done]. cbn in Hr.
      destruct (first_image _); [done|]. by destruct (status_failed _). }
    split; [done|]. split; [|split; [|split]].
    + intros r0 _. split.
      * intros <-. rewrite Hres. by exists n.
      * intros (m & Hm & Hs & Hb).
        destruct (Hfirst n m r r0 Hr Hall Hs Hb) as [_ <-]. done.
    + split; [congruence|]. intros Hnone. rewrite (Hnone n Hn) in Hr. done.
    + intros m r0 Hm Hs Hb.
      destruct (Hfirst n m r r0 Hr Hall Hs Hb) as [<- _]. done.
    + congruence.
Qed.

(** X5. [generate_ad_image], once the task is created, asks for its
    status at most 40 times. It returns what the first settling answer
    says, an image or a failed status, having asked exactly up to that
    answer; answers that settle nothing and requests that fail are passed
    over alike. It returns a timeout exactly when none of the 40 answers
    settles the task. *)
Theorem image_tool_returns_first_settled :
  forall taskId poll prompt,
    let run := generateAdImage (TaskCreated taskId) poll prompt in
    statusRequests run <= 40 /\
    (forall r, r <> ImageTimeout ->
       (result run = r <->
        exists n, n < 40 /\ settles (poll n) = Some r /\
                  forall j, j < n -> settles (poll j) = None)) /\
    (result run = ImageTimeout <-> forall j, j < 40 -> settles (poll j) = None) /\
    (forall n r, n < 40 -> settles (poll n) = Some r ->
       (forall j, j < n -> settles (poll j) = None) ->
       statusRequests run = S n) /\
    (result run = ImageTimeout -> statusRequests run = 40).
Proof.
  intros taskId poll prompt. cbv zeta. unfold generateAdImage.
  rewrite !result_say, !statusRequests_say.
  apply pollTask_first_settled.
Qed.

Lemma image_tool_returns_first_settled_witness :
  let run := generateAdImage (TaskCreated (Some "task-1")) (readyAt 3) "a glass of water" in
  result run = ImageSuccess "https://img.example/ad.png" /\ statusRequests run = 4.
Proof.
  intros run.
  destruct (image_tool_returns_first_settled (Some "task-1") (readyAt 3)
              "a glass of water") as (_ & Hres & _ & Hreq & _).
  assert (Hb : forall j, j < 3 -> settles (readyAt 3 j) = None).
  { intros j Hj. do 3 (destruct j as [|j]; [reflexivity|]). lia. }
  split.
  - apply Hres; [done|]. exists 3. split; [lia|]. split; [reflexivity|exact Hb].
  - apply (Hreq 3 (ImageSuccess "https://img.example/ad.png")); [lia|reflexivity|exact Hb].
Defined.

(** The posts of the loop: progress notes at the turns that are multiples
    of five, then one closing post. *)
Lemma pollTask_updates taskId poll left : forall i,
  exists notes final,
    updates (pollTask taskId poll left i) = notes ++ [final] /\
    forallb is_progress notes = true /\
    length notes <= (i + left + 4) / 5 - (i + 4) / 5 /\
    closes (result (pollTask taskId poll left i)) final.
Proof.
  induction left as [|left IH]; intros i.
  { exists [], (update failed TimedOut None None). cbn. repeat split. lia. }
  destruct (IH (S i)) as (notes & final & Hu & Hp & Hlen & Hc).
  assert (Hstep : (S i + left + 4) / 5 - (S i + 4) / 5
                  <= (i + S left + 4) / 5 - (i + 4) / 5).
  { replace (i + S left + 4) with (S i + left + 4) by lia.
    assert ((i + 4) / 5 <= (S i + 4) / 5) by (apply Nat.Div0.div_le_mono; lia).
    pose proof (Nat.div_mod_eq (i + 4) 5). pose proof (Nat.div_mod_eq (S i + 4) 5).
    pose proof (Nat.mod_upper_bound (i + 4) 5). pose proof (Nat.mod_upper_bound (S i + 4) 5).
    lia. }
  cbn [pollTask].
  destruct (poll i) as [body nested|]; cbn zeta.
  - destruct (first_image _) as [url|].
    { exists [], (update completed Generated (Some url) taskId). cbn.
      repeat split. lia. }
    destruct (status_failed _).
    { eexists [], _. cbn. repeat split. lia. }
    destruct (Nat.eqb (i mod 5) 0) eqn:Hmod.
    + apply Nat.eqb_eq in Hmod.
      assert (Hnext : (S i + 4) / 5 = S ((i + 4) / 5)).
      { pose proof (Nat.div_mod_eq i 5).
        replace (S i + 4) with (1 * 5 + i) by lia.
        rewrite Nat.div_add_l by lia.
        replace (i + 4) with (4 + (i / 5) * 5) by lia.
        rewrite Nat.div_add by lia. cbn. lia. }
      assert (Hmono : (S i + 4) / 5 <= (S i + left + 4) / 5)
        by (apply Nat.Div0.div_le_mono; lia).
      replace (i + S left + 4) with (S i + left + 4) by lia.
      revert Hlen Hnext Hmono.
      generalize ((S i + left + 4) / 5) ((S i + 4) / 5) ((i + 4) / 5).
      intros X B A Hlen Hnext Hmono.
      eexists (_ :: notes), final. cbn. rewrite Hu. split; [done|].
      split; [done|]. split; [lia|done].
    + revert Hlen Hstep.
      generalize ((S i + left + 4) / 5 - (S i + 4) / 5)
                 ((i + S left + 4) / 5 - (i + 4) / 5).
      intros X Y Hlen Hstep.
      exists notes, final. cbn. split; [done|]. split; [done|]. split; [lia|done].
  - revert Hlen Hstep.
    generalize ((S i + left + 4) / 5 - (S i + 4) / 5)
               ((i + S left + 4) / 5 - (i + 4) / 5).
    intros X Y Hlen Hstep.
    exists notes, final. cbn. split; [done|]. split; [done|]. split; [lia|done].
Qed.

(** X6. Every run of [generate_ad_image] posts [started] first and one
    closing update last, with nothing but at most nine [progress] updates
    in between. The closing update is [completed], with the image, when
    the run returns an image, and [failed] in every other case. When the
    task cannot be created the run asks for no status and returns the
    error. *)
Theorem image_tool_posts :
  forall create poll prompt,
    let run := generateAdImage create poll prompt in
    exists notes final,
      updates run = update started (Generating prompt) None None :: notes ++ [final] /\
      forallb is_progress notes = true /\
      length notes <= 9 /\
      closes (result run) final /\
      (forall errorMessage, create = CreateFailed errorMessage ->
         notes = [] /\ statusRequests run = 0 /\ result run = ImageError errorMessage).
Proof.
  intros create poll prompt. cbv zeta. unfold generateAdImage.
  destruct create as [taskId|errorMessage].
  - destruct (pollTask_updates taskId poll 40 0) as (notes & final & Hu & Hp & Hlen & Hc).
    exists (update progress (InProgress taskId) None taskId :: notes), final.
    rewrite !result_say. unfold say at 1 2. cbn [updates]. rewrite Hu.
    split; [done|]. split; [done|]. split; [|split; [done|done]].
    change ((0 + 40 + 4) / 5 - (0 + 4) / 5) with 8 in Hlen. cbn [length]. lia.
  - exists [], (update failed (GenerationError errorMessage) None None).
    cbn. split; [done|]. split; [done|]. split; [lia|]. split; [done|].
    intros ? [= <-]. done.
Qed.

End ImageToolFacts.

(** ** The coordinator, further *)

Module CoordinatorMoreFacts.
Import Agent Coordinator.

(** No number is above itself. *)
Lemma gt_irrefl x : JS.gt x x = false.
Proof.
  unfold JS.gt. rewrite FloatAxioms.ltb_spec. unfold SpecFloat.SFltb.
  destruct (FloatOps.Prim2SF x) as [s|s| |s m e]; cbn; try done.
  - by destruct s.
  - destruct s; rewrite Z.compare_refl, Pos.compare_cont_refl; done.
Qed.

(** X7. Along every orderly schedule from a fresh agent,
    [isInAIReasoning] is true exactly while a [decideBidStrategy] call is
    running. *)
Theorem reasoning_flag_tracks_the_decision :
  forall name max evs w,
    run_orderly evs (boot name max) = Some w ->
    (isInAIReasoning (agent w) = true <-> decisions (loop w) <> []) /\
    (isInAIReasoning (agent w) = false <-> decisions (loop w) = []).
Proof.
  intros name max evs w Hrun.
  pose proof (CoordinatorFacts.DecisionInv_run _ _ _ _
                (CoordinatorFacts.run_orderly_serial _ _ _ Hrun)) as HI.
  rewrite (dinv_reasoning_flag _ HI).
  destruct (decisions (loop w)); cbn; intuition congruence.
Qed.

Lemma reasoning_flag_witness :
  isInAIReasoning (agent (sample waiting_for_status)) = true /\
  isInAIReasoning (agent (sample polling_at_the_end)) = false.
Proof.
  split.
  - assert (H : run_orderly waiting_for_status (boot "IceCo" 5%float)
                = Some (sample waiting_for_status)) by (vm_compute; reflexivity).
    apply (reasoning_flag_tracks_the_decision _ _ _ _ H). vm_compute. done.
  - assert (H : run_orderly polling_at_the_end (boot "IceCo" 5%float)
                = Some (sample polling_at_the_end)) by (vm_compute; reflexivity).
    apply (reasoning_flag_tracks_the_decision _ _ _ _ H). vm_compute. done.
Defined.

(** X8. Along every orderly schedule from a fresh agent, whenever
    [refundPending] is set the refund monitor is stopped, with no interval
    and no callback of it left, and either one decision is running, past
    its balance reads, or none is and the agent is inactive. *)
Theorem refund_pending_means_a_decision_will_see_it :
  forall name max evs w,
    run_orderly evs (boot name max) = Some w ->
    refundPending (agent w) = true ->
    monitoringInterval (agent w) = None /\
    refundTicks (loop w) = [] /\
    count_kind RefundMonitor w = 0 /\
    ((exists spot, decisions (loop w) = [{| dSpot := spot; dPhase := Reasoning |}])
     \/ (decisions (loop w) = [] /\ isActive (agent w) = false)).
Proof.
  intros name max evs w Hrun Hp.
  pose proof (CoordinatorFacts.DecisionInv_run _ _ _ _
                (CoordinatorFacts.run_orderly_serial _ _ _ Hrun)) as HI.
  destruct (dinv_refundPending _ HI Hp) as (Hm & Ht & Hr & Hd).
  pose proof (dinv_live _ HI) as inv_live. pose proof (dinv_single _ HI) as inv_single.
  split; [done|]. split; [done|]. split.
  - unfold count_kind. unfold live in inv_live. rewrite Hm in inv_live.
    destruct (auctionEndMonitoringInterval (agent w)); cbn in inv_live;
      destruct (intervals (loop w)) as [|[] [|? ?]]; cbn in *; simplify_eq;
      by repeat (case_decide; cbn).
  - unfold pending in *.
    destruct (decisions (loop w)) as [|[spot ph] [|? ?]]; cbn in *; [right|left|lia].
    + split; [done|]. by apply Hd.
    + exists spot. destruct ph; cbn in Hr; done.
Qed.

Lemma refund_pending_witness :
  let w := sample outbid_mid_decision in
  refundPending (agent w) = true /\
  monitoringInterval (agent w) = None /\
  decisions (loop w) = [{| dSpot := "banner"; dPhase := Reasoning |}].
Proof.
  intros w.
  assert (H : run_orderly outbid_mid_decision (boot "IceCo" 5%float) = Some w)
    by (vm_compute; reflexivity).
  assert (Hp : refundPending (agent w) = true) by (vm_compute; reflexivity).
  destruct (refund_pending_means_a_decision_will_see_it _ _ _ _ H Hp)
    as (Hm & _ & _ & _).
  split; [exact Hp|]. split; [exact Hm|]. vm_compute. reflexivity.
Defined.

(** X9. Whatever the status request of a refund callback comes back with
    (still winning, outbid, or nothing), the balance the callback read
    becomes the baseline of its monitor. A balance that is not above the
    baseline, in particular the same balance read again, ends the callback
    at once: the baseline follows it and nothing else changes. When the
    status request fails the refund is dropped: agent, intervals and
    scheduled decisions stay as they were. *)
Theorem refund_baseline_follows_the_balance :
  (forall w k t cur amt response w',
      refundTicks (loop w) !! k = Some t ->
      rtPhase t = RefundAwaitingStatus cur amt ->
      refundTick_onStatus k response w = Some w' ->
      previousBalance (loop w') !! rtMonitor t = Some cur) /\
  (forall w k t b prev w',
      refundTicks (loop w) !! k = Some t ->
      rtPhase t = RefundAwaitingBalance ->
      previousBalance (loop w) !! rtMonitor t = Some prev ->
      JS.gt b prev = false ->
      refundTick_onBalance k b w = Some w' ->
      previousBalance (loop w') !! rtMonitor t = Some b /\
      refundTicks (loop w') = delete k (refundTicks (loop w)) /\
      agent w' = agent w /\ intervals (loop w') = intervals (loop w) /\
      timeouts (loop w') = timeouts (loop w)) /\
  (forall w k t b w',
      refundTicks (loop w) !! k = Some t ->
      rtPhase t = RefundAwaitingBalance ->
      previousBalance (loop w) !! rtMonitor t = Some b ->
      refundTick_onBalance k b w = Some w' ->
      refundTicks (loop w') = delete k (refundTicks (loop w)) /\
      agent w' = agent w /\ timeouts (loop w') = timeouts (loop w)) /\
  (forall w k t cur amt w',
      refundTicks (loop w) !! k = Some t ->
      rtPhase t = RefundAwaitingStatus cur amt ->
      refundTick_onStatus k None w = Some w' ->
      agent w' = agent w /\ intervals (loop w') = intervals (loop w) /\
      timeouts (loop w') = timeouts (loop w) /\
      immediates (loop w') = immediates (loop w) /\
      refundTicks (loop w') = delete k (refundTicks (loop w))).
Proof.
  assert (Hflat : forall w k t b prev w',
      refundTicks (loop w) !! k = Some t ->
      rtPhase t = RefundAwaitingBalance ->
      previousBalance (loop w) !! rtMonitor t = Some prev ->
      JS.gt b prev = false ->
      refundTick_onBalance k b w = Some w' ->
      previousBalance (loop w') !! rtMonitor t = Some b /\
      refundTicks (loop w') = delete k (refundTicks (loop w)) /\
      agent w' = agent w /\ intervals (loop w') = intervals (loop w) /\
      timeouts (loop w') = timeouts (loop w)).
  { intros [a l] k t b prev w' Hk Hph Hprev Hgt Hex.
    unfold refundTick_onBalance in Hex. cbn in *. rewrite Hk in Hex. cbn in Hex.
    rewrite Hph, Hprev in Hex. cbn in Hex. rewrite Hgt in Hex. simplify_eq.
    cbn. split; [apply lookup_insert_eq|done]. }
  split; [|split; [exact Hflat|split]].
  - intros [a l] k t cur amt response w' Hk Hph Hex.
    unfold refundTick_onStatus in Hex. cbn in *. rewrite Hk in Hex. cbn in Hex.
    rewrite Hph in Hex.
    destruct response as [state|]; [destruct (same_name _ _)|]; simplify_eq;
      cbn; apply lookup_insert_eq.
  - intros w k t b w' Hk Hph Hprev Hex.
    destruct (Hflat w k t b b w' Hk Hph Hprev (gt_irrefl b) Hex) as (_ & ? & ? & _ & ?).
    done.
  - intros [a l] k t cur amt w' Hk Hph Hex.
    unfold refundTick_onStatus in Hex. cbn in *. rewrite Hk in Hex. cbn in Hex.
    rewrite Hph in Hex. simplify_eq. done.
Qed.

Lemma refund_baseline_witness :
  let w := sample waiting_for_status in
  let w' := default w (refundTick_onStatus 0 None w) in
  previousBalance (loop w') !! 1 = Some 1.5%float /\
  agent w' = agent w /\ timeouts (loop w') = [].
Proof.
  intros w w'.
  destruct refund_baseline_follows_the_balance as (Hbase & _ & _ & Hnone).
  assert (Hk : refundTicks (loop w) !! 0
               = Some {| rtMonitor := 1; rtSpot := "banner";
                         rtPhase := RefundAwaitingStatus 1.5%float 0.5%float |})
    by (vm_compute; reflexivity).
  assert (Hex : refundTick_onStatus 0 None w = Some w') by (vm_compute; reflexivity).
  split; [exact (Hbase w 0 _ _ _ None w' Hk eq_refl Hex)|].
  destruct (Hnone w 0 _ _ _ w' Hk eq_refl Hex) as (Ha & _ & Ht & _).
  split; [exact Ha|]. rewrite Ht. vm_compute. reflexivity.
Defined.

End CoordinatorMoreFacts.

(** ** The status route, further *)

Module StatusRouteMoreFacts.
Import StatusRoute.

(** X10. The status route answers 400 exactly when [adSpotId] is missing
    or empty, 500 exactly when the lookup of a spot other than the demo
    spot throws, and 200 otherwise. The 400 and 500 bodies are fixed texts:
    the message of the store's exception is not passed on. A 200 body
    names the spot that was asked for. *)
Theorem status_answers_by_case :
  forall duration db now query,
    let answer := GET duration db now query in
    (httpStatus answer = 400 <-> query = None \/ query = Some "") /\
    (httpStatus answer = 500 <->
     exists id why, query = Some id /\ id <> "" /\ id <> "demo-spot-1" /\
                    db id = DbThrows why) /\
    (httpStatus answer = 400 -> answer = BadRequest "adSpotId is required") /\
    (httpStatus answer = 500 -> answer = ServerError "Failed to fetch auction status") /\
    (httpStatus answer = 400 \/ httpStatus answer = 500 \/ httpStatus answer = 200) /\
    (forall body, answer = Ok body ->
       exists id, query = Some id /\ Status.adSpotId body = id).
Proof.
  intros duration db now query. cbv zeta. unfold GET.
  destruct query as [id|]; cbn.
  2:{ repeat split; try done; try (by left); try (intros [?|?]; done).
      intros (id & why & ? & _). done. }
  destruct (String.eqb id "") eqn:Hid.
  { apply String.eqb_eq in Hid. subst id. cbn.
    repeat split; try done; try (by right); try (by left).
    intros (id & why & [= <-] & ? & _). done. }
  apply String.eqb_neq in Hid.
  destruct (String.eqb id "demo-spot-1") eqn:Hdemo.
  { apply String.eqb_eq in Hdemo. subst id. cbn.
    split; [split; [done|intros [?|[= ?]]; done]|].
    split; [split; [done|intros (id & why & [= <-] & _ & ? & _); done]|].
    split; [done|]. split; [done|]. split; [by right; right|].
    intros body [= <-]. by eexists. }
  apply String.eqb_neq in Hdemo.
  destruct (db id) as [why|[r|]] eqn:Hdb; cbn.
  - split; [split; [done|intros [?|[= ?]]; done]|].
    split; [split; [intros _; by exists id, why|done]|].
    split; [done|]. split; [done|]. split; [by right; left|]. done.
  - split; [split; [done|intros [?|[= ?]]; done]|].
    split; [split; [done|intros (id' & why & [= <-] & _ & _ & ?); congruence]|].
    split; [done|]. split; [done|]. split; [by right; right|].
    intros body [= <-]. by eexists.
  - split; [split; [done|intros [?|[= ?]]; done]|].
    split; [split; [done|intros (id' & why & [= <-] & _ & _ & ?); congruence]|].
    split; [done|]. split; [done|]. split; [by right; right|].
    intros body [= <-]. by eexists.
Qed.

(** X11. For a spot with a record, the [timeRemaining] the status route
    shows never grows as the clock advances, is at most the whole seconds
    of the auction's duration once the auction has started, is zero
    exactly from one second before the deadline on, and otherwise is the
    number of whole seconds left. *)
Theorem time_remaining_counts_down :
  forall duration db id r,
    id <> "" -> id <> "demo-spot-1" -> db id = DbReturns (Some r) ->
    let shown := fun now => timeRemainingOf duration now r in
    (forall now, exists body,
       GET duration db now (Some id) = Ok body /\
       Status.timeRemaining body = Some (shown now)) /\
    (forall now now', (now <= now')%Z -> (shown now' <= shown now)%Z) /\
    (forall now, (0 <= duration)%Z -> (auctionStartTime r <= now)%Z ->
       (shown now <= duration / 1000)%Z) /\
    (forall now, shown now = 0%Z <->
       (auctionStartTime r + duration - now < 1000)%Z) /\
    (forall now, (0 < shown now)%Z ->
       (1000 * shown now <= auctionStartTime r + duration - now
        < 1000 * shown now + 1000)%Z).
Proof.
  intros duration db id r Hne Hdemo Hdb. cbv zeta. unfold timeRemainingOf.
  split; [|split; [|split; [|split]]].
  - intros now. unfold GET. apply String.eqb_neq in Hne, Hdemo.
    rewrite Hne, Hdemo, Hdb. eexists. split; reflexivity.
  - intros now now' Hle.
    assert ((auctionStartTime r + duration - now') / 1000
            <= (auctionStartTime r + duration - now) / 1000)%Z
      by (apply Z.div_le_mono; lia).
    lia.
  - intros now Hd Hs.
    assert ((auctionStartTime r + duration - now) / 1000 <= duration / 1000)%Z
      by (apply Z.div_le_mono; lia).
    assert (0 <= duration / 1000)%Z by (apply Z.div_pos; lia).
    lia.
  - intros now.
    pose proof (Z.div_mod (auctionStartTime r + duration - now) 1000 ltac:(lia)).
    pose proof (Z.mod_pos_bound (auctionStartTime r + duration - now) 1000 ltac:(lia)).
    lia.
  - intros now.
    pose proof (Z.div_mod (auctionStartTime r + duration - now) 1000 ltac:(lia)).
    pose proof (Z.mod_pos_bound (auctionStartTime r + duration - now) 1000 ltac:(lia)).
    lia.
Qed.

Lemma time_remaining_counts_down_witness :
  timeRemainingOf 300000 1000 (AuctionStateTool.openRecord 1000) = 300%Z /\
  (timeRemainingOf 300000 300500 (AuctionStateTool.openRecord 1000)
   <= timeRemainingOf 300000 1000 (AuctionStateTool.openRecord 1000))%Z.
Proof.
  destruct (time_remaining_counts_down 300000 (AuctionStateTool.oneSpot 1000) "spot-1"
              (AuctionStateTool.openRecord 1000)) as (_ & Hmono & _); [done|done|reflexivity|].
  split; [reflexivity|]. apply Hmono. lia.
Defined.

End StatusRouteMoreFacts.

(** ** The events route, further *)

Module EventsRouteMoreFacts.
Import EventsRoute.

Lemma filter_sorted {A} (R : A -> A -> Prop) (f : A -> bool) l :
  StronglySorted R l -> StronglySorted R (List.filter f l).
Proof.
  induction 1 as [|x l Hs IH Hall]; cbn; [constructor|].
  destruct (f x); [|done]. constructor; [done|].
  apply List.Forall_forall. intros y Hy. apply filter_In in Hy as [Hy _].
  by apply (proj1 (List.Forall_forall _ _) Hall).
Qed.

Lemma filter_none {A} (f : A -> bool) l :
  (forall x, In x l -> f x = false) -> List.filter f l = [].
Proof.
  induction l as [|x l IH]; intros H; [done|].
  change (List.filter f (x :: l)) with
    (if f x then x :: List.filter f l else List.filter f l).
  rewrite (H x) by (by left). apply IH. intros y Hy. apply H. by right.
Qed.

(** The demo history is written in the order of its timestamps. *)
Lemma demo_events_in_order now : StronglySorted earlier (allDemoEvents now).
Proof.
  unfold allDemoEvents. cbv zeta.
  repeat (apply SSorted_cons;
          [|repeat (apply List.Forall_cons;
                    [unfold earlier, demo, demoShared; cbn [timestamp]; lia|]);
            apply List.Forall_nil]).
  apply SSorted_nil.
Qed.

Lemma demo_events_are_recent now e :
  In e (allDemoEvents now) -> (now - 59000 <= timestamp e)%Z.
Proof.
  unfold allDemoEvents. cbv zeta. intros Hin.
  repeat (destruct Hin as [<-|Hin];
          [cbv [timestamp demo demoShared]; lia|]).
  destruct Hin.
Qed.

Lemma demo_events_number now : length (allDemoEvents now) = 22.
Proof. reflexivity. Qed.

Lemma getDemoEvents_eq now since :
  getDemoEvents now since = List.filter (keepDemoEvent now since) (allDemoEvents now).
Proof. reflexivity. Qed.

(** What is polled is part of the history. *)
Lemma demo_events_polled now since e :
  In e (getDemoEvents now since) -> In e (allDemoEvents now).
Proof. rewrite getDemoEvents_eq. intros He. by apply filter_In in He as [He _]. Qed.

(** The answer for the demo auction. *)
Lemma demo_answer parseDate store now sinceParam :
  exists since,
    since = match sinceParam with
            | Some s => if String.eqb s "" then None else Some (parseDate s)
            | None => None
            end /\
    events (GET parseDate store now "demo-spot-1" sinceParam) = getDemoEvents now since /\
    count (GET parseDate store now "demo-spot-1" sinceParam)
    = length (getDemoEvents now since).
Proof.
  assert (H : forall id, String.eqb id "demo-spot-1" = true ->
    exists since,
      since = match sinceParam with
              | Some s => if String.eqb s "" then None else Some (parseDate s)
              | None => None
              end /\
      events (GET parseDate store now id sinceParam) = getDemoEvents now since /\
      count (GET parseDate store now id sinceParam) = length (getDemoEvents now since)).
  { intros id Hid. eexists. split; [reflexivity|]. unfold GET. rewrite Hid.
    cbv zeta. cbn [events count]. unfold parseSince. split; reflexivity. }
  apply H. reflexivity.
Qed.

(** X12. Every poll of the demo auction returns events in strictly
    ascending order of timestamp, each one of the demo history and stamped
    between 59 and 8 seconds before the request; [count] is their number,
    at most 22, and exactly 22 without a watermark. *)
Theorem demo_poll_is_an_ordered_window :
  forall parseDate store now since,
    let polled := events (GET parseDate store now "demo-spot-1" since) in
    StronglySorted earlier polled /\
    (forall e, In e polled ->
       In e (allDemoEvents now) /\
       (now - 59000 <= timestamp e <= now - 8000)%Z) /\
    length polled <= 22 /\
    count (GET parseDate store now "demo-spot-1" since) = length polled /\
    (since = None -> length polled = 22).
Proof.
  intros parseDate store now since. cbv zeta.
  destruct (demo_answer parseDate store now since) as (parsed & Hparsed & -> & ->).
  split; [apply filter_sorted, demo_events_in_order|].
  split; [|split; [|split]].
  - intros e He. apply demo_events_polled in He. split; [exact He|].
    split; [exact (demo_events_are_recent now e He)
           |exact (EventsRouteFacts.demo_events_are_past now e He)].
  - etransitivity; [apply filter_length_le|]. by rewrite demo_events_number.
  - reflexivity.
  - intros ->. subst parsed. rewrite EventsRouteFacts.demo_history.
    apply demo_events_number.
Qed.

(** X13. A poll of the demo auction with a watermark that is at most
    eight seconds old returns no event. *)
Theorem demo_poll_with_a_fresh_watermark_is_empty :
  forall parseDate store now since watermark,
    since <> "" -> parseDate since = JS.DateMs watermark ->
    (now - 8000 <= watermark)%Z ->
    events (GET parseDate store now "demo-spot-1" (Some since)) = [] /\
    count (GET parseDate store now "demo-spot-1" (Some since)) = 0.
Proof.
  intros parseDate store now since watermark Hne Hparse Hfresh.
  assert (Hnone : getDemoEvents now (Some (JS.DateMs watermark)) = []).
  { unfold getDemoEvents. apply filter_none. intros e He.
    apply EventsRouteFacts.demo_events_are_past in He.
    cbv [keepDemoEvent JS.date_le].
    by rewrite (proj2 (Z.leb_le _ _)) by lia. }
  destruct (demo_answer parseDate store now (Some since)) as (parsed & Hparsed & -> & ->).
  apply String.eqb_neq in Hne. rewrite Hne, Hparse in Hparsed. subst parsed.
  by rewrite Hnone.
Qed.

Lemma demo_poll_with_a_fresh_watermark_witness :
  events (GET (readAs 100000) (contract []) 102000 "demo-spot-1"
            (Some "2025-01-01T00:01:40.000Z"))
  = [].
Proof.
  apply (demo_poll_with_a_fresh_watermark_is_empty (readAs 100000) (contract []) 102000
           "2025-01-01T00:01:40.000Z" 100000); [done|reflexivity|lia].
Defined.

(** X14. A poll of the demo auction whose [since] is no readable date
    returns the full history, as a poll without watermark does. *)
Theorem demo_poll_ignores_an_unreadable_watermark :
  forall parseDate store now since,
    parseDate since = JS.InvalidDate ->
    events (GET parseDate store now "demo-spot-1" (Some since))
    = events (GET parseDate store now "demo-spot-1" None) /\
    events (GET parseDate store now "demo-spot-1" (Some since)) = allDemoEvents now.
Proof.
  intros parseDate store now since Hparse.
  destruct (demo_answer parseDate store now None) as (none & -> & -> & _).
  destruct (demo_answer parseDate store now (Some since)) as (parsed & Hparsed & -> & _).
  rewrite EventsRouteFacts.demo_history.
  assert (getDemoEvents now parsed = allDemoEvents now) as ->; [|done].
  subst parsed. destruct (String.eqb since ""); [apply EventsRouteFacts.demo_history|].
  rewrite Hparse, <- (EventsRouteFacts.demo_history now) at 1. unfold getDemoEvents.
  apply filter_ext. intros e. reflexivity.
Qed.

Lemma demo_poll_ignores_an_unreadable_watermark_witness :
  length (events (GET noDate (contract []) 100000 "demo-spot-1" (Some "yesterday")))
  = 22.
Proof.
  destruct (demo_poll_ignores_an_unreadable_watermark noDate (contract []) 100000
              "yesterday")
    as [_ ->]; [reflexivity|]. reflexivity.
Defined.

End EventsRouteMoreFacts.

(** ** The auction page, further *)

Module PagePollingFacts.
Import AuctionPage PagePolling.

Lemma lookup_map {A B} (f : A -> B) (l : list A) i :
  map f l !! i = f <$> (l !! i).
Proof. revert i. induction l as [|x l IH]; intros [|i]; cbn; auto. Qed.

Lemma same_but_reflection_refl msg : same_but_reflection msg msg.
Proof. by destruct msg. Qed.

Lemma same_but_reflection_trans a b c :
  same_but_reflection a b -> same_but_reflection b c -> same_but_reflection a c.
Proof.
  unfold same_but_reflection. destruct a, b, c; cbn. intros [=] [=]. by subst.
Qed.

(** What such messages share decides whether a bid event matches them. *)
Lemma same_but_reflection_key a b :
  same_but_reflection a b ->
  type b = type a /\ agentId b = agentId a /\
  transactionHash b = transactionHash a.
Proof. unfold same_but_reflection. by intros ->. Qed.

Lemma kept_refl msg : kept msg msg.
Proof. split; [apply same_but_reflection_refl|done]. Qed.

Lemma kept_trans a b c : kept a b -> kept b c -> kept a c.
Proof.
  intros [Hab Hsa] [Hbc Hsb]. split.
  - by eapply same_but_reflection_trans.
  - intros Hs. specialize (Hsa Hs). subst b. by apply Hsb.
Qed.

Lemma attachReflection_kept data msg : kept msg (attachReflection data msg).
Proof.
  unfold attachReflection.
  destruct (bool_decide (type msg = bid)) eqn:Hty; cbn; [|apply kept_refl].
  destruct (bool_decide (agentId msg = evAgentId data)); cbn; [|apply kept_refl].
  destruct (default false (isLoading msg)) eqn:Hl; cbn; [|apply kept_refl].
  split; [done|]. unfold settled. by rewrite Hty, Hl.
Qed.

(** One event: the list grows by at most one message, and every message
    stays in its place. *)
Lemma dispatch_messages now iso data st :
  (exists f added,
     messages (dispatch now iso data st) = map f (messages st) ++ added /\
     length added <= 1 /\ forall msg, kept msg (f msg)).
Proof.
  unfold dispatch.
  repeat match goal with
  | |- context [if String.eqb ?a ?b then _ else _] => destruct (String.eqb a b)
  end; cbn.
  all: try (eexists (fun m => m), [_]; rewrite map_id; split; [done|];
            split; [cbn; lia|apply kept_refl]).
  - destruct (existsb _ _).
    + exists (fun m => m), []. rewrite map_id, app_nil_r.
      split; [done|]. split; [cbn; lia|apply kept_refl].
    + eexists (fun m => m), [_]. rewrite map_id.
      split; [done|]. split; [cbn; lia|apply kept_refl].
  - exists (attachReflection data), []. rewrite app_nil_r.
    split; [done|]. split; [cbn; lia|apply attachReflection_kept].
  - exists (fun m => m), []. rewrite map_id, app_nil_r.
    split; [done|]. split; [cbn; lia|apply kept_refl].
Qed.

Lemma processEvent_messages now iso data st :
  (exists f added,
     messages (processEvent now iso data st) = map f (messages st) ++ added /\
     length added <= 1 /\ forall msg, kept msg (f msg)).
Proof.
  unfold processEvent. case_bool_decide.
  - exists (fun m => m), []. rewrite map_id, app_nil_r.
    split; [done|]. split; [cbn; lia|apply kept_refl].
  - apply (dispatch_messages now iso data (markSeen _ st)).
Qed.

Lemma processEvent_seen now iso data st :
  seenEventIds st ⊆ seenEventIds (processEvent now iso data st).
Proof.
  unfold processEvent. case_bool_decide; [done|].
  rewrite AuctionPageFacts.dispatch_keeps_seen. cbn. set_solver.
Qed.

Lemma processAll_messages clock events : forall k st,
  length (messages st) <= length (messages (processAll clock k events st))
    <= length (messages st) + length events /\
  seenEventIds st ⊆ seenEventIds (processAll clock k events st) /\
  forall i msg, messages st !! i = Some msg ->
    exists msg', messages (processAll clock k events st) !! i = Some msg' /\
                 kept msg msg'.
Proof.
  induction events as [|data events IH]; intros k st; cbn [processAll].
  { split; [cbn; lia|]. split; [done|]. intros i msg Hi. exists msg.
    split; [done|apply kept_refl]. }
  destruct (processEvent_messages (clock k).1 (clock k).2 data st)
    as (f & added & Hm & Hlen & Hf).
  pose proof (processEvent_seen (clock k).1 (clock k).2 data st) as Hseen.
  destruct (IH (S k) (processEvent (clock k).1 (clock k).2 data st))
    as (Hl & Hs & Hkeep).
  rewrite Hm, length_app, length_map in Hl.
  split; [cbn [length]; lia|]. split; [by etransitivity|].
  intros i msg Hi.
  destruct (Hkeep i (f msg)) as (msg' & Hi' & Hk).
  { apply lookup_lt_Some in Hi as Hlt.
    rewrite Hm, lookup_app_l by (by rewrite length_map).
    by rewrite lookup_map, Hi. }
  exists msg'. split; [done|]. eapply kept_trans; [apply Hf|done].
Qed.

(** X15. A poll never removes or reorders a message of the page. The
    list grows by at most one message per polled event; every message
    stays at its position, unchanged if it is anything but a bid waiting
    for its reflection, and otherwise with every field but its reflection
    and its loading flag as it was. The set of seen keys only grows. A
    poll that fails, or whose answer has no events, changes nothing. *)
Theorem polling_only_appends_and_completes :
  forall clock reply p,
    let p' := pollEvents clock reply p in
    length (messages (page p)) <= length (messages (page p')) /\
    (forall evs, (reply ≫= events) = Some evs ->
       length (messages (page p')) <= length (messages (page p)) + length evs) /\
    ((reply ≫= events) = None -> p' = p) /\
    seenEventIds (page p) ⊆ seenEventIds (page p') /\
    (forall i msg, messages (page p) !! i = Some msg ->
       exists msg', messages (page p') !! i = Some msg' /\
                    same_but_reflection msg msg' /\
                    (settled msg = true -> msg' = msg)).
Proof.
  intros clock reply p. cbv zeta. unfold pollEvents.
  assert (Hsame :
    length (messages (page p)) <= length (messages (page p)) /\
    (forall evs, (reply ≫= events) = Some evs ->
       length (messages (page p)) <= length (messages (page p)) + length evs) /\
    ((reply ≫= events) = None -> p = p) /\
    seenEventIds (page p) ⊆ seenEventIds (page p) /\
    (forall i msg, messages (page p) !! i = Some msg ->
       exists msg', messages (page p) !! i = Some msg' /\
                    same_but_reflection msg msg' /\
                    (settled msg = true -> msg' = msg))).
  { split; [lia|]. split; [intros; lia|]. split; [done|]. split; [done|].
    intros i msg Hi. exists msg. split; [done|]. apply kept_refl. }
  destruct (isPolling p); [|exact Hsame].
  destruct reply as [result|]; [|exact Hsame].
  cbn [mbind option_bind] in *.
  destruct (events result) as [evs|] eqn:Hev; [|exact Hsame].
  destruct (success result); [|exact Hsame].
  clear Hsame. cbn [page].
  destruct (processAll_messages clock evs 0 (page p)) as (Hl & Hs & Hk).
  split; [lia|]. split; [intros ? [= <-]; lia|]. split; [done|]. split; [done|].
  intros i msg Hi. destruct (Hk i msg Hi) as (msg' & ? & ? & ?). by exists msg'.
Qed.

Lemma polling_only_appends_witness :
  let p := {| page := loadInitialState (InitialData None (Some [fizzHistory])) freshPage;
              lastFetched := None; isPolling := true |} in
  let reply := Some {| success := true; events := Some [thinkingEvent; fizzReflection];
                       resultTimestamp := Some "2025-01-01T00:00:40.000Z" |} in
  let p' := pollEvents (ticking 1735689640000) reply p in
  length (messages (page p')) <= 3 /\
  exists msg', messages (page p') !! 0 = Some msg' /\
               same_but_reflection (historicalMessage fizzHistory) msg'.
Proof.
  intros p reply p'.
  destruct (polling_only_appends_and_completes (ticking 1735689640000) reply p)
    as (_ & Hlen & _ & _ & Hkeep).
  split.
  - apply (Hlen [thinkingEvent; fizzReflection]). reflexivity.
  - destruct (Hkeep 0 (historicalMessage fizzHistory)) as (msg' & ? & ? & _);
      [reflexivity|]. by exists msg'.
Defined.

(** *** Bids and reflections *)

Lemma sameBid_kept data old new :
  kept old new -> sameBid data new = sameBid data old.
Proof.
  intros [(Hty & Hag & Htx)%same_but_reflection_key _]. unfold sameBid.
  by rewrite Hty, Hag, Htx.
Qed.

Lemma sameBid_stays clock events data : forall k st,
  existsb (sameBid data) (messages st) = true ->
  existsb (sameBid data) (messages (processAll clock k events st)) = true.
Proof.
  intros k st Hex. apply existsb_exists in Hex as (msg & Hin & Hsame).
  apply list_elem_of_In, list_elem_of_lookup in Hin as [i Hi].
  destruct (processAll_messages clock events k st) as (_ & _ & Hk).
  destruct (Hk i msg Hi) as (msg' & Hi' & Hkept).
  apply existsb_exists. exists msg'. split.
  - apply list_elem_of_In, list_elem_of_lookup. by exists i.
  - by rewrite (sameBid_kept data msg msg' Hkept).
Qed.

Lemma dispatch_bid now iso data st :
  evType data = "bid_placed" ->
  dispatch now iso data st =
  setCurrentBid (evAmount data)
    (setMessages (fun prev => if existsb (sameBid data) prev then prev
                              else prev ++ [bidMessage now data]) st).
Proof. intros Hty. unfold dispatch. by rewrite Hty. Qed.

Lemma dispatch_reflection now iso data st :
  evType data = "reflection" ->
  dispatch now iso data st = setMessages (map (attachReflection data)) st.
Proof. intros Hty. unfold dispatch. by rewrite Hty. Qed.

Lemma sameBid_bidMessage now data : sameBid data (bidMessage now data) = true.
Proof. unfold sameBid. cbn. by rewrite !bool_decide_eq_true_2. Qed.

(** A new bid leaves its message in the list. *)
Lemma bid_first_shown now iso data st :
  evType data = "bid_placed" ->
  eventIdOf now data ∉ seenEventIds st ->
  existsb (sameBid data) (messages (processEvent now iso data st)) = true /\
  currentBid (processEvent now iso data st) = evAmount data.
Proof.
  intros Hty Hnew. unfold processEvent.
  rewrite bool_decide_eq_false_2 by done. rewrite dispatch_bid by done. cbn.
  split; [|done]. destruct (existsb (sameBid data) (messages st)) eqn:Hex; [done|].
  rewrite existsb_app. cbn [existsb]. by rewrite sameBid_bidMessage, orb_true_r.
Qed.

(** A bid that is in the list is not added again. *)
Lemma bid_again_adds_nothing now iso data st :
  evType data = "bid_placed" ->
  existsb (sameBid data) (messages st) = true ->
  messages (processEvent now iso data st) = messages st.
Proof.
  intros Hty Hex. unfold processEvent.
  case_bool_decide; [done|]. rewrite dispatch_bid by done. cbn. by rewrite Hex.
Qed.

(** X16. Processing a new [bid_placed] event leaves a bid message of its
    agent and transaction hash in the list and sets the current bid to its
    amount. Such a message stays in the list whatever is polled later, and
    while it is there a [bid_placed] event of the same agent and hash adds
    nothing, at whatever time it is processed. *)
Theorem a_bid_is_shown_once :
  (forall now iso data st,
      evType data = "bid_placed" ->
      eventIdOf now data ∉ seenEventIds st ->
      existsb (sameBid data) (messages (processEvent now iso data st)) = true /\
      currentBid (processEvent now iso data st) = evAmount data) /\
  (forall clock events k data st,
      existsb (sameBid data) (messages st) = true ->
      existsb (sameBid data) (messages (processAll clock k events st)) = true) /\
  (forall now iso data st,
      evType data = "bid_placed" ->
      existsb (sameBid data) (messages st) = true ->
      messages (processEvent now iso data st) = messages st) /\
  (forall now iso clock events now' iso' data st,
      evType data = "bid_placed" ->
      eventIdOf now data ∉ seenEventIds st ->
      let shown := processAll clock 0 events (processEvent now iso data st) in
      messages (processEvent now' iso' data shown) = messages shown).
Proof.
  split; [exact bid_first_shown|]. split; [intros; by apply sameBid_stays|].
  split; [exact bid_again_adds_nothing|].
  intros now iso clock events now' iso' data st Hty Hnew. cbv zeta.
  apply bid_again_adds_nothing; [done|]. apply sameBid_stays.
  by apply bid_first_shown.
Qed.

Lemma a_bid_is_shown_once_witness :
  let shown := processAll (ticking 1735689631000) 0 [thinkingEvent; fizzReflection]
                 (processEvent 1735689630000 "" fizzBid freshPage) in
  messages (processEvent 1735689650000 "" fizzBid shown) = messages shown.
Proof.
  destruct a_bid_is_shown_once as (_ & _ & _ & Honce).
  apply (Honce 1735689630000%Z "" (ticking 1735689631000)
           [thinkingEvent; fizzReflection] 1735689650000%Z "" fizzBid freshPage).
  - reflexivity.
  - apply not_elem_of_empty.
Defined.

Lemma attachReflection_done data msg :
  (type msg = bid -> agentId msg = evAgentId data ->
   default false (isLoading msg) = false) ->
  attachReflection data msg = msg.
Proof.
  intros H. unfold attachReflection.
  destruct (bool_decide (type msg = bid)) eqn:Hty; cbn; [|done].
  destruct (bool_decide (agentId msg = evAgentId data)) eqn:Hag; cbn; [|done].
  apply bool_decide_eq_true in Hty, Hag. by rewrite H.
Qed.

Lemma attachReflection_loaded data msg :
  type (attachReflection data msg) = bid ->
  agentId (attachReflection data msg) = evAgentId data ->
  default false (isLoading (attachReflection data msg)) = false.
Proof.
  unfold attachReflection.
  destruct (bool_decide (type msg = bid)) eqn:Hty; cbn.
  2:{ apply bool_decide_eq_false in Hty. done. }
  destruct (bool_decide (agentId msg = evAgentId data)) eqn:Hag; cbn.
  2:{ apply bool_decide_eq_false in Hag. done. }
  by destruct (default false (isLoading msg)) eqn:Hl; cbn.
Qed.

(** X17. A new [reflection] event adds no message: it gives its text to
    every bid of its agent that is waiting and marks it loaded. After it
    no bid of that agent is waiting, and a further reflection of the same
    agent changes nothing. *)
Theorem a_reflection_completes_the_waiting_bids :
  forall now iso data st,
    evType data = "reflection" ->
    eventIdOf now data ∉ seenEventIds st ->
    let st' := processEvent now iso data st in
    messages st' = map (attachReflection data) (messages st) /\
    length (messages st') = length (messages st) /\
    (forall msg, In msg (messages st') ->
       type msg = bid -> agentId msg = evAgentId data ->
       default false (isLoading msg) = false) /\
    (forall i msg, messages st !! i = Some msg ->
       type msg = bid -> agentId msg = evAgentId data -> isLoading msg = Some true ->
       exists msg', messages st' !! i = Some msg' /\
                    msgReflection msg' = evReflection data /\
                    isLoading msg' = Some false /\ amount msg' = amount msg) /\
    (forall now' iso' data',
       evType data' = "reflection" -> evAgentId data' = evAgentId data ->
       messages (processEvent now' iso' data' st') = messages st').
Proof.
  intros now iso data st Hty Hnew. cbv zeta.
  assert (Hm : messages (processEvent now iso data st)
               = map (attachReflection data) (messages st)).
  { unfold processEvent. rewrite bool_decide_eq_false_2 by done.
    by rewrite dispatch_reflection. }
  assert (Hdone : forall msg, In msg (messages (processEvent now iso data st)) ->
     type msg = bid -> agentId msg = evAgentId data ->
     default false (isLoading msg) = false).
  { intros msg Hin. rewrite Hm in Hin. apply in_map_iff in Hin as (m & <- & _).
    apply attachReflection_loaded. }
  split; [done|]. split; [by rewrite Hm, length_map|]. split; [done|]. split.
  - intros i msg Hi Hbid Hag Hload. rewrite Hm, lookup_map, Hi. cbn.
    eexists. split; [done|]. unfold attachReflection.
    rewrite !bool_decide_eq_true_2 by done. rewrite Hload. cbn. done.
  - intros now' iso' data' Hty' Hag'. unfold processEvent at 1.
    case_bool_decide; [done|]. rewrite dispatch_reflection by done. cbn.
    rewrite <- (map_id (messages (processEvent now iso data st))) at 2.
    apply map_ext_in. intros msg Hin. apply attachReflection_done.
    intros Hb Ha. apply Hdone; [done|done|congruence].
Qed.

Lemma a_reflection_completes_witness :
  let st := processEvent 1735689630000 "" fizzBid freshPage in
  let st' := processEvent 1735689633000 "" fizzReflection st in
  map msgReflection (messages st') = [Some "Successfully outbid competitor."] /\
  map isLoading (messages st') = [Some false].
Proof.
  intros st st'.
  destruct (a_reflection_completes_the_waiting_bids 1735689633000 "" fizzReflection st)
    as (Hm & _); [reflexivity| |].
  { unfold st, processEvent, freshPage, markSeen. cbn.
    apply not_elem_of_union. split; [|apply not_elem_of_empty].
    apply not_elem_of_singleton. vm_compute. intros [=]. }
  fold st' in Hm. rewrite Hm. vm_compute. done.
Defined.

(** *** The first load *)

(** X18. [loadInitialState] with a bid history replaces the messages of
    the page by one bid message per entry and keeps the set of seen keys.
    A [bid_placed] event for a bid of the history then adds nothing. An
    event with a transaction hash that was processed before the load is
    skipped after it, so its message is not shown again. A failed load
    changes nothing, and a body without history keeps the messages. *)
Theorem history_replaces_what_was_shown :
  forall current bids st,
    let st0 := loadInitialState (InitialData current (Some bids)) st in
    messages st0 = map historicalMessage bids /\
    seenEventIds st0 = seenEventIds st /\
    currentBid st0 = current /\
    (forall b now iso data,
       In b bids -> evType data = "bid_placed" ->
       evAgentId data = Some (hbAgentId b) ->
       evTransactionHash data = hbTxHash b ->
       messages (processEvent now iso data st0) = map historicalMessage bids) /\
    (forall now iso now' iso' data,
       JS.truthy_str (evTransactionHash data) = true ->
       messages
         (processEvent now' iso' data
            (loadInitialState (InitialData current (Some bids))
               (processEvent now iso data st)))
       = map historicalMessage bids) /\
    loadInitialState InitialFailed st = st /\
    messages (loadInitialState (InitialData current None) st) = messages st.
Proof.
  intros current bids st. cbv zeta. cbn.
  split; [done|]. split; [done|]. split; [done|]. split; [|split; [|done]].
  - intros b now iso data Hin Hty Hag Htx.
    apply (bid_again_adds_nothing now iso data
             {| seenEventIds := seenEventIds st;
                messages := map historicalMessage bids; currentBid := current |});
      [done|].
    apply existsb_exists. exists (historicalMessage b).
    split; [by apply in_map|]. unfold sameBid. cbn.
    by rewrite !bool_decide_eq_true_2.
  - intros now iso now' iso' data Hh. unfold processEvent at 1.
    rewrite bool_decide_eq_true_2; [done|]. cbn.
    rewrite (AuctionPageFacts.eventIdOf_with_hash now' now data Hh).
    apply AuctionPageFacts.processEvent_marks_seen.
Qed.

Lemma history_replaces_witness :
  let st0 := loadInitialState (InitialData (Some 0.75%float) (Some [fizzHistory]))
               freshPage in
  messages (processEvent 1735689650000 "" fizzBid st0) = [historicalMessage fizzHistory].
Proof.
  intros st0.
  destruct (history_replaces_what_was_shown (Some 0.75%float) [fizzHistory] freshPage)
    as (_ & _ & _ & Hbid & _).
  apply (Hbid fizzHistory); [by left|reflexivity|reflexivity|reflexivity].
Defined.

(** *** The terminals *)

Lemma flat_map_filter_none {A B} (f : A -> list B) (p : A -> bool) l :
  Forall (fun x => p x = false) l -> flat_map f (List.filter p l) = [].
Proof.
  induction 1 as [|x l Hx _ IH]; [done|]. cbn [List.filter]. by rewrite Hx.
Qed.

Lemma flat_map_filter_all {A B} (f : A -> list B) (p : A -> bool) l :
  Forall (fun x => p x = true) l -> flat_map f (List.filter p l) = flat_map f l.
Proof.
  induction 1 as [|x l Hx _ IH]; [done|]. cbn [List.filter]. rewrite Hx. cbn.
  by rewrite IH.
Qed.

(** X19. Messages other than auction-ended that are not filed under a
    brand never reach the terminal of that brand: messages filed under
    IceCo give all their lines to IceCo's terminal and none to FizzUp's.
    Brand names are stable under [getBrandName], and the agents filed
    under IceCo are exactly IceCo and AgentA. *)
Theorem terminals_do_not_leak :
  (forall msgs,
      Forall (fun m => type m <> auction_ended /\ brandOf m <> "FizzUp") msgs ->
      fizzUpLogs (splitLogs msgs) = []) /\
  (forall msgs,
      Forall (fun m => type m <> auction_ended /\ brandOf m <> "IceCo") msgs ->
      iceCoLogs (splitLogs msgs) = []) /\
  (forall msgs,
      Forall (fun m => type m <> auction_ended /\ brandOf m = "IceCo") msgs ->
      iceCoLogs (splitLogs msgs) = flat_map messageToTerminalLog msgs /\
      fizzUpLogs (splitLogs msgs) = []) /\
  (forall agent, getBrandName (getBrandName agent) = getBrandName agent) /\
  (forall agent, getBrandName agent = "IceCo" <-> agent = "IceCo" \/ agent = "AgentA").
Proof.
  assert (Hno : forall brand msgs,
    Forall (fun m => type m <> auction_ended /\ brandOf m <> brand) msgs ->
    Forall (fun m => shownTo brand m = false) msgs).
  { intros brand msgs H. eapply Forall_impl; [exact H|].
    intros m [Hty Hb]. unfold shownTo.
    by rewrite (proj2 (String.eqb_neq _ _) Hb), bool_decide_eq_false_2. }
  assert (Hlogs : forall msgs,
    iceCoLogs (splitLogs msgs)
    = flat_map messageToTerminalLog (List.filter (shownTo "IceCo") msgs) /\
    fizzUpLogs (splitLogs msgs)
    = flat_map messageToTerminalLog (List.filter (shownTo "FizzUp") msgs)).
  { intros msgs. unfold splitLogs.
    by destruct (AuctionPageFacts.splitLogs_from
                   {| iceCoLogs := []; fizzUpLogs := [] |} msgs) as [-> ->]. }
  split; [|split; [|split; [|split]]].
  - intros msgs H. rewrite (proj2 (Hlogs msgs)).
    by apply flat_map_filter_none, Hno.
  - intros msgs H. rewrite (proj1 (Hlogs msgs)).
    by apply flat_map_filter_none, Hno.
  - intros msgs H. destruct (Hlogs msgs) as [-> ->]. split.
    + apply flat_map_filter_all. eapply Forall_impl; [exact H|].
      intros m [_ Hb]. unfold shownTo. by rewrite Hb.
    + apply flat_map_filter_none, Hno. eapply Forall_impl; [exact H|].
      intros m [Hty Hb]. split; [done|]. by rewrite Hb.
  - intros agent. unfold getBrandName.
    destruct (String.eqb agent "IceCo" || String.eqb agent "AgentA") eqn:H1; [done|].
    destruct (String.eqb agent "FizzUp" || String.eqb agent "AgentB") eqn:H2; [done|].
    by rewrite H1, H2.
  - intros agent. unfold getBrandName.
    destruct (String.eqb agent "IceCo") eqn:H1;
      [apply String.eqb_eq in H1; split; [by left|done]|].
    destruct (String.eqb agent "AgentA") eqn:H2;
      [apply String.eqb_eq in H2; split; [by right|done]|].
    apply String.eqb_neq in H1, H2. cbn.
    destruct (String.eqb agent "FizzUp" || String.eqb agent "AgentB") eqn:H3.
    + split; [done|intros [?|?]; done].
    + split; [done|intros [?|?]; done].
Qed.

Lemma terminals_do_not_leak_witness :
  fizzUpLogs (splitLogs [thinkingMessage 1735689621000 thinkingEvent]) = [].
Proof.
  apply (proj1 terminals_do_not_leak). constructor; [|constructor]. split; done.
Defined.

End PagePollingFacts.
